(** * quickunit.plugin: diff-driven test selection and coverage report

    A shallow embedding of [QuickUnitPlugin] (quickunit/plugin.py).  The
    plugin object is a record that is threaded through the nose hooks
    ([configure], [begin], [wantMethod], [afterImport], [stopTest],
    [report]); Python dictionaries are finite maps, Python sets are finite
    sets, and a hook that can raise returns an [option]. *)

From Stdlib Require Import ZArith String Ascii List Bool Lia.
From stdpp Require Import gmap strings list fin_maps.

Local Open Scope Z_scope.
Local Open Scope string_scope.

(** ** Python string primitives used by the plugin *)

Module Py.

(** [s.startswith(p)] *)
Definition startswith (s p : string) : bool := String.prefix p s.

(** [s[n:]] *)
Fixpoint drop (n : nat) (s : string) : string :=
  match n, s with
  | O, _ => s
  | S n', String _ s' => drop n' s'
  | S _, EmptyString => EmptyString
  end.

(** [s[:n]] for a non-negative [n] *)
Fixpoint take (n : nat) (s : string) : string :=
  match n, s with
  | O, _ => EmptyString
  | S n', String c s' => String c (take n' s')
  | S _, EmptyString => EmptyString
  end.

(** [s[:-n]]: with [n = 0] the slice is [s[:0]], the empty string *)
Definition drop_last (n : nat) (s : string) : string :=
  match n with
  | O => EmptyString
  | S _ => take (String.length s - n) s
  end.

Fixpoint has_char (c : ascii) (s : string) : bool :=
  match s with
  | EmptyString => false
  | String d s' => Ascii.eqb c d || has_char c s'
  end.

(** [s.rsplit('.', 1)[0]]: what precedes the last dot, all of [s] when
    it has no dot *)
Fixpoint rsplit_dot_head (s : string) : string :=
  match s with
  | EmptyString => EmptyString
  | String c s' =>
      if Ascii.eqb c "."%char && negb (has_char "."%char s')
      then EmptyString
      else String c (rsplit_dot_head s')
  end.

(** [s.endswith('/')] *)
Fixpoint endswith_slash (s : string) : bool :=
  match s with
  | EmptyString => false
  | String c EmptyString => Ascii.eqb c "/"%char
  | String _ s' => endswith_slash s'
  end.

(** [os.path.join(a, b)] of posixpath *)
Definition path_join (a b : string) : string :=
  if startswith b "/" then b
  else if String.eqb a "" || endswith_slash a then a ++ b
  else a ++ "/" ++ b.

(** [s.split('\n')] *)
Fixpoint split_nl (s : string) : list string :=
  match s with
  | EmptyString => [EmptyString]
  | String c s' =>
      if Ascii.eqb c "010"%char then EmptyString :: split_nl s'
      else match split_nl s' with
           | [] => [String c EmptyString]
           | w :: ws => String c w :: ws
           end
  end.

(** the characters [str.strip()] removes *)
Definition is_space (c : ascii) : bool :=
  let n := nat_of_ascii c in
  (Nat.eqb n 32 || (Nat.leb 9 n && Nat.leb n 13))%bool.

Fixpoint lstrip (s : string) : string :=
  match s with
  | EmptyString => EmptyString
  | String c s' => if is_space c then lstrip s' else s
  end.

Fixpoint rstrip (s : string) : string :=
  match s with
  | EmptyString => EmptyString
  | String c s' =>
      match rstrip s' with
      | EmptyString => if is_space c then EmptyString else String c EmptyString
      | r => String c r
      end
  end.

(** [s.strip()] *)
Definition strip (s : string) : string := rstrip (lstrip s).

(** truth value of a string *)
Definition truthy (s : string) : bool := negb (String.eqb s "").

(** [p[:p.rfind('/') + 1]]: up to and with the last slash *)
Fixpoint head_to_last_slash (p : string) : string :=
  match p with
  | EmptyString => EmptyString
  | String c p' =>
      if has_char "/"%char p then String c (head_to_last_slash p')
      else EmptyString
  end.

(** [s == '/' * len(s)] *)
Fixpoint all_slashes (s : string) : bool :=
  match s with
  | EmptyString => true
  | String c s' => Ascii.eqb c "/"%char && all_slashes s'
  end.

(** [s.rstrip('/')] *)
Fixpoint rstrip_slashes (s : string) : string :=
  match s with
  | EmptyString => EmptyString
  | String c s' =>
      match rstrip_slashes s' with
      | EmptyString =>
          if Ascii.eqb c "/"%char then EmptyString else String c EmptyString
      | r => String c r
      end
  end.

(** [os.path.dirname(p)] of posixpath *)
Definition dirname (p : string) : string :=
  let head := head_to_last_slash p in
  if truthy head && negb (all_slashes head) then rstrip_slashes head
  else head.

End Py.

(** ** Dictionaries with a default factory

    [defaultdict(set)] and friends: reading a missing key stores the default
    under that key and returns it. *)

Section Defaultdict.
Context {V : Type} (dflt : V).

(** the value [d[k]] evaluates to *)
Definition dd_value (d : gmap string V) (k : string) : V :=
  default dflt (d !! k).

(** the dictionary after [d[k]] has been evaluated *)
Definition dd_touch (d : gmap string V) (k : string) : gmap string V :=
  match d !! k with
  | Some _ => d
  | None => <[k := dflt]> d
  end.

(** [d[k] = f(d[k])], an in-place update of the stored value *)
Definition dd_modify (f : V → V) (d : gmap string V) (k : string)
  : gmap string V :=
  <[k := f (dd_value d k)]> d.

End Defaultdict.

(** ** Records produced by the diff parser *)

Inductive LineKind := Unmodified | Added | Removed.

(** Modelled from the spec: the line and file records that
    [quickunit.diff.DiffParser] yields; the parser is not among the sources
    at hand.  [begin] reads the keys [new_lineno] and [line] of a line and
    [is_header], [old_filename], [new_filename] and [chunks] of a file; the
    remaining fields follow the data model of the specification.  A missing
    line number or file name is [None]. *)
Record DiffLine := {
  kind : LineKind;
  old_lineno : option Z;
  new_lineno : option Z;
  line : string
}.

Definition Hunk := list DiffLine.

Record FileDiffRecord := {
  is_header : bool;
  old_filename : option string;
  new_filename : option string;
  chunks : list Hunk
}.

(** Modelled from the spec: [quickunit.diff.DiffParser], which is not among
    the sources at hand.  Lines are scanned top to bottom.  A [--- ] line
    followed by a [+++ ] line opens a file record; a line of the form
    [@@ -a[,b] +c[,d] @@] opens a hunk whose added and unchanged lines are
    numbered from [c] on; a hunk header that does not fit the grammar drops
    the lines up to the next header; any other line is diff metadata and
    goes to a header record without hunks.  An empty text has no records. *)
Module DiffParser.

Fixpoint read_digits (s : string) (acc : option Z) : option Z * string :=
  match s with
  | String c s' =>
      let n := nat_of_ascii c in
      if (Nat.leb 48 n && Nat.leb n 57)%bool
      then read_digits s' (Some (10 * default 0 acc + Z.of_nat (n - 48)))
      else (acc, s)
  | EmptyString => (acc, s)
  end.

Definition expect (p s : string) : option string :=
  if Py.startswith s p then Some (Py.drop (String.length p) s) else None.

(** [<start>[,<len>]] *)
Definition read_range (s : string) : option (Z * string) :=
  match read_digits s None with
  | (Some start, rest) =>
      match expect "," rest with
      | Some rest' =>
          match read_digits rest' None with
          | (Some _, rest'') => Some (start, rest'')
          | (None, _) => None
          end
      | None => Some (start, rest)
      end
  | (None, _) => None
  end.

(** the old and the new start line of a hunk header *)
Definition hunk_header (l : string) : option (Z * Z) :=
  s ← expect "@@ -" l;
  r1 ← read_range s;
  s ← expect " +" r1.2;
  r2 ← read_range s;
  _ ← expect " @@" r2.2;
  Some (r1.1, r2.1).

(** a line of a hunk body, numbered with the running counters *)
Definition body_line (l : string) (o n : Z) : option (DiffLine * (Z * Z)) :=
  match l with
  | String c text =>
      if Ascii.eqb c "+"%char then
        Some ({| kind := Added; old_lineno := None;
                 new_lineno := Some n; line := text |}, (o, n + 1))
      else if Ascii.eqb c "-"%char then
        Some ({| kind := Removed; old_lineno := Some o;
                 new_lineno := None; line := text |}, (o + 1, n))
      else if Ascii.eqb c " "%char then
        Some ({| kind := Unmodified; old_lineno := Some o;
                 new_lineno := Some n; line := text |}, (o + 1, n + 1))
      else None
  | EmptyString => None
  end.

(** where the scan is: nowhere yet, in metadata, or in a file with its
    finished hunks (latest first) and the hunk being read (latest line
    first, with the next old and new line numbers) *)
Inductive Cursor :=
| Idle
| InHeader
| InFile (old new : string) (finished : list Hunk)
    (current : option (Z * Z * Hunk)).

Definition close_hunk (finished : list Hunk)
    (current : option (Z * Z * Hunk)) : list Hunk :=
  match current with
  | Some (_, _, ls) => rev ls :: finished
  | None => finished
  end.

Definition flush (c : Cursor) : list FileDiffRecord :=
  match c with
  | Idle => []
  | InHeader =>
      [{| is_header := true; old_filename := None; new_filename := None;
          chunks := [] |}]
  | InFile old new finished current =>
      [{| is_header := false; old_filename := Some old;
          new_filename := Some new;
          chunks := rev (close_hunk finished current) |}]
  end.

Definition metadata (c : Cursor) : list FileDiffRecord * Cursor :=
  match c with
  | InHeader => ([], InHeader)
  | _ => (flush c, InHeader)
  end.

Definition scan_line (l : string) (c : Cursor)
  : list FileDiffRecord * Cursor :=
  match c with
  | InFile old new finished current =>
      match hunk_header l with
      | Some (o, n) =>
          ([], InFile old new (close_hunk finished current) (Some (o, n, [])))
      | None =>
          if Py.startswith l "@@" then
            ([], InFile old new (close_hunk finished current) None)
          else
            match current with
            | Some (o, n, ls) =>
                match body_line l o n with
                | Some (dl, (o', n')) =>
                    ([], InFile old new finished (Some (o', n', dl :: ls)))
                | None => metadata c
                end
            | None =>
                match body_line l 0 0 with
                | Some _ => ([], c)
                | None => metadata c
                end
            end
      end
  | _ => metadata c
  end.

Fixpoint scan (ls : list string) (c : Cursor) : list FileDiffRecord :=
  match ls with
  | [] => flush c
  | l :: tl =>
      let other := let '(out, c') := scan_line l c in (out ++ scan tl c')%list in
      match tl with
      | l2 :: rest =>
          if (Py.startswith l "--- " && Py.startswith l2 "+++ ")%bool
          then (flush c ++ scan rest (InFile (Py.drop 4 l) (Py.drop 4 l2) [] None))%list
          else other
      | [] => other
      end
  end.

Definition parse (text : string) : list FileDiffRecord :=
  if String.eqb text "" then [] else scan (Py.split_nl text) Idle.

End DiffParser.

(** ** Collaborators outside the plugin module *)

Record Env := {
  (** [quickunit.utils.is_py_script] *)
  is_py_script : string → bool;
  (** [os.path.abspath] *)
  abspath : string → string;
  (** [list(DiffParser(text).parse())] *)
  parse : string → list FileDiffRecord;
  (** [os.path.exists(path)], asked for a path that is not empty *)
  path_exists : string → bool;
  (** whether [os.makedirs(path)] succeeds, for a path that is not empty *)
  makedirs : string → bool;
  (** whether [open(path, 'w')] succeeds *)
  open_for_writing : string → bool
}.

(** What the coverage tracer hands to [record_coverage_data]: one entry per
    code unit, with [cu.name] and the keys of
    [cov.data.executed_lines(cu.filename)]. *)
Record CodeUnit := {
  cu_name : string;
  executed_lines : list Z
}.

(** ** The plugin object *)

Inductive Destination :=
| SysStream (pipe : string)
| OpenFile (path : string).

(** the file object kept in [self.report_file]: where it writes, and whether
    [close] was called on it *)
Record ReportFile := {
  destination : Destination;
  closed : bool
}.

Record Options := {
  opt_verbosity : Z;
  quickunit_prefix : option (list string);
  quickunit_output : option string
}.

Record Plugin := {
  verbosity : Z;
  prefixes : list string;
  pending_files : gset string;
  diff_data : gmap string (gset Z);
  test_cov_data : gmap string (gmap string (gset Z));
  importtime_cov_data : gmap string (gmap string (gset Z));
  test_to_module_map : gmap string string;
  root : option string;
  report_file : option ReportFile;
  tests_run : gset string
}.

Definition set_diff_data (d : gmap string (gset Z)) (s : Plugin) : Plugin :=
  {| verbosity := verbosity s; prefixes := prefixes s;
     pending_files := pending_files s; diff_data := d;
     test_cov_data := test_cov_data s;
     importtime_cov_data := importtime_cov_data s;
     test_to_module_map := test_to_module_map s; root := root s;
     report_file := report_file s; tests_run := tests_run s |}.

Definition set_pending_files (p : gset string) (s : Plugin) : Plugin :=
  {| verbosity := verbosity s; prefixes := prefixes s;
     pending_files := p; diff_data := diff_data s;
     test_cov_data := test_cov_data s;
     importtime_cov_data := importtime_cov_data s;
     test_to_module_map := test_to_module_map s; root := root s;
     report_file := report_file s; tests_run := tests_run s |}.

Definition set_root (r : option string) (s : Plugin) : Plugin :=
  {| verbosity := verbosity s; prefixes := prefixes s;
     pending_files := pending_files s; diff_data := diff_data s;
     test_cov_data := test_cov_data s;
     importtime_cov_data := importtime_cov_data s;
     test_to_module_map := test_to_module_map s; root := r;
     report_file := report_file s; tests_run := tests_run s |}.

Definition set_report_file (rf : option ReportFile) (s : Plugin) : Plugin :=
  {| verbosity := verbosity s; prefixes := prefixes s;
     pending_files := pending_files s; diff_data := diff_data s;
     test_cov_data := test_cov_data s;
     importtime_cov_data := importtime_cov_data s;
     test_to_module_map := test_to_module_map s; root := root s;
     report_file := rf; tests_run := tests_run s |}.

Definition set_tests_run (t : gset string) (s : Plugin) : Plugin :=
  {| verbosity := verbosity s; prefixes := prefixes s;
     pending_files := pending_files s; diff_data := diff_data s;
     test_cov_data := test_cov_data s;
     importtime_cov_data := importtime_cov_data s;
     test_to_module_map := test_to_module_map s; root := root s;
     report_file := report_file s; tests_run := t |}.

Definition set_test_cov_data (c : gmap string (gmap string (gset Z)))
    (s : Plugin) : Plugin :=
  {| verbosity := verbosity s; prefixes := prefixes s;
     pending_files := pending_files s; diff_data := diff_data s;
     test_cov_data := c;
     importtime_cov_data := importtime_cov_data s;
     test_to_module_map := test_to_module_map s; root := root s;
     report_file := report_file s; tests_run := tests_run s |}.

Definition set_importtime_cov_data (c : gmap string (gmap string (gset Z)))
    (s : Plugin) : Plugin :=
  {| verbosity := verbosity s; prefixes := prefixes s;
     pending_files := pending_files s; diff_data := diff_data s;
     test_cov_data := test_cov_data s;
     importtime_cov_data := c;
     test_to_module_map := test_to_module_map s; root := root s;
     report_file := report_file s; tests_run := tests_run s |}.

Definition set_test_to_module_map (m : gmap string string) (s : Plugin)
  : Plugin :=
  {| verbosity := verbosity s; prefixes := prefixes s;
     pending_files := pending_files s; diff_data := diff_data s;
     test_cov_data := test_cov_data s;
     importtime_cov_data := importtime_cov_data s;
     test_to_module_map := m; root := root s;
     report_file := report_file s; tests_run := tests_run s |}.

(** ** [configure] (the enabled plugin) *)

Definition configure_prefixes (o : Options) : list string :=
  match quickunit_prefix o with
  | Some (p :: ps) =>
      match ps with
      | [] => Py.split_nl p
      | _ => p :: ps
      end
  | _ => ["tests/"]
  end.

(** the directory of the report file is there, or is made: [os.path.exists]
    is false of the empty path and [os.makedirs] raises on it *)
Definition ensure_directory (env : Env) (path : string) : option unit :=
  if Py.truthy path && path_exists env path then Some tt
  else if Py.truthy path && makedirs env path then Some tt
  else None.

(** [None] when [assert pipe in ('stdout', 'stderr')] fails, when
    [os.makedirs] raises or when the file cannot be opened *)
Definition configure_report_file (env : Env) (o : Options)
  : option (option ReportFile) :=
  match quickunit_output o with
  | None => Some None
  | Some out =>
      if negb (Py.truthy out) || String.eqb out "-" then Some None
      else if Py.startswith out "sys://" then
        let pipe := Py.drop 6 out in
        if String.eqb pipe "stdout" || String.eqb pipe "stderr"
        then Some (Some {| destination := SysStream pipe; closed := false |})
        else None
      else
        _ ← ensure_directory env (Py.dirname out);
        if open_for_writing env out
        then Some (Some {| destination := OpenFile out; closed := false |})
        else None
  end.

Definition configure (env : Env) (o : Options) : option Plugin :=
  rf ← configure_report_file env o;
  Some {| verbosity := opt_verbosity o;
          prefixes := configure_prefixes o;
          pending_files := ∅;
          diff_data := ∅;
          test_cov_data := ∅;
          importtime_cov_data := ∅;
          test_to_module_map := ∅;
          root := None;
          report_file := rf;
          tests_run := ∅ |}.

(** ** [begin]: from the parsed diff to [diff_data] and [pending_files] *)

(** [x == '/dev/null'] *)
Definition is_dev_null (x : option string) : bool :=
  match x with
  | Some s => String.eqb s "/dev/null"
  | None => false
  end.

(** [bool(l['new_lineno'])] keeps a line number that is present and not 0 *)
Definition lineno_truthy (n : option Z) : option Z :=
  match n with
  | Some z => if Z.eqb z 0 then None else Some z
  | None => None
  end.

(** [filter(bool, (l['new_lineno'] for l in chunk if l['line']))] *)
Definition chunk_linenos (chunk : Hunk) : list Z :=
  omap (λ l, lineno_truthy (new_lineno l))
       (List.filter (λ l, Py.truthy (line l)) chunk).

(** [diff[new_filename].update(linenos)] *)
Definition diff_update (d : gmap string (gset Z)) (name : string)
    (linenos : list Z) : gmap string (gset Z) :=
  dd_modify ∅ (λ old, old ∪ list_to_set linenos) d name.

(** the loop over [file['chunks']] *)
Definition record_chunks (name : string) (cs : list Hunk)
    (d : gmap string (gset Z)) : gmap string (gset Z) :=
  fold_left (λ d chunk, diff_update d name (chunk_linenos chunk)) cs d.

(** the loop over [self.prefixes] that fills [pending_files] *)
Definition add_pending (new_name : string) (ps : list string)
    (pending : gset string) : gset string :=
  fold_left
    (λ acc prefix,
       {[ Py.path_join prefix (Py.rsplit_dot_head new_name) ]} ∪ acc)
    ps pending.

(** one iteration of [for file in files]; [None] is a raised exception
    (a method or a slice applied to a missing file name) *)
Definition begin_file (env : Env) (s : Plugin) (file : FileDiffRecord)
  : option Plugin :=
  if is_header file then Some s
  else if is_dev_null (new_filename file) then Some s
  else
    let is_new_file := is_dev_null (old_filename file) in
    filename ← (if is_new_file then new_filename file else old_filename file);
    if negb (Py.startswith filename (if is_new_file then "b/" else "a/"))
    then Some s
    else
      let filename := Py.drop 2 filename in
      let s :=
        match root s with
        | None =>
            set_root
              (Some (Py.drop_last (String.length filename)
                       (abspath env filename))) s
        | Some _ => s
        end in
      if negb (is_py_script env filename) then Some s
      else
        new_name ← new_filename file;
        let new_name := Py.drop 2 new_name in
        let s := set_diff_data
                   (record_chunks new_name (chunks file) (diff_data s)) s in
        if is_new_file then Some s
        else Some (set_pending_files
                     (add_pending new_name (prefixes s) (pending_files s)) s).

Fixpoint begin_files (env : Env) (files : list FileDiffRecord) (s : Plugin)
  : option Plugin :=
  match files with
  | [] => Some s
  | file :: rest => s' ← begin_file env s file; begin_files env rest s'
  end.

(** [begin], given the text that [git diff] printed *)
Definition begin (env : Env) (git_diff_output : string) (s : Plugin)
  : option Plugin :=
  let diff := Py.strip git_diff_output in
  s' ← begin_files env (parse env diff) s;
  Some (set_tests_run ∅ s').

(** ** [wantMethod] *)

(** What [inspect] reports about a class: [inspect.getfile] and the result
    of [inspect.getsourcelines], a start line and a number of lines. *)
Record PyClass := {
  cls_file : string;
  cls_startlineno : Z;
  cls_nlines : nat
}.

(** A bound test method.  [im_class] stands for the object that
    [getattr(sys.modules[method.im_class.__module__],
    method.im_class.__name__)] evaluates to; the method's own source lines
    are part of the object, [wantMethod] does not look at them. *)
Record Method := {
  im_class : PyClass;
  func_startlineno : Z;
  func_nlines : nat
}.

(** the root-relative file name that [wantMethod] works with *)
Definition relative_filename (s : Plugin) (filename : string) : string :=
  match root s with
  | Some r =>
      if Py.truthy r && Py.startswith filename r
      then Py.drop (String.length r) filename
      else filename
  | None => filename
  end.

(** [xrange(startlineno, len(lines) + startlineno)] *)
Definition source_range (startlineno : Z) (nlines : nat) : list Z :=
  map (λ i, startlineno + Z.of_nat i) (seq 0 nlines).

(** [for prefix in self.prefixes: if filename.startswith(prefix):
    self.tests_run.add(filename)] *)
Definition mark_run (ps : list string) (filename : string)
    (run : gset string) : gset string :=
  fold_left
    (λ acc prefix,
       if Py.startswith filename prefix then {[filename]} ∪ acc else acc)
    ps run.

(** the final loop of [wantMethod], with its early [return True] *)
Fixpoint prefix_rule (ps : list string) (filename : string)
    (pending : gset string) (run : gset string) : bool * gset string :=
  match ps with
  | [] => (false, run)
  | prefix :: rest =>
      if Py.startswith filename prefix then
        let run := {[filename]} ∪ run in
        if existsb (Py.startswith filename) (elements pending)
        then (true, run)
        else prefix_rule rest filename pending run
      else prefix_rule rest filename pending run
  end.

Definition wantMethod (s : Plugin) (method : Method) : bool * Plugin :=
  let cls := im_class method in
  let filename := relative_filename s (cls_file cls) in
  let diff_lines := dd_value ∅ (diff_data s) filename in
  let s := set_diff_data (dd_touch ∅ (diff_data s) filename) s in
  if negb (bool_decide (diff_lines = ∅))
     && existsb (λ lineno, bool_decide (lineno ∈ diff_lines))
                (source_range (cls_startlineno cls) (cls_nlines cls))
  then (true, set_tests_run (mark_run (prefixes s) filename (tests_run s)) s)
  else
    let '(r, run) :=
      prefix_rule (prefixes s) filename (pending_files s) (tests_run s) in
    (r, set_tests_run run s).

(** ** Recording coverage: [record_coverage_data], [afterImport], [stopTest] *)

(** one iteration of [for cu in rep.code_units] *)
Definition record_unit (diff : gmap string (gset Z))
    (cov_data : gmap string (gset Z)) (cu : CodeUnit) : gmap string (gset Z) :=
  let filename := cu_name cu ++ ".py" in
  match diff !! filename with
  | None => cov_data
  | Some changed =>
      let cov_linenos :=
        List.filter (λ l, bool_decide (l ∈ changed)) (executed_lines cu) in
      match cov_linenos with
      | [] => cov_data
      | _ => dd_modify ∅ (λ old, old ∪ list_to_set cov_linenos)
               cov_data filename
      end
  end.

Definition record_coverage_data (diff : gmap string (gset Z))
    (code_units : list CodeUnit) (cov_data : gmap string (gset Z))
  : gmap string (gset Z) :=
  fold_left (record_unit diff) code_units cov_data.

(** [afterImport]; [cov_data] is the dictionary stored under [module], so
    what is recorded lands in [importtime_cov_data] *)
Definition afterImport (s : Plugin) (module : string)
    (code_units : list CodeUnit) : Plugin :=
  set_importtime_cov_data
    (dd_modify ∅ (record_coverage_data (diff_data s) code_units)
       (importtime_cov_data s) module) s.

(** The test instance [test.test]: its [__module__], its method name, and
    the [__module__] and [__name__] of the class that
    [getattr(sys.modules[test.__module__], test.__class__.__name__)] finds. *)
Record TestCase := {
  test_module : string;
  testMethodName : string;
  resolved_module : string;
  resolved_name : string
}.

Definition _get_name_from_test (test : TestCase) : string :=
  resolved_module test ++ ":" ++ resolved_name test ++ "."
    ++ testMethodName test.

Definition stopTest (s : Plugin) (test : TestCase)
    (code_units : list CodeUnit) : Plugin :=
  let test_name := _get_name_from_test test in
  let s := set_test_to_module_map
             (<[test_name := test_module test]> (test_to_module_map s)) s in
  set_test_cov_data
    (dd_modify ∅ (record_coverage_data (diff_data s) code_units)
       (test_cov_data s) test_name) s.

(** ** Assembling the report: [_report_test_coverage] *)

(** The order in which a dictionary hands out its items is not fixed by the
    language; the report is assembled relative to some enumeration of every
    dictionary it walks. *)
Record DictOrder := {
  iteritems : ∀ {V : Type}, gmap string V → list (string * V);
  iteritems_perm : ∀ (V : Type) (m : gmap string V),
    iteritems m ≡ₚ map_to_list m
}.

(** the three local and shared dictionaries the two loops work on *)
Record Assembly := {
  a_diff : gmap string (gset Z);
  a_missing : gmap string (gset Z);
  a_data : gmap string (gmap string (gmap Z Z))
}.

(** [data[test][filename].update(new)]; the key [filename] is present
    whenever the plugin runs this *)
Definition update_lines (test filename : string) (new : gmap Z Z)
    (data : gmap string (gmap string (gmap Z Z)))
  : gmap string (gmap string (gmap Z Z)) :=
  dd_modify ∅
    (λ files, <[filename := new ∪ default ∅ (files !! filename)]> files)
    data test.

(** The statements of the two inner loops, in the order of the source. *)
Inductive Stmt :=
| ReadDiff (filename : string)
    (* linenos = diff_data[filename] *)
| SetMissing (filename : string) (covered_linenos : gset Z)
    (* missing[filename] = linenos.difference(covered_linenos) *)
| SetCovered (test filename : string) (covered_linenos : gset Z)
    (* data[test][filename] = dict((k, 1) for k in covered_linenos) *)
| MarkMissing (test filename : string)
    (* data[test][filename].update(dict((k, 0) for k in missing[filename])) *)
| NarrowMissing (filename : string) (covered_linenos : gset Z)
    (* missing[filename] = missing[filename].difference(covered_linenos) *)
| EnsureFile (test filename : string)
    (* if filename not in data[test]: data[test][filename] = {} *)
| MarkCovered (test filename : string) (covered_linenos : gset Z)
    (* data[test][filename].update(dict((k, 1) for k in covered_linenos)) *).

Definition exec (st : Assembly) (i : Stmt) : Assembly :=
  match i with
  | ReadDiff f =>
      {| a_diff := dd_touch ∅ (a_diff st) f;
         a_missing := a_missing st; a_data := a_data st |}
  | SetMissing f c =>
      {| a_diff := a_diff st;
         a_missing := <[f := dd_value ∅ (a_diff st) f ∖ c]> (a_missing st);
         a_data := a_data st |}
  | SetCovered t f c =>
      {| a_diff := a_diff st; a_missing := a_missing st;
         a_data := dd_modify ∅ (λ files, <[f := gset_to_gmap 1 c]> files)
                     (a_data st) t |}
  | MarkMissing t f =>
      {| a_diff := a_diff st;
         a_missing := dd_touch ∅ (a_missing st) f;
         a_data := update_lines t f
                     (gset_to_gmap 0 (dd_value ∅ (a_missing st) f))
                     (a_data st) |}
  | NarrowMissing f c =>
      {| a_diff := a_diff st;
         a_missing := dd_modify ∅ (λ m, m ∖ c) (a_missing st) f;
         a_data := a_data st |}
  | EnsureFile t f =>
      {| a_diff := a_diff st; a_missing := a_missing st;
         a_data := dd_modify ∅
                     (λ files, match files !! f with
                               | Some _ => files
                               | None => <[f := ∅]> files
                               end)
                     (a_data st) t |}
  | MarkCovered t f c =>
      {| a_diff := a_diff st; a_missing := a_missing st;
         a_data := update_lines t f (gset_to_gmap 1 c) (a_data st) |}
  end.

Definition run (p : list Stmt) (st : Assembly) : Assembly :=
  fold_left exec p st.

(** body of [for filename, covered_linenos in coverage.iteritems()] *)
Definition own_stmts (test : string) (item : string * gset Z) : list Stmt :=
  let '(f, c) := item in
  [ReadDiff f; SetMissing f c; SetCovered test f c; MarkMissing test f].

(** body of the loop over [importtime_cov_data[module].iteritems()] *)
Definition import_stmts (test : string) (item : string * gset Z)
  : list Stmt :=
  let '(f, c) := item in
  [NarrowMissing f c; EnsureFile test f; MarkCovered test f c;
   MarkMissing test f].

(** the import-time coverage that is laid over a test: none when
    [not module or module not in importtime_cov_data] *)
Definition overlay_of (s : Plugin) (test : string)
  : option (gmap string (gset Z)) :=
  match test_to_module_map s !! test with
  | Some module =>
      if Py.truthy module then importtime_cov_data s !! module else None
  | None => None
  end.

(** body of [for test, coverage in test_cov_data.iteritems()] *)
Definition test_stmts (o : DictOrder) (s : Plugin)
    (item : string * gmap string (gset Z)) : list Stmt :=
  let '(test, coverage) := item in
  flat_map (own_stmts test) (iteritems o coverage) ++
  match overlay_of s test with
  | Some imported => flat_map (import_stmts test) (iteritems o imported)
  | None => []
  end.

Definition program (o : DictOrder) (s : Plugin) : list Stmt :=
  flat_map (test_stmts o s) (iteritems o (test_cov_data s)).

Definition assembly_start (s : Plugin) : Assembly :=
  {| a_diff := diff_data s; a_missing := ∅; a_data := ∅ |}.

Definition assemble (o : DictOrder) (s : Plugin) : Assembly :=
  run (program o s) (assembly_start s).

(** the states the assembly passes through, one per statement executed *)
Fixpoint trace (p : list Stmt) (st : Assembly) : list Assembly :=
  match p with
  | [] => []
  | i :: p' => exec st i :: trace p' (exec st i)
  end.

(** [sum(1 for v in lines.itervalues() if v)] *)
Definition count_truthy (lines : gmap Z Z) : Z :=
  Z.of_nat (length (List.filter (λ kv, negb (Z.eqb kv.2 0))
                      (map_to_list lines))).

(** the loop that adds up [total] and [covered] *)
Definition tally (o : DictOrder) (data : gmap string (gmap string (gmap Z Z)))
  : Z * Z :=
  fold_left
    (λ acc tf,
       fold_left
         (λ acc fl, (acc.1 + count_truthy fl.2, acc.2 + Z.of_nat (size fl.2)))
         (iteritems o tf.2) acc)
    (iteritems o data) (0, 0).

Record Report := {
  stats_covered : Z;
  stats_total : Z;
  tests : gmap string (gmap string (gmap Z Z))
}.

(** How a call of [report] ends: it returns, having written a report or
    not, or [write] raises [ValueError] because the file is closed. *)
Inductive Outcome :=
| Returned (written : option Report)
| ValueError.

(** [_report_test_coverage]: the plugin as the call leaves it, and how the
    call ends.  The report is written to [report_file] and the file is then
    closed; writing to a file that is closed raises, after the assembly has
    read [diff_data]. *)
Definition _report_test_coverage (o : DictOrder) (s : Plugin)
  : Plugin * Outcome :=
  let st := assemble o s in
  let '(covered, total) := tally o (a_data st) in
  let s := set_diff_data (a_diff st) s in
  match report_file s with
  | Some rf =>
      if closed rf then (s, ValueError)
      else
        (set_report_file
           (Some {| destination := destination rf; closed := true |}) s,
         Returned (Some {| stats_covered := covered; stats_total := total;
                           tests := a_data st |}))
  | None => (s, Returned None)
  end.

(** [report] *)
Definition report (o : DictOrder) (s : Plugin) : Plugin * Outcome :=
  if Z.eqb (verbosity s) 0 then (s, Returned None)
  else _report_test_coverage o s.

(** the value of the leaf [(test, file, line)], when there is one *)
Definition leaf (data : gmap string (gmap string (gmap Z Z)))
    (test filename : string) (lineno : Z) : option Z :=
  files ← data !! test; lines ← files !! filename; lines !! lineno.

(** two enumerations: by the map's own key order, and the reverse of it *)
Definition forward_order : DictOrder :=
  {| iteritems := λ V m, map_to_list m;
     iteritems_perm := λ V m, reflexivity (map_to_list m) |}.

Definition backward_order : DictOrder :=
  {| iteritems := λ V m, reverse (map_to_list m);
     iteritems_perm := λ V m, reverse_Permutation (map_to_list m) |}.

(** ** The hooks nose calls between [begin] and the end of the run *)

Inductive Event :=
| WantMethod (method : Method)
| BeforeImport (module : string)
| AfterImport (module : string) (code_units : list CodeUnit)
| StartTest (test : TestCase)
| StopTest (test : TestCase) (code_units : list CodeUnit)
| ReportCall.

(** [beforeImport] and [startTest] only start the tracer; a call of
    [report] leaves the plugin as it is when the call ends, also when it
    ends by raising *)
Definition step (o : DictOrder) (s : Plugin) (e : Event) : Plugin :=
  match e with
  | WantMethod m => (wantMethod s m).2
  | BeforeImport _ => s
  | AfterImport module code_units => afterImport s module code_units
  | StartTest _ => s
  | StopTest test code_units => stopTest s test code_units
  | ReportCall => (report o s).1
  end.

Definition run_events (o : DictOrder) (s : Plugin) (es : list Event)
  : Plugin :=
  fold_left (step o) es s.

(** ** Vocabulary for stating the properties *)

(** the dictionary stored at [data[test][filename]], when there is one *)
Definition entry (data : gmap string (gmap string (gmap Z Z)))
    (test filename : string) : option (gmap Z Z) :=
  files ← data !! test; files !! filename.

(** the changed lines recorded for a file; no entry reads as no lines *)
Definition changed_lines (s : Plugin) (filename : string) : gset Z :=
  dd_value ∅ (diff_data s) filename.

(** a file record that [begin] does not skip *)
Definition retained (env : Env) (file : FileDiffRecord) : bool :=
  negb (is_header file)
  && negb (is_dev_null (new_filename file))
  && match (if is_dev_null (old_filename file)
            then new_filename file else old_filename file),
           new_filename file with
     | Some name, Some _ =>
         Py.startswith name
           (if is_dev_null (old_filename file) then "b/" else "a/")
         && is_py_script env (Py.drop 2 name)
     | _, _ => false
     end.

(** the key under which a retained record is entered in [diff_data] *)
Definition diff_key (file : FileDiffRecord) : option string :=
  Py.drop 2 <$> new_filename file.

(** a line number is recorded for a file record: some line of some hunk has
    text, and carries that number, which is not 0 *)
Definition records_lineno (file : FileDiffRecord) (n : Z) : Prop :=
  ∃ chunk l, chunk ∈ chunks file ∧ l ∈ chunk ∧ line l ≠ "" ∧
             new_lineno l = Some n ∧ n ≠ 0.

(** the [new_lineno] values of the added lines of a record, all hunks *)
Definition added_linenos (file : FileDiffRecord) : gset Z :=
  list_to_set
    (omap (λ l, match kind l with Added => new_lineno l | _ => None end)
          (concat (chunks file))).

Definition empty_report : Report :=
  {| stats_covered := 0; stats_total := 0; tests := ∅ |}.

(** every leaf of the structure, with its value, in the order of the walk *)
Definition leaves (o : DictOrder)
    (data : gmap string (gmap string (gmap Z Z)))
  : list (string * string * Z * Z) :=
  tf ← iteritems o data;
  fl ← iteritems o tf.2;
  kv ← map_to_list fl.2;
  [(tf.1, fl.1, kv.1, kv.2)].

(** the name a [StopTest] event files its coverage under *)
Definition stops (name : string) (e : Event) : Prop :=
  match e with
  | StopTest test _ => _get_name_from_test test = name
  | _ => False
  end.

(** a dictionary of line sets in which no file has a line: every entry it
    has is the empty set *)
Definition no_lines (d : gmap string (gset Z)) : Prop :=
  map_Forall (λ _ ls, ls = ∅) d.

(** a dictionary of per-key coverage in which nothing was recorded *)
Definition no_coverage (d : gmap string (gmap string (gset Z))) : Prop :=
  map_Forall (λ _ c, c = ∅) d.

(** the plugin of a run in which nothing changed: no file has a changed
    line, no test path is pending and no coverage was recorded *)
Definition blank (s : Plugin) : Prop :=
  no_lines (diff_data s) ∧ pending_files s = ∅ ∧
  no_coverage (test_cov_data s) ∧ no_coverage (importtime_cov_data s).

(** ** Vocabulary for the assembly of the report *)

(** the lines held in [missing[filename]]; no entry reads as no lines *)
Definition missing_of (st : Assembly) (f : string) : gset Z :=
  dd_value ∅ (a_missing st) f.

(** no leaf that is 1 in [d1] is anything else in [d2] *)
Definition stays_covered (d1 d2 : gmap string (gmap string (gmap Z Z)))
  : Prop :=
  ∀ t f l, leaf d1 t f l = Some 1 → leaf d2 t f l = Some 1.

(** what a statement relies on so as not to overwrite a leaf that is 1 *)
Definition allowed (st : Assembly) (i : Stmt) : Prop :=
  match i with
  | SetCovered t f c => ∀ l, leaf (a_data st) t f l = Some 1 → l ∈ c
  | MarkMissing t f =>
      ∀ l, leaf (a_data st) t f l = Some 1 → l ∉ missing_of st f
  | _ => True
  end.

Fixpoint runs_safely (p : list Stmt) (st : Assembly) : Prop :=
  match p with
  | [] => True
  | i :: p' => allowed st i ∧ runs_safely p' (exec st i)
  end.

(** the place [data[test][filename]] a statement writes, and what it stores
    there, given what was there *)
Definition stored (st : Assembly) (i : Stmt) (old : option (gmap Z Z))
  : option (string * string * gmap Z Z) :=
  match i with
  | SetCovered t f c => Some (t, f, gset_to_gmap 1 c)
  | MarkMissing t f =>
      Some (t, f, gset_to_gmap 0 (missing_of st f) ∪ default ∅ old)
  | EnsureFile t f => Some (t, f, default ∅ old)
  | MarkCovered t f c => Some (t, f, gset_to_gmap 1 c ∪ default ∅ old)
  | _ => None
  end.

Definition target (i : Stmt) : option (string * string) :=
  match i with
  | SetCovered t f _ | MarkMissing t f | EnsureFile t f | MarkCovered t f _ =>
      Some (t, f)
  | _ => None
  end.

(** no line that is 1 for [t] is held in [missing] for its file *)
Definition open_missing (t : string) (st : Assembly) : Prop :=
  ∀ f l, leaf (a_data st) t f l = Some 1 → l ∉ missing_of st f.

(** every leaf is 0 or 1 *)
Definition binary (d : gmap string (gmap string (gmap Z Z))) : Prop :=
  ∀ t f l v, leaf d t f l = Some v → v = 0 ∨ v = 1.

Definition lines_leaves (t f : string) (lines : gmap Z Z)
  : list (string * string * Z * Z) :=
  kv ← map_to_list lines; [(t, f, kv.1, kv.2)].

Definition files_leaves (o : DictOrder) (t : string)
    (files : gmap string (gmap Z Z)) : list (string * string * Z * Z) :=
  fl ← iteritems o files; lines_leaves t fl.1 fl.2.

(** the truth value [if v] gives a leaf *)
Definition is_covered (x : string * string * Z * Z) : bool :=
  negb (Z.eqb x.2 0).

(** ** Vocabulary for the configuration *)

(** ['\n'.join(ps)] *)
Fixpoint join_nl (ps : list string) : string :=
  match ps with
  | [] => ""
  | p :: rest =>
      match rest with
      | [] => p
      | _ => p ++ String "010"%char (join_nl rest)
      end
  end.

Definition no_newline (p : string) : Prop :=
  Py.has_char "010"%char p = false.

(** the values of [--quickunit-output] for which no report file is kept *)
Definition output_suppressed (out : option string) : Prop :=
  out = None ∨ out = Some "" ∨ out = Some "-".

(** a file record on which [begin] does not raise: a record that is not a
    header carries both file names *)
Definition named (file : FileDiffRecord) : Prop :=
  is_header file = true ∨
  (is_Some (old_filename file) ∧ is_Some (new_filename file)).

(** ** Vocabulary for the recorded coverage *)

(** the lines recorded for a test and a file; nothing recorded reads as no
    lines *)
Definition test_lines (s : Plugin) (test filename : string) : gset Z :=
  dd_value ∅ (dd_value ∅ (test_cov_data s) test) filename.

(** the lines recorded at the import of a module, for a file *)
Definition import_lines (s : Plugin) (module filename : string) : gset Z :=
  dd_value ∅ (dd_value ∅ (importtime_cov_data s) module) filename.

(** the lines of a file that a capture executed and that are changed lines
    of that file *)
Definition hits (s : Plugin) (code_units : list CodeUnit) (f : string)
    (l : Z) : Prop :=
  ∃ cu, cu ∈ code_units ∧ cu_name cu ++ ".py" = f ∧
        l ∈ executed_lines cu ∧ l ∈ changed_lines s f.

(** every set of lines recorded under a key and a file is non-empty and
    made of changed lines of that file *)
Definition within_changes (diff : gmap string (gset Z))
    (d : gmap string (gmap string (gset Z))) : Prop :=
  ∀ k cov f ls, d !! k = Some cov → cov !! f = Some ls →
                ls ≠ ∅ ∧ ∃ changed, diff !! f = Some changed ∧ ls ⊆ changed.

Definition recorded_within_changes (s : Plugin) : Prop :=
  within_changes (diff_data s) (test_cov_data s) ∧
  within_changes (diff_data s) (importtime_cov_data s).

(** the import-time lines laid over a test for a file *)
Definition overlay_lines (s : Plugin) (test filename : string) : gset Z :=
  match overlay_of s test with
  | Some imported => default ∅ (imported !! filename)
  | None => ∅
  end.

(** the file whose [missing] set a statement assigns *)
Definition missing_target (i : Stmt) : option string :=
  match i with
  | SetMissing f _ | NarrowMissing f _ => Some f
  | _ => None
  end.

(** ** Vocabulary for the end of the run *)

(** the report a call of [report] wrote, when it wrote one *)
Definition written (r : Outcome) : option Report :=
  match r with
  | Returned w => w
  | ValueError => None
  end.

(** the file names whose entry a hook reads with [diff_data[filename]]:
    [wantMethod] reads the entry of the class's file (line 198), the
    assembly of the report reads, in the order of its walk, the entry of
    every file of every test's own coverage (line 294); the hooks that
    record coverage read none this way *)
Definition event_reads (o : DictOrder) (s : Plugin) (e : Event)
  : list string :=
  match e with
  | WantMethod m => [relative_filename s (cls_file (im_class m))]
  | ReportCall =>
      if Z.eqb (verbosity s) 0 then []
      else omap (λ i, match i with ReadDiff f => Some f | _ => None end)
                (program o s)
  | _ => []
  end.



(** the dictionary after the entries of the given files were read in turn *)
Definition touched (d : gmap string (gset Z)) (files : list string)
  : gmap string (gset Z) :=
  fold_left (dd_touch ∅) files d.

(** the file object after [close] *)
Definition close_file (rf : ReportFile) : ReportFile :=
  {| destination := destination rf; closed := true |}.

Definition is_report_call (e : Event) : bool :=
  match e with
  | ReportCall => true
  | _ => false
  end.

(** [report] is among the hooks that ran *)
Definition reported (es : list Event) : bool := existsb is_report_call es.

(** the directory of a report file can neither be found nor made: the path
    is empty, or it does not exist and [os.makedirs] raises *)
Definition directory_fails (env : Env) (path : string) : Prop :=
  path = "" ∨ (path_exists env path = false ∧ makedirs env path = false).

(** ** Concrete runs *)

Module Scenario.

(** a working tree at [/repo/] in which the files ending in [.py] are the
    Python scripts, with a directory [build]; directories can be made and
    files opened *)
Definition env : Env :=
  {| is_py_script := λ f, String.eqb (Py.drop (String.length f - 3) f) ".py";
     abspath := λ f, "/repo/" ++ f;
     parse := DiffParser.parse;
     path_exists := λ p, String.eqb p "build";
     makedirs := λ _, true;
     open_for_writing := λ _, true |}.

Definition added (n : Z) (text : string) : DiffLine :=
  {| kind := Added; old_lineno := None; new_lineno := Some n;
     line := text |}.

Definition unchanged (old n : Z) (text : string) : DiffLine :=
  {| kind := Unmodified; old_lineno := Some old; new_lineno := Some n;
     line := text |}.

Definition modified (name : string) (cs : list Hunk) : FileDiffRecord :=
  {| is_header := false; old_filename := Some ("a/" ++ name);
     new_filename := Some ("b/" ++ name); chunks := cs |}.

Definition created (name : string) (cs : list Hunk) : FileDiffRecord :=
  {| is_header := false; old_filename := Some "/dev/null";
     new_filename := Some ("b/" ++ name); chunks := cs |}.

(** [--quickunit-output=sys://stdout], no prefix option *)
Definition options (v : Z) : Options :=
  {| opt_verbosity := v; quickunit_prefix := None;
     quickunit_output := Some "sys://stdout" |}.

(** the plugin after [configure] with verbosity [v] *)
Definition configured (v : Z) : Plugin :=
  {| verbosity := v; prefixes := ["tests/"]; pending_files := ∅;
     diff_data := ∅; test_cov_data := ∅; importtime_cov_data := ∅;
     test_to_module_map := ∅; root := None;
     report_file := Some {| destination := SysStream "stdout";
                            closed := false |};
     tests_run := ∅ |}.

Definition test_in (file : string) : Method :=
  {| im_class := {| cls_file := file; cls_startlineno := 1;
                    cls_nlines := 20 |};
     func_startlineno := 5; func_nlines := 3 |}.

Definition case (module cls method : string) : TestCase :=
  {| test_module := module; testMethodName := method;
     resolved_module := module; resolved_name := cls |}.

Definition ran (name : string) (lines : list Z) : CodeUnit :=
  {| cu_name := name; executed_lines := lines |}.

(** the diff of the selection scenario: two lines, 10 and 11, added to
    [pkg/foo.py] *)
Definition foo_diff (t1 t2 : string) : FileDiffRecord :=
  modified "pkg/foo.py" [[added 10 t1; added 11 t2]].

(** a diff entry for the test file [tests/pkg/test_bar.py] itself *)
Definition bar_diff (cs : list Hunk) : FileDiffRecord :=
  modified "tests/pkg/test_bar.py" cs.

(** a hunk with an unchanged line 9 before an added line 10 *)
Definition foo_with_context : FileDiffRecord :=
  modified "pkg/foo.py" [[unchanged 9 9 "a = 0"; added 10 "x = 1"]].

(** three lines added to [pkg/foo.py] *)
Definition three_lines : FileDiffRecord :=
  modified "pkg/foo.py" [[added 1 "a = 1"; added 2 "b = 2"; added 3 "c = 3"]].

(** a file [pkg/new.py] created with two lines *)
Definition new_file : FileDiffRecord :=
  created "pkg/new.py" [[added 1 "a = 1"; added 2 "b = 2"]].

Definition test_a : TestCase := case "tests.test_a" "A" "test_a".
Definition test_b : TestCase := case "tests.test_b" "B" "test_b".

(** the plugin once [begin] has read the given records; what [configure]
    left if [begin] raised *)
Definition begun (files : list FileDiffRecord) : Plugin :=
  default (configured 1) (begin_files env files (configured 1)).

(** a run on [three_lines]: importing [tests.test_b] executes line 2 of
    [pkg/foo.py], test [A] executes [a_lines] of it, test [B] none of its
    changed lines *)
Definition two_tests (a_lines : list Z) : Plugin :=
  run_events forward_order (begun [three_lines])
    [AfterImport "tests.test_b" [ran "pkg/foo" [2]];
     StopTest test_a [ran "pkg/foo" a_lines];
     StopTest test_b [ran "pkg/foo" [7]]].

(** a run on [new_file] in which test [A] executes line 1 of the file *)
Definition new_file_run : Plugin :=
  run_events forward_order (begun [new_file])
    [StopTest test_a [ran "pkg/new" [1]]].

(** options carrying the given [--quickunit-prefix] values *)
Definition prefix_options (ps : list string) : Options :=
  {| opt_verbosity := 1; quickunit_prefix := Some ps;
     quickunit_output := None |}.

Definition header : FileDiffRecord :=
  {| is_header := true; old_filename := None; new_filename := None;
     chunks := [] |}.

(** the test class [A] of [tests.test_a] imported into [tests.other]: the
    name it is filed under is that of the original *)
Definition test_a_imported : TestCase :=
  {| test_module := "tests.other"; testMethodName := "test_a";
     resolved_module := "tests.test_a"; resolved_name := "A" |}.

(** a run on [three_lines] in which test [A] executes line 1 of
    [pkg/foo.py], then its imported copy executes none of the changed
    lines *)
Definition stopped_twice : Plugin :=
  run_events forward_order (begun [three_lines])
    [StopTest test_a [ran "pkg/foo" [1]];
     StopTest test_a_imported [ran "pkg/foo" [7]]].

End Scenario.

(** ** Lemmas on dictionaries with a default *)

Section Defaultdict_facts.
Context {V : Type} (dflt : V).
Implicit Types d : gmap string V.

Lemma dd_value_touch d k k' :
  dd_value dflt (dd_touch dflt d k) k' = dd_value dflt d k'.
Proof.
  unfold dd_value, dd_touch. destruct (d !! k) eqn:E; [done|].
  destruct (decide (k = k')) as [->|Hne].
  - by rewrite lookup_insert_eq, E.
  - by rewrite lookup_insert_ne.
Qed.

Lemma dd_touch_lookup_Some d k k' v :
  d !! k' = Some v → dd_touch dflt d k !! k' = Some v.
Proof.
  unfold dd_touch. intros Hk'. destruct (d !! k) eqn:E; [done|].
  rewrite lookup_insert_ne; [done|]. intros ->. congruence.
Qed.

Lemma dd_touch_lookup_inv d k k' v :
  dd_touch dflt d k !! k' = Some v → d !! k' = Some v ∨ v = dflt.
Proof.
  unfold dd_touch. destruct (d !! k) eqn:E; [by left|].
  destruct (decide (k = k')) as [->|Hne].
  - rewrite lookup_insert_eq. intros [= <-]. by right.
  - rewrite lookup_insert_ne by done. by left.
Qed.

Lemma dd_value_modify_eq f d k :
  dd_value dflt (dd_modify dflt f d k) k = f (dd_value dflt d k).
Proof. unfold dd_modify, dd_value at 1. by rewrite lookup_insert_eq. Qed.

Lemma dd_value_modify_ne f d k k' :
  k ≠ k' → dd_value dflt (dd_modify dflt f d k) k' = dd_value dflt d k'.
Proof. intros. unfold dd_modify, dd_value. by rewrite lookup_insert_ne. Qed.

Lemma dd_modify_lookup_eq f d k :
  dd_modify dflt f d k !! k = Some (f (dd_value dflt d k)).
Proof. unfold dd_modify. by rewrite lookup_insert_eq. Qed.

Lemma dd_modify_lookup_ne f d k k' :
  k ≠ k' → dd_modify dflt f d k !! k' = d !! k'.
Proof. intros. unfold dd_modify. by rewrite lookup_insert_ne. Qed.

End Defaultdict_facts.

(** ** Walking a dictionary *)

Lemma iteritems_elem_of {V} (o : DictOrder) (m : gmap string V) k v :
  (k, v) ∈ iteritems o m ↔ m !! k = Some v.
Proof. by rewrite (iteritems_perm o), elem_of_map_to_list. Qed.

Lemma iteritems_NoDup_fst {V} (o : DictOrder) (m : gmap string V) :
  NoDup (iteritems o m).*1.
Proof. rewrite (iteritems_perm o). apply NoDup_fst_map_to_list. Qed.

Lemma iteritems_empty {V} (o : DictOrder) :
  iteritems o (∅ : gmap string V) = [].
Proof.
  apply Permutation_nil_r. by rewrite (iteritems_perm o), map_to_list_empty.
Qed.

(** ** [report] and the verbosity gate *)

(** C10: with verbosity 0 the report call returns at once: nothing is
    written, whatever report file or stream was configured, and the plugin
    is left as it was. *)
Theorem report_silent_at_verbosity_zero (o : DictOrder) (s : Plugin) :
  verbosity s = 0 → report o s = (s, Returned None).
Proof. intros Hv. unfold report. by rewrite Hv. Qed.

Lemma report_silent_at_verbosity_zero_witness :
  verbosity (Scenario.configured 0) = 0 ∧
  report_file (Scenario.configured 0)
    = Some {| destination := SysStream "stdout"; closed := false |} ∧
  report forward_order (Scenario.configured 0)
    = (Scenario.configured 0, Returned None).
Proof.
  split; [reflexivity|]. split; [reflexivity|].
  apply (report_silent_at_verbosity_zero forward_order (Scenario.configured 0)).
  reflexivity.
Defined.

(** ** What the hooks do to [diff_data] *)

Lemma wantMethod_diff_data s m :
  diff_data (wantMethod s m).2
  = dd_touch ∅ (diff_data s) (relative_filename s (cls_file (im_class m))).
Proof.
  unfold wantMethod. cbn zeta.
  destruct (_ && _); [reflexivity|].
  by destruct (prefix_rule _ _ _ _).
Qed.

Lemma wantMethod_other_fields s m :
  let s' := (wantMethod s m).2 in
  verbosity s' = verbosity s ∧ prefixes s' = prefixes s ∧
  pending_files s' = pending_files s ∧
  test_cov_data s' = test_cov_data s ∧
  importtime_cov_data s' = importtime_cov_data s ∧
  test_to_module_map s' = test_to_module_map s ∧
  root s' = root s ∧ report_file s' = report_file s.
Proof.
  unfold wantMethod. cbn zeta.
  destruct (_ && _); [by repeat split|].
  destruct (prefix_rule _ _ _ _). by repeat split.
Qed.

Lemma exec_a_diff st i f :
  dd_value ∅ (a_diff (exec st i)) f = dd_value ∅ (a_diff st) f ∧
  a_diff st ⊆ a_diff (exec st i).
Proof.
  destruct i; cbn [exec a_diff]; try done.
  split; [apply dd_value_touch|].
  apply map_subseteq_spec. intros k v. apply dd_touch_lookup_Some.
Qed.

Lemma run_a_diff p st f :
  dd_value ∅ (a_diff (run p st)) f = dd_value ∅ (a_diff st) f ∧
  a_diff st ⊆ a_diff (run p st).
Proof.
  revert st. induction p as [|i p IH]; intros st; [done|].
  change (run (i :: p) st) with (run p (exec st i)).
  destruct (IH (exec st i)) as [-> Hsub].
  destruct (exec_a_diff st i f) as [-> Hsub']. split; [done|].
  by etrans.
Qed.

(** the four ways a call of [report] can go *)
Lemma report_cases o s :
  (verbosity s = 0 ∧ report o s = (s, Returned None)) ∨
  (verbosity s ≠ 0 ∧ report_file s = None ∧
   report o s = (set_diff_data (a_diff (assemble o s)) s, Returned None)) ∨
  (verbosity s ≠ 0 ∧
   ∃ rf, report_file s = Some rf ∧ closed rf = true ∧
         report o s = (set_diff_data (a_diff (assemble o s)) s, ValueError)) ∨
  (verbosity s ≠ 0 ∧
   ∃ rf, report_file s = Some rf ∧ closed rf = false ∧
         report o s
         = (set_report_file
              (Some {| destination := destination rf; closed := true |})
              (set_diff_data (a_diff (assemble o s)) s),
            Returned
              (Some {| stats_covered := (tally o (a_data (assemble o s))).1;
                       stats_total := (tally o (a_data (assemble o s))).2;
                       tests := a_data (assemble o s) |}))).
Proof.
  unfold report. destruct (Z.eqb_spec (verbosity s) 0) as [Hv|Hv]; [by left|].
  right. unfold _report_test_coverage.
  destruct (tally o (a_data (assemble o s))) as [covered total].
  cbn [report_file set_diff_data fst snd].
  destruct (report_file s) as [rf|] eqn:Erf; [|by left].
  right. destruct (closed rf) eqn:Ec; [left|right]; split; try done;
    by exists rf.
Qed.

Lemma report_other_fields o s :
  verbosity (report o s).1 = verbosity s ∧
  prefixes (report o s).1 = prefixes s ∧
  pending_files (report o s).1 = pending_files s ∧
  test_cov_data (report o s).1 = test_cov_data s ∧
  importtime_cov_data (report o s).1 = importtime_cov_data s ∧
  test_to_module_map (report o s).1 = test_to_module_map s ∧
  root (report o s).1 = root s ∧ tests_run (report o s).1 = tests_run s.
Proof.
  destruct (report_cases o s)
    as [[_ ->]|[(_ & _ & ->)|[(_ & rf & _ & _ & ->)|(_ & rf & _ & _ & ->)]]];
    by repeat split.
Qed.


Lemma touched_value d fs f : dd_value ∅ (touched d fs) f = dd_value ∅ d f.
Proof.
  unfold touched. revert d. induction fs as [|g fs IH]; intros d; [done|].
  cbn [fold_left]. by rewrite IH, dd_value_touch.
Qed.

Lemma touched_subseteq d fs : d ⊆ touched d fs.
Proof.
  unfold touched. revert d. induction fs as [|g fs IH]; intros d; [done|].
  cbn [fold_left]. etrans; [|apply IH].
  apply map_subseteq_spec. intros k v. apply dd_touch_lookup_Some.
Qed.


Lemma run_a_diff_touched p st :
  a_diff (run p st)
  = touched (a_diff st)
      (omap (λ i, match i with ReadDiff f => Some f | _ => None end) p).
Proof.
  revert st. induction p as [|i p IH]; intros st; [done|].
  change (run (i :: p) st) with (run p (exec st i)). rewrite IH.
  by destruct i.
Qed.

Lemma report_diff_data_touched o s :
  diff_data (report o s).1 = touched (diff_data s) (event_reads o s ReportCall).
Proof.
  cbn [event_reads].
  destruct (report_cases o s)
    as [[Hv ->]|[(Hv & _ & ->)|[(Hv & rf & _ & _ & ->)|(Hv & rf & _ & _ & ->)]]].
  - by rewrite Hv.
  - apply Z.eqb_neq in Hv. rewrite Hv. apply run_a_diff_touched.
  - apply Z.eqb_neq in Hv. rewrite Hv. apply run_a_diff_touched.
  - apply Z.eqb_neq in Hv. rewrite Hv. apply run_a_diff_touched.
Qed.

Lemma step_diff_data_touched o s e :
  diff_data (step o s e) = touched (diff_data s) (event_reads o s e).
Proof.
  destruct e; cbn [step]; try done.
  - apply wantMethod_diff_data.
  - apply report_diff_data_touched.
Qed.

Lemma step_diff_data o s e f :
  changed_lines (step o s e) f = changed_lines s f ∧
  diff_data s ⊆ diff_data (step o s e).
Proof.
  unfold changed_lines. rewrite step_diff_data_touched.
  split; [apply touched_value|apply touched_subseteq].
Qed.






(** ** A run on an empty diff *)

Lemma record_unit_no_lines diff cov cu :
  no_lines diff → record_unit diff cov cu = cov.
Proof.
  intros Hd. unfold record_unit.
  destruct (diff !! _) as [changed|] eqn:E; [|done].
  apply Hd in E. subst changed.
  replace (List.filter _ _) with (@nil Z); [done|].
  induction (executed_lines cu) as [|l ls IH]; [done|].
  cbn [List.filter]. rewrite bool_decide_eq_false_2 by set_solver. exact IH.
Qed.

Lemma record_coverage_data_no_lines diff units cov :
  no_lines diff → record_coverage_data diff units cov = cov.
Proof.
  intros Hd. revert cov. unfold record_coverage_data.
  induction units as [|cu units IH]; intros cov; [done|].
  cbn [fold_left]. by rewrite record_unit_no_lines.
Qed.

Lemma no_lines_touch d f : no_lines d → no_lines (dd_touch ∅ d f).
Proof.
  intros Hd k ls Hk. apply dd_touch_lookup_inv in Hk as [Hk| ->]; [|done].
  by apply (Hd k).
Qed.

Lemma no_coverage_record diff units d k :
  no_lines diff → no_coverage d →
  no_coverage (dd_modify ∅ (record_coverage_data diff units) d k).
Proof.
  intros Hdiff Hd k' c. destruct (decide (k = k')) as [<-|Hne].
  - rewrite dd_modify_lookup_eq. intros [= <-].
    rewrite record_coverage_data_no_lines by done.
    unfold dd_value. destruct (d !! k) as [c|] eqn:E; [|done].
    by apply (Hd k).
  - rewrite dd_modify_lookup_ne by done. apply Hd.
Qed.

Lemma blank_program o s : blank s → program o s = [].
Proof.
  intros (_ & _ & Hown & Himp). unfold program.
  assert (Hall : Forall (λ item, test_stmts o s item = [])
                   (iteritems o (test_cov_data s))).
  { apply Forall_forall. intros [t c] Hin.
    apply iteritems_elem_of in Hin. apply Hown in Hin. subst c.
    unfold test_stmts. rewrite iteritems_empty. cbn [flat_map app].
    unfold overlay_of. destruct (test_to_module_map s !! t) as [m|]; [|done].
    destruct (Py.truthy m); [|done].
    destruct (importtime_cov_data s !! m) as [c|] eqn:E; [|done].
    apply Himp in E. subst c. by rewrite iteritems_empty. }
  induction Hall as [|item items Hitem _ IH]; [done|].
  cbn [flat_map]. by rewrite Hitem, IH.
Qed.

Lemma blank_assemble o s :
  blank s →
  assemble o s = assembly_start s ∧ tally o (a_data (assemble o s)) = (0, 0).
Proof.
  intros Hb. unfold assemble. rewrite (blank_program o s Hb).
  split; [done|]. cbn [run fold_left assembly_start a_data].
  unfold tally. by rewrite iteritems_empty.
Qed.

Lemma blank_report o s :
  blank s →
  diff_data (report o s).1 = diff_data s ∧
  ∀ r, (report o s).2 = Returned (Some r) → r = empty_report.
Proof.
  intros Hb. destruct (blank_assemble o s Hb) as [Ha Ht].
  destruct (report_cases o s)
    as [[_ ->]|[(_ & _ & ->)|[(_ & rf & _ & _ & ->)|(_ & rf & _ & _ & ->)]]];
    rewrite ?Ht; rewrite ?Ha; cbn [fst snd]; (split; [by destruct s|]);
    try done.
  intros r [= <-]. reflexivity.
Qed.

Lemma blank_step o s e : blank s → blank (step o s e).
Proof.
  intros Hb. pose proof Hb as (Hd & Hp & Hown & Himp).
  destruct e as [m| |module units| |test units|]; cbn [step]; try done.
  - destruct (wantMethod_other_fields s m) as (_ & _ & Ep & Eo & Ei & _).
    unfold blank. rewrite Ep, Eo, Ei, wantMethod_diff_data.
    repeat split; try done. by apply no_lines_touch.
  - unfold blank, afterImport.
    cbn [diff_data pending_files test_cov_data importtime_cov_data
         set_importtime_cov_data].
    repeat split; try done. by apply no_coverage_record.
  - unfold blank, stopTest.
    cbn [diff_data pending_files test_cov_data importtime_cov_data
         set_test_cov_data set_test_to_module_map].
    repeat split; try done. by apply no_coverage_record.
  - destruct (report_other_fields o s) as (_ & _ & Ep & Eo & Ei & _).
    destruct (blank_report o s Hb) as [Ed _].
    unfold blank. by rewrite Ep, Eo, Ei, Ed.
Qed.

Lemma blank_run_events o s es : blank s → blank (run_events o s es).
Proof.
  revert s. induction es as [|e es IH]; intros s Hb; [done|].
  change (run_events o s (e :: es)) with (run_events o (step o s e) es).
  by apply IH, blank_step.
Qed.

Lemma prefix_rule_no_pending ps f run :
  (prefix_rule ps f ∅ run).1 = false.
Proof.
  revert run. induction ps as [|p ps IH]; intros run; [done|].
  cbn [prefix_rule]. destruct (Py.startswith f p); [|apply IH].
  rewrite elements_empty. cbn [existsb]. apply IH.
Qed.

Lemma blank_wantMethod s m : blank s → (wantMethod s m).1 = false.
Proof.
  intros (Hd & Hp & _). unfold wantMethod. cbn zeta.
  set (f := relative_filename s _).
  assert (Hempty : dd_value ∅ (diff_data s) f = (∅ : gset Z)).
  { unfold dd_value. destruct (diff_data s !! f) as [ls|] eqn:E; [|done].
    by apply (Hd f). }
  rewrite Hempty, bool_decide_eq_true_2 by done. cbn [negb andb].
  cbn [pending_files set_diff_data prefixes tests_run]. rewrite Hp.
  pose proof (prefix_rule_no_pending (prefixes s) f (tests_run s)) as Hr.
  by destruct (prefix_rule _ _ _ _).
Qed.

Lemma close_file_closed rf : closed rf = true → close_file rf = rf.
Proof. destruct rf as [d c]. cbn. by intros ->. Qed.

Lemma report_report_file o s :
  report_file (report o s).1
  = if Z.eqb (verbosity s) 0 then report_file s
    else close_file <$> report_file s.
Proof.
  destruct (report_cases o s)
    as [[Hv ->]|[(Hv & Hrf & ->)|[(Hv & rf & Hrf & Hc & ->)
                                 |(Hv & rf & Hrf & Hc & ->)]]].
  - by rewrite Hv.
  - apply Z.eqb_neq in Hv. rewrite Hv. cbn. by rewrite Hrf.
  - apply Z.eqb_neq in Hv. rewrite Hv. cbn. rewrite Hrf. cbn.
    by rewrite close_file_closed.
  - apply Z.eqb_neq in Hv. rewrite Hv. cbn. by rewrite Hrf.
Qed.

Lemma step_verbosity o s e : verbosity (step o s e) = verbosity s.
Proof.
  destruct e as [m| | | | |]; cbn [step]; try done.
  - by destruct (wantMethod_other_fields s m) as (? & _).
  - by destruct (report_other_fields o s) as (? & _).
Qed.

Lemma run_events_verbosity o s es :
  verbosity (run_events o s es) = verbosity s.
Proof.
  revert s. induction es as [|e es IH]; intros s; [done|].
  change (run_events o s (e :: es)) with (run_events o (step o s e) es).
  by rewrite IH, step_verbosity.
Qed.

Lemma step_report_file o s e :
  report_file (step o s e)
  = if is_report_call e && negb (Z.eqb (verbosity s) 0)
    then close_file <$> report_file s else report_file s.
Proof.
  destruct e as [m| | | | |]; cbn [step is_report_call andb]; try done.
  - by destruct (wantMethod_other_fields s m)
      as (_ & _ & _ & _ & _ & _ & _ & ?).
  - rewrite report_report_file. by destruct (Z.eqb _ _).
Qed.

Lemma close_file_twice (rf : option ReportFile) :
  close_file <$> (close_file <$> rf) = close_file <$> rf.
Proof. by destruct rf. Qed.

Lemma run_events_report_file o s es :
  report_file (run_events o s es)
  = if reported es && negb (Z.eqb (verbosity s) 0)
    then close_file <$> report_file s else report_file s.
Proof.
  revert s. induction es as [|e es IH]; intros s; [done|].
  change (run_events o s (e :: es)) with (run_events o (step o s e) es).
  rewrite IH, step_verbosity, step_report_file. cbn [reported existsb].
  fold (reported es).
  destruct (is_report_call e), (reported es), (Z.eqb (verbosity s) 0);
    cbn [andb orb negb]; try done.
  apply close_file_twice.
Qed.

Lemma configure_fields env opts s0 :
  configure env opts = Some s0 →
  verbosity s0 = opt_verbosity opts ∧ prefixes s0 = configure_prefixes opts ∧
  pending_files s0 = ∅ ∧ diff_data s0 = ∅ ∧ test_cov_data s0 = ∅ ∧
  importtime_cov_data s0 = ∅ ∧ root s0 = None ∧
  configure_report_file env opts = Some (report_file s0) ∧
  (∀ rf, report_file s0 = Some rf → closed rf = false).
Proof.
  unfold configure.
  destruct (configure_report_file env opts) as [rf|] eqn:E; [|done].
  cbn. intros [= <-]. cbn. repeat split; try done.
  intros rf' ->. unfold configure_report_file in E.
  destruct (quickunit_output opts) as [out|]; [|done].
  destruct (negb (Py.truthy out) || String.eqb out "-"); [done|].
  destruct (Py.startswith out "sys://").
  - destruct (String.eqb (Py.drop 6 out) "stdout"
              || String.eqb (Py.drop 6 out) "stderr"); [|done].
    by injection E as <-.
  - destruct (ensure_directory env (Py.dirname out)); [|done]. cbn in E.
    destruct (open_for_writing env out); [|done]. by injection E as <-.
Qed.

(** C8: when the diff text is empty (and the parser, as the specification
    has it, yields no record for an empty text), [begin] leaves an empty
    ChangeSet and an empty set of pending test paths; from then on, whatever
    hooks run, [wantMethod] answers false for every test, and the call of
    [report] that ends the run writes
    [{stats: {covered: 0, total: 0}, tests: {}}] when the verbosity is not 0
    and a report file is configured.  (A call of [report] that comes after
    one that wrote finds the file closed and raises.) *)
Theorem empty_diff_run (env : Env) (o : DictOrder) (opts : Options)
    (s0 : Plugin) (raw : string) (es : list Event) :
  configure env opts = Some s0 →
  Py.strip raw = "" →
  parse env "" = [] →
  ∃ s1,
    begin env raw s0 = Some s1 ∧
    diff_data s1 = ∅ ∧ pending_files s1 = ∅ ∧
    (∀ m, (wantMethod (run_events o s1 es) m).1 = false) ∧
    (report o (run_events o s1 es)).2
    = if Z.eqb (verbosity s0) 0 then Returned None
      else match report_file s0 with
           | None => Returned None
           | Some _ =>
               if reported es then ValueError
               else Returned (Some empty_report)
           end.
Proof.
  intros Hconf Hraw Hparse.
  destruct (configure_fields _ _ _ Hconf)
    as (_ & _ & Hp & Hd & Ht & Hi & _ & _ & Hopen).
  eexists. split.
  { unfold begin. rewrite Hraw, Hparse. reflexivity. }
  cbn [diff_data pending_files set_tests_run].
  split; [done|]. split; [done|].
  set (s1 := set_tests_run ∅ s0).
  assert (Hb : blank (run_events o s1 es)).
  { apply blank_run_events. unfold blank, s1.
    cbn [diff_data pending_files test_cov_data importtime_cov_data
         set_tests_run]. rewrite Hp, Hd, Ht, Hi. by repeat split. }
  split; [intros m; by apply blank_wantMethod|].
  pose proof (run_events_verbosity o s1 es) as Hv.
  pose proof (run_events_report_file o s1 es) as Hr.
  cbn [verbosity report_file s1 set_tests_run] in Hv, Hr.
  destruct (blank_assemble o _ Hb) as [Ha Htally].
  destruct (report_cases o (run_events o s1 es))
    as [[Hz ->]|[(Hz & Hrf & ->)|[(Hz & rf & Hrf & Hc & ->)
                                 |(Hz & rf & Hrf & Hc & ->)]]];
    rewrite Hv in Hz; cbn [snd].
  - by rewrite Hz.
  - apply Z.eqb_neq in Hz. rewrite Hz in *. cbn [negb andb] in Hr.
    rewrite Hr in Hrf. destruct (report_file s0) as [rf0|]; [|done].
    by destruct (reported es).
  - apply Z.eqb_neq in Hz. rewrite Hz in *. cbn [negb] in Hr.
    rewrite Hr in Hrf. destruct (report_file s0) as [rf0|] eqn:E0.
    2:{ by destruct (reported es). }
    destruct (reported es); [done|]. cbn in Hrf. injection Hrf as <-.
    rewrite (Hopen rf0 eq_refl) in Hc. discriminate Hc.
  - apply Z.eqb_neq in Hz. rewrite Hz in *. cbn [negb] in Hr.
    rewrite Hr in Hrf. rewrite Htally, Ha. cbn [fst snd a_data assembly_start].
    destruct (report_file s0) as [rf0|] eqn:E0.
    2:{ by destruct (reported es). }
    destruct (reported es); [|done]. cbn in Hrf. injection Hrf as <-.
    discriminate Hc.
Qed.

Lemma empty_diff_run_witness :
  ∃ s1,
    begin Scenario.env "" (Scenario.configured 1) = Some s1 ∧
    diff_data s1 = ∅ ∧ pending_files s1 = ∅ ∧
    (∀ m, (wantMethod
             (run_events forward_order s1
                [WantMethod (Scenario.test_in "tests/test_x.py");
                 StopTest (Scenario.case "tests.test_x" "X" "test_it")
                   [Scenario.ran "pkg/foo" [1; 2]]]) m).1 = false) ∧
    (report forward_order
       (run_events forward_order s1
          [WantMethod (Scenario.test_in "tests/test_x.py");
           StopTest (Scenario.case "tests.test_x" "X" "test_it")
             [Scenario.ran "pkg/foo" [1; 2]]])).2
    = Returned (Some empty_report).
Proof.
  apply (empty_diff_run Scenario.env forward_order (Scenario.options 1)
           (Scenario.configured 1) ""); reflexivity.
Defined.

(** ** What [begin] enters in [diff_data] *)

Lemma truthy_true s : Py.truthy s = true ↔ s ≠ "".
Proof.
  unfold Py.truthy. rewrite negb_true_iff. apply String.eqb_neq.
Qed.

Lemma lineno_truthy_Some x n :
  lineno_truthy x = Some n ↔ x = Some n ∧ n ≠ 0.
Proof.
  unfold lineno_truthy. destruct x as [z|]; [|by split; [|intros []]].
  destruct (Z.eqb_spec z 0) as [->|Hz]; split.
  - done.
  - by intros [[= <-] ?].
  - by intros [= <-].
  - by intros [[= <-] _].
Qed.

Lemma elem_of_chunk_linenos chunk n :
  n ∈ chunk_linenos chunk ↔
  ∃ l, l ∈ chunk ∧ line l ≠ "" ∧ new_lineno l = Some n ∧ n ≠ 0.
Proof.
  unfold chunk_linenos. rewrite list_elem_of_omap. split.
  - intros (l & Hl & Hn). apply list_elem_of_In, filter_In in Hl as [Hl Ht].
    apply lineno_truthy_Some in Hn as [Hn Hz].
    exists l. by rewrite list_elem_of_In, <- truthy_true.
  - intros (l & Hl & Ht & Hn & Hz). exists l. split.
    + apply list_elem_of_In, filter_In. by rewrite <- list_elem_of_In, truthy_true.
    + by apply lineno_truthy_Some.
Qed.

Lemma elem_of_diff_update d name linenos f n :
  n ∈ dd_value ∅ (diff_update d name linenos) f ↔
  n ∈ dd_value ∅ d f ∨ (f = name ∧ n ∈ linenos).
Proof.
  unfold diff_update. destruct (decide (name = f)) as [->|Hne].
  - rewrite dd_value_modify_eq, elem_of_union, elem_of_list_to_set.
    intuition congruence.
  - rewrite dd_value_modify_ne by done. intuition congruence.
Qed.

Lemma elem_of_record_chunks name cs d f n :
  n ∈ dd_value ∅ (record_chunks name cs d) f ↔
  n ∈ dd_value ∅ d f ∨
  (f = name ∧ ∃ chunk, chunk ∈ cs ∧ n ∈ chunk_linenos chunk).
Proof.
  unfold record_chunks. revert d.
  induction cs as [|chunk cs IH]; intros d; cbn [fold_left].
  - split; [by left|]. intros [?|(_ & c & Hc & _)]; [done|].
    by apply elem_of_nil in Hc.
  - rewrite IH, elem_of_diff_update. split.
    + intros [[?|[-> ?]]|(-> & c & Hc & Hn)].
      * by left.
      * right. split; [done|]. exists chunk. split; [constructor|done].
      * right. split; [done|]. exists c. split; [by constructor|done].
    + intros [?|(-> & c & Hc & Hn)]; [by left; left|].
      apply elem_of_cons in Hc as [->|Hc].
      * left. by right.
      * right. split; [done|]. by exists c.
Qed.

Lemma begin_file_changed env s file s' f n :
  begin_file env s file = Some s' →
  n ∈ changed_lines s' f ↔
  n ∈ changed_lines s f ∨
  (retained env file = true ∧ diff_key file = Some f ∧ records_lineno file n).
Proof.
  unfold begin_file, retained, diff_key, records_lineno, changed_lines.
  destruct (is_header file); cbn [negb andb].
  { intros [= <-]. intuition congruence. }
  destruct (is_dev_null (new_filename file)); cbn [negb andb].
  { intros [= <-]. intuition congruence. }
  set (is_new := is_dev_null (old_filename file)).
  destruct (if is_new then new_filename file else old_filename file)
    as [name|]; [|done].
  cbn [mbind option_bind].
  destruct (Py.startswith name _); cbn [negb andb].
  2:{ intros [= <-]. destruct (new_filename file); intuition congruence. }
  set (s_root := match root s with Some _ => s | None => _ end).
  assert (Hroot : diff_data s_root = diff_data s)
    by (subst s_root; by destruct (root s)).
  destruct (is_py_script env (Py.drop 2 name)); cbn [negb].
  2:{ intros [= <-]. rewrite Hroot. destruct (new_filename file); intuition congruence. }
  destruct (new_filename file) as [new|]; [|done].
  cbn [mbind option_bind fmap option_fmap option_map].
  intros Hs'.
  assert (Hd : diff_data s'
               = record_chunks (Py.drop 2 new) (chunks file) (diff_data s)).
  { rewrite <- Hroot. destruct is_new; by injection Hs' as <-. }
  rewrite Hd, elem_of_record_chunks. split.
  - intros [?|(-> & c & Hc & Hn)]; [by left|]. right.
    apply elem_of_chunk_linenos in Hn as (l & ?). split; [done|].
    split; [done|]. by exists c, l.
  - intros [?|(_ & [= <-] & c & l & Hc & Hl)]; [by left|]. right.
    split; [done|]. exists c. split; [done|].
    apply elem_of_chunk_linenos. by exists l.
Qed.

Lemma begin_files_changed env files s s' f n :
  begin_files env files s = Some s' →
  n ∈ changed_lines s' f ↔
  n ∈ changed_lines s f ∨
  ∃ file, file ∈ files ∧ retained env file = true ∧
          diff_key file = Some f ∧ records_lineno file n.
Proof.
  revert s. induction files as [|file files IH]; intros s; cbn [begin_files].
  - intros [= <-]. split; [by left|]. intros [?|(x & Hx & _)]; [done|].
    by apply elem_of_nil in Hx.
  - destruct (begin_file env s file) as [s1|] eqn:E; [|done].
    cbn [mbind option_bind]. intros Hrest.
    rewrite (IH _ Hrest), (begin_file_changed _ _ _ _ f n E). split.
    + intros [[?|?]|(x & Hx & ?)].
      * by left.
      * right. exists file. split; [constructor|done].
      * right. exists x. split; [by constructor|done].
    + intros [?|(x & Hx & Hrec)]; [by left; left|].
      apply elem_of_cons in Hx as [->|Hx]; [left; by right|].
      right. by exists x.
Qed.

(** C5, as the code has it: after [begin], the changed lines of a file are
    those it had before together with the line numbers recorded for the
    retained records entered under that name: the numbers, other than 0, of
    the lines that have text, of every hunk and of every kind.  The numbers
    of unchanged lines are among them; an added line without text is not. *)
Theorem changeset_entry_lines (env : Env) (files : list FileDiffRecord)
    (s s' : Plugin) (f : string) (n : Z) :
  begin_files env files s = Some s' →
  n ∈ changed_lines s' f ↔
  n ∈ changed_lines s f ∨
  ∃ file, file ∈ files ∧ retained env file = true ∧
          diff_key file = Some f ∧ records_lineno file n.
Proof. apply begin_files_changed. Qed.

(** C5, as stated, fails: a hunk of [pkg/foo.py] with an unchanged line 9
    before an added line 10 puts 9 among the changed lines of the file,
    and 9 is not the number of an added line. *)
Lemma unchanged_line_enters_changeset :
  retained Scenario.env Scenario.foo_with_context = true ∧
  ∃ s', begin_files Scenario.env [Scenario.foo_with_context]
          (Scenario.configured 1) = Some s' ∧
        9 ∈ changed_lines s' "pkg/foo.py" ∧
        9 ∉ added_linenos Scenario.foo_with_context.
Proof.
  split; [reflexivity|]. eexists. split; [reflexivity|]. split.
  - refine (bool_decide_unpack _ _). vm_compute. exact I.
  - refine (bool_decide_unpack _ _). vm_compute. exact I.
Qed.

Lemma changeset_entry_lines_witness :
  ∃ s', begin_files Scenario.env [Scenario.foo_with_context]
          (Scenario.configured 1) = Some s' ∧
        (9 ∈ changed_lines s' "pkg/foo.py" ↔
         9 ∈ changed_lines (Scenario.configured 1) "pkg/foo.py" ∨
         ∃ file, file ∈ [Scenario.foo_with_context] ∧
                 retained Scenario.env file = true ∧
                 diff_key file = Some "pkg/foo.py" ∧
                 records_lineno file 9).
Proof.
  eexists. split; [reflexivity|].
  apply (changeset_entry_lines Scenario.env [Scenario.foo_with_context]
           (Scenario.configured 1)).
  reflexivity.
Defined.

(** ** Test selection *)

Lemma prefix_rule_true ps f pending run :
  (prefix_rule ps f pending run).1 = true ↔
  (∃ p, p ∈ ps ∧ Py.startswith f p = true) ∧
  ∃ q, q ∈ pending ∧ Py.startswith f q = true.
Proof.
  revert run. induction ps as [|p ps IH]; intros run; cbn [prefix_rule].
  - split; [done|]. intros [(p & Hp & _) _]. by apply elem_of_nil in Hp.
  - destruct (Py.startswith f p) eqn:Ep.
    + destruct (existsb _ _) eqn:Eq.
      * cbn [fst]. split; [intros _|done]. split.
        -- exists p. split; [constructor|done].
        -- apply existsb_exists in Eq as (q & Hq & ?). exists q.
           by rewrite <- elem_of_elements, list_elem_of_In.
      * rewrite IH. split.
        -- intros [(p' & Hp' & ?) ?]. split; [|done]. exists p'.
           split; [by constructor|done].
        -- intros [_ (q & Hq & Hfq)]. exfalso.
           apply not_true_iff_false in Eq. apply Eq, existsb_exists.
           exists q. by rewrite <- list_elem_of_In, elem_of_elements.
    + rewrite IH. split.
      * intros [(p' & Hp' & ?) ?]. split; [|done]. exists p'.
        split; [by constructor|done].
      * intros [(p' & Hp' & Hfp') ?]. split; [|done].
        apply elem_of_cons in Hp' as [->|Hp']; [congruence|by exists p'].
Qed.

Lemma wantMethod_true s m :
  let f := relative_filename s (cls_file (im_class m)) in
  (wantMethod s m).1 = true ↔
  (∃ n, n ∈ source_range (cls_startlineno (im_class m))
                         (cls_nlines (im_class m)) ∧
        n ∈ changed_lines s f) ∨
  ((∃ p, p ∈ prefixes s ∧ Py.startswith f p = true) ∧
   ∃ q, q ∈ pending_files s ∧ Py.startswith f q = true).
Proof.
  intros f. unfold wantMethod, changed_lines. cbn zeta. fold f.
  destruct (negb _ && existsb _ _) eqn:E.
  - cbn [fst]. split; [intros _|done]. left.
    apply andb_true_iff in E as [_ E].
    apply existsb_exists in E as (n & Hn & Hd).
    exists n. split; [by apply list_elem_of_In|by apply bool_decide_eq_true in Hd].
  - cbn [prefixes pending_files tests_run set_diff_data].
    pose proof (prefix_rule_true (prefixes s) f (pending_files s) (tests_run s)) as Hr.
    destruct (prefix_rule _ _ _ _) as [r run]. cbn [fst] in *.
    rewrite Hr. split; [by right|]. intros [(n & Hn & Hd)|?]; [|done].
    exfalso. apply andb_false_iff in E as [E|E].
    + apply negb_false_iff, bool_decide_eq_true in E. rewrite E in Hd.
      by apply not_elem_of_empty in Hd.
    + apply not_true_iff_false in E. apply E, existsb_exists. exists n.
      split; [by apply list_elem_of_In|by apply bool_decide_eq_true].
Qed.


Lemma elem_of_add_pending name ps pend q :
  q ∈ add_pending name ps pend ↔
  q ∈ pend ∨ ∃ p, p ∈ ps ∧ q = Py.path_join p (Py.rsplit_dot_head name).
Proof.
  unfold add_pending. revert pend.
  induction ps as [|p ps IH]; intros pend; cbn [fold_left].
  - split; [by left|]. intros [?|(p & Hp & _)]; [done|].
    by apply elem_of_nil in Hp.
  - rewrite IH, elem_of_union, elem_of_singleton. split.
    + intros [[->|?]|(p' & Hp' & ->)].
      * right. exists p. split; [constructor|done].
      * by left.
      * right. exists p'. split; [by constructor|done].
    + intros [?|(p' & Hp' & ->)]; [left; by right|].
      apply elem_of_cons in Hp' as [->|Hp']; [left; by left|].
      right. by exists p'.
Qed.

Lemma startswith_app p s : Py.startswith (p ++ s) p = true.
Proof.
  unfold Py.startswith. induction p as [|c p IH]; [by destruct s|].
  simpl. destruct (ascii_dec c c) as [_|Hne]; [exact IH|by destruct Hne].
Qed.

Lemma begin_file_modified env s name cs :
  is_py_script env name = true →
  ∃ s1, begin_file env s (Scenario.modified name cs) = Some s1 ∧
        prefixes s1 = prefixes s ∧
        pending_files s1 = add_pending name (prefixes s) (pending_files s) ∧
        diff_data s1 = record_chunks name cs (diff_data s).
Proof.
  intros Hpy. unfold begin_file, Scenario.modified.
  cbn [is_header new_filename old_filename chunks].
  change (is_dev_null (Some ("b/" ++ name))) with false.
  change (is_dev_null (Some ("a/" ++ name))) with false.
  cbn [mbind option_bind].
  rewrite (startswith_app "a/" name).
  change (Py.drop 2 ("a/" ++ name)) with name.
  change (Py.drop 2 ("b/" ++ name)) with name.
  rewrite Hpy. cbn [negb].
  eexists. split; [reflexivity|]. by destruct (root s).
Qed.

Lemma begin_file_created env s name cs :
  is_py_script env name = true →
  ∃ s1, begin_file env s (Scenario.created name cs) = Some s1 ∧
        prefixes s1 = prefixes s ∧
        pending_files s1 = pending_files s ∧
        diff_data s1 = record_chunks name cs (diff_data s).
Proof.
  intros Hpy. unfold begin_file, Scenario.created.
  cbn [is_header new_filename old_filename chunks].
  change (is_dev_null (Some ("b/" ++ name))) with false.
  change (is_dev_null (Some "/dev/null")) with true.
  cbn [mbind option_bind].
  rewrite (startswith_app "b/" name).
  change (Py.drop 2 ("b/" ++ name)) with name.
  rewrite Hpy. cbn [negb].
  eexists. split; [reflexivity|]. by destruct (root s).
Qed.

Lemma prefix_trans a b c :
  String.prefix a b = true → String.prefix b c = true →
  String.prefix a c = true.
Proof.
  revert b c. induction a as [|x a IH]; intros b c; [by destruct c|].
  destruct b as [|y b]; [simpl; discriminate|].
  destruct c as [|z c]; [simpl; discriminate|].
  simpl.
  destruct (ascii_dec x y) as [->|]; [|done].
  destruct (ascii_dec y z) as [->|]; [|done]. apply IH.
Qed.

Lemma startswith_trans f q p :
  Py.startswith f q = true → Py.startswith q p = true →
  Py.startswith f p = true.
Proof. unfold Py.startswith. intros ? ?. by apply (prefix_trans p q f). Qed.

(** C1, as the code has it.  The diff adds lines 10 and 11 to
    [pkg/foo.py] and the only prefix is [tests/], so the one pending test
    path is [tests/pkg/foo].  [wantMethod] then answers true for a test
    whose class lives in a file whose root-relative name starts with
    [tests/pkg/foo], and false for a test in [tests/pkg/test_foo.py] or in
    [tests/pkg/test_bar.py].  When [tests/pkg/test_bar.py] is in the diff
    as well, a test in that file is wanted exactly when a line recorded for
    the file lies in the source lines of the test's class. *)
Theorem selection_scenario (env : Env) (s0 : Plugin) (t1 t2 : string)
    (cs : list Hunk) :
  prefixes s0 = ["tests/"] → diff_data s0 = ∅ → pending_files s0 = ∅ →
  is_py_script env "pkg/foo.py" = true →
  is_py_script env "tests/pkg/test_bar.py" = true →
  ∃ sA sB,
    begin_files env [Scenario.foo_diff t1 t2] s0 = Some sA ∧
    begin_files env [Scenario.foo_diff t1 t2; Scenario.bar_diff cs] s0
      = Some sB ∧
    (∀ m, Py.startswith (relative_filename sA (cls_file (im_class m)))
            "tests/pkg/foo" = true →
          (wantMethod sA m).1 = true) ∧
    (∀ m, relative_filename sA (cls_file (im_class m))
            = "tests/pkg/test_foo.py" ∨
          relative_filename sA (cls_file (im_class m))
            = "tests/pkg/test_bar.py" →
          (wantMethod sA m).1 = false) ∧
    (∀ m, relative_filename sB (cls_file (im_class m))
            = "tests/pkg/test_bar.py" →
          (wantMethod sB m).1 = true ↔
          ∃ n, n ∈ source_range (cls_startlineno (im_class m))
                                (cls_nlines (im_class m)) ∧
               records_lineno (Scenario.bar_diff cs) n).
Proof.
  intros Hp Hd Hpend Hfoo Hbar.
  destruct (begin_file_modified env s0 "pkg/foo.py"
              [[Scenario.added 10 t1; Scenario.added 11 t2]] Hfoo)
    as (sA & HsA & HpA & HqA & HdA).
  destruct (begin_file_modified env sA "tests/pkg/test_bar.py" cs Hbar)
    as (sB & HsB & HpB & HqB & HdB).
  fold (Scenario.foo_diff t1 t2) in HsA. fold (Scenario.bar_diff cs) in HsB.
  assert (HA : begin_files env [Scenario.foo_diff t1 t2] s0 = Some sA).
  { cbn [begin_files]. by rewrite HsA. }
  assert (HB : begin_files env [Scenario.foo_diff t1 t2; Scenario.bar_diff cs]
                 s0 = Some sB).
  { cbn [begin_files]. rewrite HsA. cbn [mbind option_bind]. by rewrite HsB. }
  exists sA, sB. split; [done|]. split; [done|].
  rewrite Hp, Hpend in HqA. rewrite HpA, Hp, HqA in HqB. rewrite Hp in HpA.
  rewrite HpA in HpB.
  assert (Hnone : ∀ f n, n ∉ changed_lines s0 f).
  { intros f n. unfold changed_lines, dd_value. rewrite Hd, lookup_empty.
    apply not_elem_of_empty. }
  split; [|split].
  - intros m Hm. apply wantMethod_true. right. rewrite HpA, HqA. split.
    + exists "tests/". split; [constructor|].
      by apply (startswith_trans _ "tests/pkg/foo").
    + exists "tests/pkg/foo". split; [|done].
      apply elem_of_add_pending. right. exists "tests/".
      split; [constructor|reflexivity].
  - intros m Hm. apply not_true_iff_false. rewrite wantMethod_true.
    intros [(n & _ & Hn)|[_ (q & Hq & Hfq)]].
    + apply (begin_files_changed _ _ _ _ _ n HA) in Hn
        as [Hn|(file & Hfile & _ & Hkey & _)]; [by apply Hnone in Hn|].
      apply list_elem_of_singleton in Hfile. subst file.
      destruct Hm as [Hm|Hm]; rewrite Hm in Hkey; discriminate Hkey.
    + rewrite HqA in Hq. apply elem_of_add_pending in Hq
        as [Hq|(p & Hp' & ->)]; [by apply not_elem_of_empty in Hq|].
      apply list_elem_of_singleton in Hp'. subst p.
      destruct Hm as [Hm|Hm]; rewrite Hm in Hfq; discriminate Hfq.
  - intros m Hm. rewrite wantMethod_true, Hm. split.
    + intros [(n & Hrange & Hn)|[_ (q & Hq & Hfq)]].
      * exists n. split; [done|].
        apply (begin_files_changed _ _ _ _ _ n HB) in Hn
          as [Hn|(file & Hfile & _ & Hkey & Hrec)]; [by apply Hnone in Hn|].
        apply elem_of_cons in Hfile as [->|Hfile]; [discriminate Hkey|].
        apply list_elem_of_singleton in Hfile. by subst file.
      * exfalso. rewrite HqB in Hq. apply elem_of_add_pending in Hq
          as [Hq|(p & Hp' & ->)].
        -- apply elem_of_add_pending in Hq
             as [Hq|(p & Hp' & ->)]; [by apply not_elem_of_empty in Hq|].
           apply list_elem_of_singleton in Hp'. subst p. discriminate Hfq.
        -- apply list_elem_of_singleton in Hp'. subst p. discriminate Hfq.
    + intros (n & Hrange & Hrec). left. exists n. split; [done|].
      apply (begin_files_changed _ _ _ _ _ n HB). right.
      exists (Scenario.bar_diff cs). split; [by repeat constructor|].
      split; [|done]. unfold retained, Scenario.bar_diff, Scenario.modified.
      cbn [is_header new_filename old_filename negb andb].
      change (is_dev_null (Some ("b/" ++ "tests/pkg/test_bar.py"))) with false.
      change (is_dev_null (Some ("a/" ++ "tests/pkg/test_bar.py"))) with false.
      cbn [negb andb].
      change (Py.drop 2 ("a/" ++ "tests/pkg/test_bar.py"))
        with "tests/pkg/test_bar.py".
      by rewrite Hbar.
Qed.

Lemma selection_scenario_witness :
  ∃ sA sB,
    begin_files Scenario.env [Scenario.foo_diff "x = 1" "y = 2"]
      (Scenario.configured 1) = Some sA ∧
    begin_files Scenario.env
      [Scenario.foo_diff "x = 1" "y = 2";
       Scenario.bar_diff [[Scenario.added 3 "def test_bar(self):"]]]
      (Scenario.configured 1) = Some sB ∧
    (∀ m, Py.startswith (relative_filename sA (cls_file (im_class m)))
            "tests/pkg/foo" = true →
          (wantMethod sA m).1 = true) ∧
    (∀ m, relative_filename sA (cls_file (im_class m))
            = "tests/pkg/test_foo.py" ∨
          relative_filename sA (cls_file (im_class m))
            = "tests/pkg/test_bar.py" →
          (wantMethod sA m).1 = false) ∧
    (∀ m, relative_filename sB (cls_file (im_class m))
            = "tests/pkg/test_bar.py" →
          (wantMethod sB m).1 = true ↔
          ∃ n, n ∈ source_range (cls_startlineno (im_class m))
                                (cls_nlines (im_class m)) ∧
               records_lineno
                 (Scenario.bar_diff [[Scenario.added 3 "def test_bar(self):"]])
                 n).
Proof.
  apply (selection_scenario Scenario.env (Scenario.configured 1)
           "x = 1" "y = 2" [[Scenario.added 3 "def test_bar(self):"]]);
    reflexivity.
Defined.

(** C1, as stated, fails: with lines 10 and 11 added to [pkg/foo.py] and
    the prefix [tests/], a test whose class is defined in
    [/repo/tests/pkg/test_foo.py] is not wanted. *)
Lemma test_foo_not_selected :
  (s1 ← begin_files Scenario.env [Scenario.foo_diff "x = 1" "y = 2"]
          (Scenario.configured 1);
   Some (relative_filename s1 "/repo/tests/pkg/test_foo.py",
         (wantMethod s1 (Scenario.test_in "/repo/tests/pkg/test_foo.py")).1))
  = Some ("tests/pkg/test_foo.py", false).
Proof. vm_compute. reflexivity. Qed.

(** ** The assembly of the report, statement by statement *)

Lemma leaf_entry d t f l : leaf d t f l = entry d t f ≫= (.!! l).
Proof. unfold leaf, entry. by destruct (d !! t). Qed.

Lemma entry_dd_modify g (d : gmap string (gmap string (gmap Z Z))) t' t f :
  entry (dd_modify ∅ g d t') t f
  = if decide (t' = t) then g (dd_value ∅ d t') !! f else entry d t f.
Proof.
  unfold entry. case_decide as Ht.
  - subst. by rewrite dd_modify_lookup_eq.
  - by rewrite dd_modify_lookup_ne.
Qed.

Lemma dd_value_lookup (d : gmap string (gmap string (gmap Z Z))) t f :
  dd_value ∅ d t !! f = entry d t f.
Proof. unfold dd_value, entry. by destruct (d !! t). Qed.

Lemma entry_update_lines t' f' new d t f :
  entry (update_lines t' f' new d) t f
  = if decide (t' = t ∧ f' = f)
    then Some (new ∪ default ∅ (entry d t f)) else entry d t f.
Proof.
  unfold update_lines. rewrite entry_dd_modify.
  destruct (decide (t' = t)) as [->|Ht].
  - destruct (decide (f' = f)) as [->|Hf].
    + rewrite decide_True by done. by rewrite lookup_insert_eq, dd_value_lookup.
    + rewrite decide_False by (by intros [_ ?]).
      by rewrite lookup_insert_ne, dd_value_lookup.
  - by rewrite decide_False by (by intros [? _]).
Qed.

Lemma entry_exec st i t f :
  entry (a_data (exec st i)) t f
  = match stored st i (entry (a_data st) t f) with
    | Some (t', f', v) =>
        if decide (t' = t ∧ f' = f) then Some v else entry (a_data st) t f
    | None => entry (a_data st) t f
    end.
Proof.
  destruct i as [f'|f' c|t' f' c|t' f'|f' c|t' f'|t' f' c];
    cbn [exec a_data stored]; try done.
  - rewrite entry_dd_modify. destruct (decide (t' = t)) as [->|Ht].
    + destruct (decide (f' = f)) as [->|Hf].
      * rewrite decide_True by done. by rewrite lookup_insert_eq.
      * rewrite decide_False by (by intros [_ ?]).
        by rewrite lookup_insert_ne, dd_value_lookup.
    + by rewrite decide_False by (by intros [? _]).
  - apply entry_update_lines.
  - rewrite entry_dd_modify. destruct (decide (t' = t)) as [->|Ht].
    + destruct (decide (f' = f)) as [->|Hf].
      * rewrite decide_True by done. rewrite <- dd_value_lookup.
        destruct (dd_value ∅ (a_data st) t !! f) as [v|] eqn:E; cbn [default].
        -- done.
        -- by rewrite lookup_insert_eq.
      * rewrite decide_False by (by intros [_ ?]).
        destruct (dd_value ∅ (a_data st) t !! f') as [v|] eqn:E.
        -- by rewrite dd_value_lookup.
        -- by rewrite lookup_insert_ne, dd_value_lookup.
    + by rewrite decide_False by (by intros [? _]).
  - apply entry_update_lines.
Qed.

Lemma missing_exec st i f :
  missing_of (exec st i) f
  = match i with
    | SetMissing f' c =>
        if decide (f' = f) then dd_value ∅ (a_diff st) f ∖ c
        else missing_of st f
    | NarrowMissing f' c =>
        if decide (f' = f) then missing_of st f ∖ c else missing_of st f
    | _ => missing_of st f
    end.
Proof.
  unfold missing_of.
  destruct i as [f'|f' c|t' f' c|t' f'|f' c|t' f'|t' f' c];
    cbn [exec a_missing]; try done.
  - unfold dd_value at 1. case_decide as Hf.
    + subst. by rewrite lookup_insert_eq.
    + by rewrite lookup_insert_ne.
  - apply dd_value_touch.
  - case_decide as Hf.
    + subst. by rewrite dd_value_modify_eq.
    + by rewrite dd_value_modify_ne.
Qed.

Lemma leaf_union_1_l (new old : gmap Z Z) l :
  (new ∪ old) !! l = Some 1 →
  new !! l = Some 1 ∨ (new !! l = None ∧ old !! l = Some 1).
Proof.
  rewrite lookup_union. destruct (new !! l) as [v|]; cbn.
  - destruct (old !! l); cbn; intros [= ->]; by left.
  - destruct (old !! l) as [w|]; cbn; [|done]. intros [= ->]. by right.
Qed.

Lemma exec_stays_covered st i :
  allowed st i → stays_covered (a_data st) (a_data (exec st i)).
Proof.
  intros Hok t f l. rewrite !leaf_entry, entry_exec.
  destruct i as [f'|f' c|t' f' c|t' f'|f' c|t' f'|t' f' c];
    cbn [stored allowed] in *; try done.
  - case_decide as Htf; [|done]. destruct Htf as [-> ->].
    intros H1. rewrite <- leaf_entry in H1. apply Hok in H1. cbn.
    by apply lookup_gset_to_gmap_Some.
  - case_decide as Htf; [|done]. destruct Htf as [-> ->].
    intros H1. pose proof H1 as H1'. rewrite <- leaf_entry in H1'.
    apply Hok in H1'.
    destruct (entry (a_data st) t f) as [old|]; [|done].
    cbn [mbind option_bind default from_option id] in *.
    rewrite lookup_union, H1.
    by rewrite (proj2 (lookup_gset_to_gmap_None 0 _ l)).
  - case_decide as Htf; [|done].
    by destruct (entry (a_data st) t f).
  - case_decide as Htf; [|done].
    destruct (entry (a_data st) t f) as [old|]; [|done]. cbn.
    intros H1. rewrite lookup_union, H1.
    by destruct (gset_to_gmap 1 c !! l) as [v|] eqn:E;
      [apply lookup_gset_to_gmap_Some in E as [_ <-]|].
Qed.

Lemma entry_exec_frame st i t f :
  target i ≠ Some (t, f) →
  entry (a_data (exec st i)) t f = entry (a_data st) t f.
Proof.
  intros Hne. rewrite entry_exec.
  destruct i; cbn [stored target] in *; try done;
    (case_decide as Htf; [destruct Htf as [-> ->]; by destruct Hne|done]).
Qed.

Lemma run_app p q st : run (p ++ q) st = run q (run p st).
Proof. apply fold_left_app. Qed.

Lemma runs_safely_app p q st :
  runs_safely (p ++ q) st ↔ runs_safely p st ∧ runs_safely q (run p st).
Proof.
  revert st. induction p as [|i p IH]; intros st; cbn [app runs_safely].
  - by intuition.
  - change (run (i :: p) st) with (run p (exec st i)). rewrite IH. tauto.
Qed.

Lemma run_entry_frame p st t f :
  Forall (λ i, target i ≠ Some (t, f)) p →
  entry (a_data (run p st)) t f = entry (a_data st) t f.
Proof.
  intros Hp. revert st. induction Hp as [|i p Hi _ IH]; intros st; [done|].
  change (run (i :: p) st) with (run p (exec st i)).
  by rewrite IH, entry_exec_frame.
Qed.

Lemma own_block t f c st :
  entry (a_data st) t f = None → open_missing t st →
  runs_safely (own_stmts t (f, c)) st ∧
  open_missing t (run (own_stmts t (f, c)) st).
Proof.
  intros Hnone HJ. cbn [own_stmts runs_safely run fold_left].
  set (s1 := exec st (ReadDiff f)).
  set (s2 := exec s1 (SetMissing f c)).
  set (s3 := exec s2 (SetCovered t f c)).
  set (s4 := exec s3 (MarkMissing t f)).
  assert (E2 : ∀ t' f', entry (a_data s2) t' f' = entry (a_data st) t' f').
  { intros. subst s2 s1. by rewrite !entry_exec_frame. }
  assert (M2 : ∀ f', missing_of s2 f'
                = if decide (f = f') then dd_value ∅ (a_diff s1) f' ∖ c
                  else missing_of st f').
  { intros. subst s2. rewrite missing_exec. case_decide; [done|].
    subst s1. by rewrite missing_exec. }
  assert (E3 : entry (a_data s3) t f = Some (gset_to_gmap 1 c)).
  { subst s3. rewrite entry_exec. cbn [stored]. by rewrite decide_True. }
  assert (M4 : ∀ f', missing_of s4 f' = missing_of s2 f').
  { intros. subst s4 s3. by rewrite !missing_exec. }
  assert (A3 : allowed s3 (MarkMissing t f)).
  { cbn [allowed]. intros l. rewrite leaf_entry, E3. cbn [mbind option_bind].
    rewrite lookup_gset_to_gmap_Some. intros [Hl _].
    subst s3. rewrite missing_exec, M2.
    rewrite decide_True by done. rewrite elem_of_difference. tauto. }
  split.
  - repeat split; try done.
    cbn [allowed]. intros l. by rewrite leaf_entry, E2, Hnone.
  - intros f' l. rewrite leaf_entry, M4.
    destruct (decide (f = f')) as [<-|Hf].
    + subst s4. rewrite entry_exec. cbn [stored]. rewrite decide_True by done.
      cbn [mbind option_bind].
      intros H1. apply leaf_union_1_l in H1 as [H1|[H0 _]].
      * by apply lookup_gset_to_gmap_Some in H1 as [_ ?].
      * apply lookup_gset_to_gmap_None in H0.
        subst s3. by rewrite missing_exec in H0.
    + subst s4 s3. rewrite !entry_exec_frame by (cbn; congruence).
      rewrite E2, M2, decide_False by done. rewrite <- leaf_entry. apply HJ.
Qed.

Lemma import_block t f c st :
  open_missing t st →
  runs_safely (import_stmts t (f, c)) st ∧
  open_missing t (run (import_stmts t (f, c)) st).
Proof.
  intros HJ. cbn [import_stmts runs_safely run fold_left].
  set (s1 := exec st (NarrowMissing f c)).
  set (s2 := exec s1 (EnsureFile t f)).
  set (s3 := exec s2 (MarkCovered t f c)).
  set (s4 := exec s3 (MarkMissing t f)).
  assert (M1 : ∀ f', missing_of s1 f'
                = if decide (f = f') then missing_of st f' ∖ c
                  else missing_of st f').
  { intros. subst s1. by rewrite missing_exec. }
  assert (M3 : ∀ f', missing_of s3 f' = missing_of s1 f').
  { intros. subst s3 s2. by rewrite !missing_exec. }
  assert (M4 : ∀ f', missing_of s4 f' = missing_of s1 f').
  { intros. subst s4. by rewrite missing_exec, M3. }
  assert (L3 : ∀ l, leaf (a_data s3) t f l = Some 1 →
                    l ∈ c ∨ leaf (a_data st) t f l = Some 1).
  { intros l. rewrite !leaf_entry. subst s3 s2.
    rewrite !entry_exec. cbn [stored]. rewrite !decide_True by done.
    subst s1. rewrite entry_exec_frame by done.
    cbn [mbind option_bind default from_option id].
    intros H1. apply leaf_union_1_l in H1 as [H1|[_ H1]].
    - left. by apply lookup_gset_to_gmap_Some in H1 as [? _].
    - right. destruct (entry (a_data st) t f); [done|].
      cbn [default from_option] in H1. by rewrite lookup_empty in H1. }
  assert (A3 : allowed s3 (MarkMissing t f)).
  { cbn [allowed]. intros l Hl. rewrite M3, M1, decide_True by done.
    rewrite elem_of_difference. apply L3 in Hl as [Hl|Hl]; [tauto|].
    apply HJ in Hl. tauto. }
  split; [done|].
  intros f' l. rewrite M4, M1. destruct (decide (f = f')) as [<-|Hf].
  - rewrite leaf_entry. subst s4. rewrite entry_exec. cbn [stored].
    rewrite decide_True by done. cbn [mbind option_bind].
    intros H1. apply leaf_union_1_l in H1 as [H1|[H0 _]].
    + by apply lookup_gset_to_gmap_Some in H1 as [_ ?].
    + apply lookup_gset_to_gmap_None in H0. by rewrite M3, M1, decide_True in H0.
  - rewrite leaf_entry. subst s4 s3 s2 s1.
    rewrite !entry_exec_frame by (cbn; congruence).
    rewrite <- leaf_entry. apply HJ.
Qed.

Lemma own_stmts_target t item i :
  i ∈ own_stmts t item → target i = None ∨ target i = Some (t, item.1).
Proof.
  destruct item as [f c]. cbn [own_stmts].
  rewrite !elem_of_cons, elem_of_nil.
  intros [->|[->|[->|[->|[]]]]]; cbn; auto.
Qed.

Lemma import_stmts_target t item i :
  i ∈ import_stmts t item → target i = None ∨ target i = Some (t, item.1).
Proof.
  destruct item as [f c]. cbn [import_stmts].
  rewrite !elem_of_cons, elem_of_nil.
  intros [->|[->|[->|[->|[]]]]]; cbn; auto.
Qed.

Lemma own_blocks t items st :
  NoDup items.*1 →
  (∀ f, f ∈ items.*1 → entry (a_data st) t f = None) →
  open_missing t st →
  runs_safely (flat_map (own_stmts t) items) st ∧
  open_missing t (run (flat_map (own_stmts t) items) st).
Proof.
  revert st. induction items as [|[f c] items IH]; intros st Hnd Hnone HJ.
  - done.
  - cbn [flat_map]. rewrite runs_safely_app, run_app.
    apply NoDup_cons in Hnd as [Hf Hnd].
    destruct (own_block t f c st) as [Hsafe HJ'];
      [apply Hnone; constructor|done|].
    destruct (IH (run (own_stmts t (f, c)) st)) as [Hsafe' HJ'']; try done.
    intros f' Hf'. rewrite run_entry_frame.
    + apply Hnone. by constructor.
    + apply Forall_forall. intros i Hi.
      apply (own_stmts_target t (f, c)) in Hi as [Hi|Hi]; rewrite Hi; [done|].
      cbn. intros [= <-]. done.
Qed.

Lemma import_blocks t items st :
  open_missing t st →
  runs_safely (flat_map (import_stmts t) items) st ∧
  open_missing t (run (flat_map (import_stmts t) items) st).
Proof.
  revert st. induction items as [|[f c] items IH]; intros st HJ; [done|].
  cbn [flat_map]. rewrite runs_safely_app, run_app.
  destruct (import_block t f c st HJ) as [Hsafe HJ'].
  destruct (IH _ HJ') as [Hsafe' HJ'']. done.
Qed.

Lemma test_stmts_target o s t cov i :
  i ∈ test_stmts o s (t, cov) →
  target i = None ∨ ∃ f, target i = Some (t, f).
Proof.
  cbn [test_stmts]. rewrite elem_of_app. intros [Hi|Hi].
  - apply list_elem_of_In, in_flat_map in Hi as (item & _ & Hi).
    apply list_elem_of_In, own_stmts_target in Hi as [?|?]; eauto.
  - destruct (overlay_of s t) as [imported|]; [|by apply elem_of_nil in Hi].
    apply list_elem_of_In, in_flat_map in Hi as (item & _ & Hi).
    apply list_elem_of_In, import_stmts_target in Hi as [?|?]; eauto.
Qed.

Lemma test_block o s t cov st :
  (∀ f, entry (a_data st) t f = None) →
  runs_safely (test_stmts o s (t, cov)) st.
Proof.
  intros Hnone. cbn [test_stmts]. apply runs_safely_app.
  assert (HJ : open_missing t st).
  { intros f l. by rewrite leaf_entry, Hnone. }
  destruct (own_blocks t (iteritems o cov) st) as [Hsafe HJ']; try done.
  { apply iteritems_NoDup_fst. }
  split; [done|].
  destruct (overlay_of s t) as [imported|]; [|done].
  by apply import_blocks.
Qed.

Lemma tests_blocks o s items st :
  NoDup items.*1 →
  (∀ t f, t ∈ items.*1 → entry (a_data st) t f = None) →
  runs_safely (flat_map (test_stmts o s) items) st.
Proof.
  revert st. induction items as [|[t cov] items IH]; intros st Hnd Hnone.
  - done.
  - cbn [flat_map]. apply runs_safely_app.
    apply NoDup_cons in Hnd as [Ht Hnd]. split.
    + apply test_block. intros f. apply Hnone. constructor.
    + apply IH; [done|]. intros t' f Ht'. rewrite run_entry_frame.
      * apply Hnone. by constructor.
      * apply Forall_forall. intros i Hi.
        apply test_stmts_target in Hi as [Hi|[f' Hi]]; rewrite Hi; [done|].
        intros [= -> _]. done.
Qed.

Lemma program_runs_safely o s : runs_safely (program o s) (assembly_start s).
Proof.
  apply tests_blocks; [apply iteritems_NoDup_fst|done].
Qed.

Lemma stays_covered_trans d1 d2 d3 :
  stays_covered d1 d2 → stays_covered d2 d3 → stays_covered d1 d3.
Proof. intros H12 H23 t f l H1. by apply H23, H12. Qed.

Lemma trace_from_start p st j d :
  runs_safely p st → trace p st !! j = Some d →
  stays_covered (a_data st) (a_data d).
Proof.
  revert st j. induction p as [|x p IH]; intros st j Hsafe.
  { cbn [trace]. by rewrite lookup_nil. }
  destruct Hsafe as [Hx Hp].
  cbn [trace]. destruct j as [|j]; cbn.
  - intros [= <-]. by apply exec_stays_covered.
  - intros Hj. eapply stays_covered_trans; [by apply exec_stays_covered|].
    by eapply IH.
Qed.

Lemma trace_between p st i j d1 d2 :
  runs_safely p st → (i ≤ j)%nat →
  trace p st !! i = Some d1 → trace p st !! j = Some d2 →
  stays_covered (a_data d1) (a_data d2).
Proof.
  revert st i j. induction p as [|x p IH]; intros st i j Hsafe Hij.
  { cbn [trace]. by rewrite lookup_nil. }
  destruct Hsafe as [Hx Hp].
  cbn [trace]. destruct i as [|i], j as [|j]; cbn; try lia.
  - intros [= <-] [= <-]. by intros t f l.
  - intros [= <-] Hj. by eapply trace_from_start.
  - intros Hi Hj. eapply (IH _ i j); [done|lia|done|done].
Qed.

(** C3: among the states the assembly of the report passes through, one
    per statement executed, a leaf [(test, file, line)] that is 1 in one
    state is 1 in every later state, whatever the order in which the
    dictionaries are walked: no later statement sets it to 0. *)
Theorem covered_leaf_stays_covered (o : DictOrder) (s : Plugin)
    (i j : nat) (d1 d2 : Assembly) (t f : string) (l : Z) :
  (i ≤ j)%nat →
  trace (program o s) (assembly_start s) !! i = Some d1 →
  trace (program o s) (assembly_start s) !! j = Some d2 →
  leaf (a_data d1) t f l = Some 1 →
  leaf (a_data d2) t f l = Some 1.
Proof.
  intros Hij Hi Hj. eapply trace_between; eauto using program_runs_safely.
Qed.

Lemma leaves_unfold o d :
  leaves o d = tf ← iteritems o d; files_leaves o tf.1 tf.2.
Proof. reflexivity. Qed.

Lemma lines_leaves_length t f lines :
  length (lines_leaves t f lines) = size lines.
Proof.
  unfold lines_leaves. rewrite <- length_map_to_list.
  induction (map_to_list lines) as [|kv l IH]; [done|].
  rewrite bind_cons. cbn. by rewrite IH.
Qed.

Lemma lines_leaves_covered t f lines :
  Z.of_nat (length (List.filter is_covered (lines_leaves t f lines)))
  = count_truthy lines.
Proof.
  unfold lines_leaves, count_truthy. f_equal.
  induction (map_to_list lines) as [|kv l IH]; [done|].
  rewrite bind_cons. cbn [app List.filter]. unfold is_covered at 1. cbn [snd].
  destruct (negb _); cbn [length]; by rewrite IH.
Qed.

Lemma filter_app_length {A} (p : A → bool) l1 l2 :
  length (List.filter p (l1 ++ l2))
  = (length (List.filter p l1) + length (List.filter p l2))%nat.
Proof. by rewrite List.filter_app, length_app. Qed.

Lemma tally_files t (items : list (string * gmap Z Z)) acc :
  fold_left
    (λ acc fl, (acc.1 + count_truthy fl.2, acc.2 + Z.of_nat (size fl.2)))
    items acc
  = (acc.1 + Z.of_nat (length (List.filter is_covered
                                 (fl ← items; lines_leaves t fl.1 fl.2))),
     acc.2 + Z.of_nat (length (fl ← items; lines_leaves t fl.1 fl.2))).
Proof.
  revert acc. induction items as [|[f lines] items IH]; intros [c n].
  - cbn. f_equal; lia.
  - cbn [fold_left]. rewrite IH, bind_cons. cbn [fst snd].
    rewrite filter_app_length, length_app, !Nat2Z.inj_add.
    rewrite lines_leaves_covered, lines_leaves_length. f_equal; lia.
Qed.

Lemma tally_tests o (items : list (string * gmap string (gmap Z Z))) acc :
  fold_left
    (λ acc tf,
       fold_left
         (λ acc fl, (acc.1 + count_truthy fl.2, acc.2 + Z.of_nat (size fl.2)))
         (iteritems o tf.2) acc)
    items acc
  = (acc.1 + Z.of_nat (length (List.filter is_covered
                                 (tf ← items; files_leaves o tf.1 tf.2))),
     acc.2 + Z.of_nat (length (tf ← items; files_leaves o tf.1 tf.2))).
Proof.
  revert acc. induction items as [|[t files] items IH]; intros [c n].
  - cbn. f_equal; lia.
  - cbn [fold_left]. rewrite IH, bind_cons. cbn [fst snd].
    rewrite (tally_files t). cbn [fst snd]. fold (files_leaves o t files).
    rewrite filter_app_length, length_app, !Nat2Z.inj_add. f_equal; lia.
Qed.

Lemma tally_leaves o d :
  tally o d = (Z.of_nat (length (List.filter is_covered (leaves o d))),
               Z.of_nat (length (leaves o d))).
Proof. unfold tally. by rewrite tally_tests, leaves_unfold. Qed.

Lemma elem_of_leaves o d t f l v :
  (t, f, l, v) ∈ leaves o d ↔ leaf d t f l = Some v.
Proof.
  rewrite leaves_unfold. unfold leaf. rewrite list_elem_of_bind. split.
  - intros ([t' files] & Hin & Ht). apply iteritems_elem_of in Ht.
    unfold files_leaves in Hin. apply list_elem_of_bind in Hin
      as ([f' lines] & Hin & Hf). apply iteritems_elem_of in Hf.
    unfold lines_leaves in Hin. apply list_elem_of_bind in Hin
      as ([l' v'] & Hin & Hl). apply elem_of_map_to_list in Hl.
    apply list_elem_of_singleton in Hin. cbn in *.
    injection Hin as -> -> -> ->. by rewrite Ht; cbn; rewrite Hf.
  - destruct (d !! t) as [files|] eqn:Ht; [|done]. cbn.
    destruct (files !! f) as [lines|] eqn:Hf; [|done]. cbn. intros Hl.
    exists (t, files). split; [|by apply iteritems_elem_of].
    apply list_elem_of_bind. exists (f, lines).
    split; [|by apply iteritems_elem_of].
    apply list_elem_of_bind. exists (l, v).
    split; [by apply list_elem_of_singleton|by apply elem_of_map_to_list].
Qed.

Lemma iteritems_NoDup {V} (o : DictOrder) (m : gmap string V) :
  NoDup (iteritems o m).
Proof. rewrite (iteritems_perm o). apply NoDup_map_to_list. Qed.

Lemma leaves_NoDup o d : NoDup (leaves o d).
Proof.
  rewrite leaves_unfold. apply NoDup_bind; [| |apply iteritems_NoDup].
  - intros [t1 fs1] [t2 fs2] [[[t f] l] v] H1 H2 Hy1 Hy2.
    apply iteritems_elem_of in H1, H2.
    apply list_elem_of_bind in Hy1 as ([f1 ls1] & Hy1 & _).
    apply list_elem_of_bind in Hy2 as ([f2 ls2] & Hy2 & _).
    apply list_elem_of_bind in Hy1 as (kv1 & Hy1 & _).
    apply list_elem_of_bind in Hy2 as (kv2 & Hy2 & _).
    apply list_elem_of_singleton in Hy1, Hy2. cbn in *.
    injection Hy1 as -> _ _ _. injection Hy2 as -> _ _ _. congruence.
  - intros [t files] _. cbn [fst snd]. unfold files_leaves.
    apply NoDup_bind; [| |apply iteritems_NoDup].
    + intros [f1 ls1] [f2 ls2] [[[t' f] l] v] H1 H2 Hy1 Hy2.
      apply iteritems_elem_of in H1, H2.
      apply list_elem_of_bind in Hy1 as (kv1 & Hy1 & _).
      apply list_elem_of_bind in Hy2 as (kv2 & Hy2 & _).
      apply list_elem_of_singleton in Hy1, Hy2. cbn in *.
      injection Hy1 as _ -> _ _. injection Hy2 as _ -> _ _. congruence.
    + intros [f lines] _. cbn [fst snd]. unfold lines_leaves.
      apply NoDup_bind; [| |apply NoDup_map_to_list].
      * intros [l1 v1] [l2 v2] y _ _ Hy1 Hy2.
        apply list_elem_of_singleton in Hy1, Hy2. cbn in *. congruence.
      * intros kv _. apply NoDup_singleton.
Qed.

Lemma leaves_NoDup_keys o d : NoDup (leaves o d).*1.
Proof.
  apply NoDup_fmap_2_strong; [|apply leaves_NoDup].
  intros [[[t1 f1] l1] v1] [[[t2 f2] l2] v2] H1 H2. cbn. intros [= -> -> ->].
  apply elem_of_leaves in H1, H2. congruence.
Qed.

Lemma exec_binary st i : binary (a_data st) → binary (a_data (exec st i)).
Proof.
  intros Hb t f l v. rewrite leaf_entry, entry_exec.
  pose proof (Hb t f l v) as Hold. rewrite leaf_entry in Hold.
  destruct i as [f'|f' c|t' f' c|t' f'|f' c|t' f'|t' f' c];
    cbn [stored]; try done;
    (case_decide as Htf; [destruct Htf as [-> ->]|done]);
    cbn [mbind option_bind].
  - intros Hv. apply lookup_gset_to_gmap_Some in Hv as [_ <-]. by right.
  - intros Hv. apply lookup_union_Some_raw in Hv as [Hv|[_ Hv]].
    + apply lookup_gset_to_gmap_Some in Hv as [_ <-]. by left.
    + destruct (entry (a_data st) t f); [by apply Hold|].
      cbn [default from_option] in Hv. by rewrite lookup_empty in Hv.
  - intros Hv. destruct (entry (a_data st) t f); [by apply Hold|].
    cbn [default from_option] in Hv. by rewrite lookup_empty in Hv.
  - intros Hv. apply lookup_union_Some_raw in Hv as [Hv|[_ Hv]].
    + apply lookup_gset_to_gmap_Some in Hv as [_ <-]. by right.
    + destruct (entry (a_data st) t f); [by apply Hold|].
      cbn [default from_option] in Hv. by rewrite lookup_empty in Hv.
Qed.

Lemma run_binary p st : binary (a_data st) → binary (a_data (run p st)).
Proof.
  revert st. induction p as [|i p IH]; intros st Hb; [done|].
  change (run (i :: p) st) with (run p (exec st i)). by apply IH, exec_binary.
Qed.

Lemma assemble_binary o s : binary (a_data (assemble o s)).
Proof. apply run_binary. intros t f l v. by rewrite leaf_entry. Qed.

Lemma covered_count (L : list (string * string * Z * Z)) :
  Forall (λ x, x.2 = 0 ∨ x.2 = 1) L →
  length (List.filter is_covered L) = length (filter (λ x, x.2 = 1) L).
Proof.
  induction 1 as [|x L Hx _ IH]; [done|].
  cbn [List.filter]. rewrite filter_cons. unfold is_covered at 1.
  destruct Hx as [Hx|Hx]; rewrite Hx; cbn [Z.eqb negb].
  - by rewrite decide_False.
  - rewrite decide_True by done. cbn [length]. by rewrite IH.
Qed.

Lemma report_written o s s' r :
  report o s = (s', Returned (Some r)) →
  r = {| stats_covered := (tally o (a_data (assemble o s))).1;
         stats_total := (tally o (a_data (assemble o s))).2;
         tests := a_data (assemble o s) |}.
Proof.
  destruct (report_cases o s)
    as [[_ ->]|[(_ & _ & ->)|[(_ & rf & _ & _ & ->)|(_ & rf & _ & _ & ->)]]];
    try done.
  by intros [= _ <-].
Qed.

(** C6: when a report is written, the leaves of its [tests] structure can
    be listed without repetition, and [stats.total] is the length of that
    list, [stats.covered] the number of its leaves whose value is 1. *)
Theorem stats_count_leaves (o : DictOrder) (s s' : Plugin) (r : Report) :
  report o s = (s', Returned (Some r)) →
  ∃ L : list (string * string * Z * Z),
    NoDup L.*1 ∧
    (∀ t f l v, (t, f, l, v) ∈ L ↔ leaf (tests r) t f l = Some v) ∧
    stats_total r = Z.of_nat (length L) ∧
    stats_covered r = Z.of_nat (length (filter (λ x, x.2 = 1) L)).
Proof.
  intros Hr. apply report_written in Hr. subst r.
  rewrite tally_leaves. cbn [tests stats_total stats_covered fst snd].
  exists (leaves o (a_data (assemble o s))).
  split; [apply leaves_NoDup_keys|]. split; [intros; apply elem_of_leaves|].
  split; [done|]. f_equal. apply covered_count, Forall_forall.
  intros [[[t f] l] v] Hx. apply elem_of_leaves in Hx.
  by apply (assemble_binary o s t f l v).
Qed.

Lemma filter_none {A} (p : A → bool) (l : list A) :
  (∀ x, x ∈ l → p x = false) → List.filter p l = [].
Proof.
  induction l as [|x l IH]; intros H; [done|]. cbn [List.filter].
  rewrite (H x) by constructor. apply IH. intros y Hy. apply H. by constructor.
Qed.

Lemma record_unit_keeps diff cov cu f :
  cov !! f = None →
  (cu_name cu ++ ".py" = f →
   ∀ l, l ∈ executed_lines cu → l ∉ dd_value ∅ diff f) →
  record_unit diff cov cu !! f = None.
Proof.
  intros Hnone Hrun. unfold record_unit.
  destruct (diff !! _) as [changed|] eqn:E; [|done].
  destruct (decide (cu_name cu ++ ".py" = f)) as [Hf|Hf].
  - rewrite filter_none; [done|]. intros l Hl.
    apply bool_decide_eq_false. specialize (Hrun Hf l Hl).
    unfold dd_value in Hrun. by rewrite <- Hf, E in Hrun.
  - destruct (List.filter _ _); [done|]. by rewrite dd_modify_lookup_ne.
Qed.

Lemma record_coverage_data_keeps diff units cov f :
  cov !! f = None →
  (∀ cu l, cu ∈ units → cu_name cu ++ ".py" = f →
           l ∈ executed_lines cu → l ∉ dd_value ∅ diff f) →
  record_coverage_data diff units cov !! f = None.
Proof.
  unfold record_coverage_data. revert cov.
  induction units as [|cu units IH]; intros cov Hnone Hrun; [done|].
  cbn [fold_left]. apply IH.
  - apply record_unit_keeps; [done|]. intros Hf l Hl.
    by apply (Hrun cu l); [constructor|..].
  - intros cu' l Hcu'. apply Hrun. by constructor.
Qed.

Lemma step_test_cov_data o s e t :
  ¬ stops t e → test_cov_data (step o s e) !! t = test_cov_data s !! t.
Proof.
  intros Hne. destruct e as [m| |module units| |test units|]; cbn [step];
    try done.
  - by destruct (wantMethod_other_fields s m) as (_ & _ & _ & -> & _).
  - unfold stopTest. cbn [test_cov_data set_test_cov_data
      set_test_to_module_map diff_data].
    by rewrite dd_modify_lookup_ne.
  - by destruct (report_other_fields o s) as (_ & _ & _ & -> & _).
Qed.

Lemma run_events_test_cov_data o s es t :
  Forall (λ e, ¬ stops t e) es →
  test_cov_data (run_events o s es) !! t = test_cov_data s !! t.
Proof.
  intros Hes. revert s. induction Hes as [|e es He _ IH]; intros s; [done|].
  change (run_events o s (e :: es)) with (run_events o (step o s e) es).
  by rewrite IH, step_test_cov_data.
Qed.

Lemma program_targets o s i t f :
  i ∈ program o s → target i = Some (t, f) →
  (∃ cov, test_cov_data s !! t = Some cov ∧ is_Some (cov !! f)) ∨
  (∃ imp, overlay_of s t = Some imp ∧ is_Some (imp !! f)).
Proof.
  unfold program. intros Hi Ht.
  apply list_elem_of_In, in_flat_map in Hi as ([t' cov] & Hitem & Hi).
  apply list_elem_of_In, iteritems_elem_of in Hitem.
  apply list_elem_of_In in Hi. cbn [test_stmts] in Hi.
  apply elem_of_app in Hi as [Hi|Hi].
  - apply list_elem_of_In, in_flat_map in Hi as ([f' c] & Hf & Hi).
    apply list_elem_of_In, iteritems_elem_of in Hf.
    apply list_elem_of_In, own_stmts_target in Hi as [Hi|Hi];
      rewrite Hi in Ht; [done|]. injection Ht as -> ->.
    left. exists cov. split; [done|]. by exists c.
  - destruct (overlay_of s t') as [imp|] eqn:Eo; [|by apply elem_of_nil in Hi].
    apply list_elem_of_In, in_flat_map in Hi as ([f' c] & Hf & Hi).
    apply list_elem_of_In, iteritems_elem_of in Hf.
    apply list_elem_of_In, import_stmts_target in Hi as [Hi|Hi];
      rewrite Hi in Ht; [done|]. injection Ht as -> ->.
    right. exists imp. split; [done|]. by exists c.
Qed.

Lemma assemble_no_entry o s t f :
  (∀ cov, test_cov_data s !! t = Some cov → cov !! f = None) →
  (∀ imp, overlay_of s t = Some imp → imp !! f = None) →
  entry (a_data (assemble o s)) t f = None.
Proof.
  intros Hown Himp. unfold assemble. rewrite run_entry_frame; [done|].
  apply Forall_forall. intros i Hi Ht.
  destruct (program_targets o s i t f Hi Ht)
    as [(cov & Hc & [c Hf])|(imp & Hc & [c Hf])].
  - apply Hown in Hc. congruence.
  - apply Himp in Hc. congruence.
Qed.

(** C9: if a test had no coverage entry for a file and its capture
    executed none of the changed lines of that file, then after [stopTest]
    its coverage data has no entry for the file, and this stays so while no
    other [stopTest] files under the same test name.  In the report
    assembled then, unless the import-time coverage of the test's module
    has an entry for the file, the test has no dictionary for the file, so
    no leaf of it (0 or 1) is counted in the report. *)
Theorem unexecuted_file_has_no_entry (o : DictOrder) (s : Plugin)
    (test : TestCase) (code_units : list CodeUnit) (f : string)
    (es : list Event) :
  (∀ cov, test_cov_data s !! _get_name_from_test test = Some cov →
          cov !! f = None) →
  (∀ cu l, cu ∈ code_units → cu_name cu ++ ".py" = f →
           l ∈ executed_lines cu → l ∉ changed_lines s f) →
  Forall (λ e, ¬ stops (_get_name_from_test test) e) es →
  (∀ imp, overlay_of (run_events o (stopTest s test code_units) es)
            (_get_name_from_test test) = Some imp → imp !! f = None) →
  (∃ cov, test_cov_data (run_events o (stopTest s test code_units) es)
            !! _get_name_from_test test = Some cov ∧ cov !! f = None) ∧
  entry (a_data (assemble o (run_events o (stopTest s test code_units) es)))
    (_get_name_from_test test) f = None ∧
  ∀ l v, (_get_name_from_test test, f, l, v)
         ∉ leaves o (a_data (assemble o
                       (run_events o (stopTest s test code_units) es))).
Proof.
  intros Hfresh Hrun Hes Himp.
  set (t := _get_name_from_test test) in *.
  set (s1 := stopTest s test code_units) in *.
  assert (H1 : ∃ cov, test_cov_data s1 !! t = Some cov ∧ cov !! f = None).
  { eexists. split.
    - unfold s1, stopTest. cbn [test_cov_data set_test_cov_data]. fold t.
      apply dd_modify_lookup_eq.
    - cbn [diff_data set_test_to_module_map test_cov_data].
      apply record_coverage_data_keeps; [|done].
      unfold dd_value. destruct (test_cov_data s !! t) as [cov|] eqn:E; [|done].
      by apply Hfresh. }
  destruct H1 as (cov & Hcov & Hf).
  assert (H2 : test_cov_data (run_events o s1 es) !! t = Some cov)
    by (by rewrite run_events_test_cov_data).
  assert (H3 : entry (a_data (assemble o (run_events o s1 es))) t f = None).
  { apply assemble_no_entry; [|done]. intros cov'. rewrite H2. by intros [= <-]. }
  split; [by exists cov|]. split; [done|].
  intros l v Hin. apply elem_of_leaves in Hin.
  by rewrite leaf_entry, H3 in Hin.
Qed.

(** ** The report on concrete runs *)

Lemma covered_leaf_stays_covered_witness :
  ∃ d1 d2,
    trace (program forward_order (Scenario.two_tests [1]))
      (assembly_start (Scenario.two_tests [1])) !! 2%nat = Some d1 ∧
    trace (program forward_order (Scenario.two_tests [1]))
      (assembly_start (Scenario.two_tests [1])) !! 6%nat = Some d2 ∧
    leaf (a_data d1) "tests.test_a:A.test_a" "pkg/foo.py" 1 = Some 1 ∧
    leaf (a_data d2) "tests.test_a:A.test_a" "pkg/foo.py" 1 = Some 1.
Proof.
  eexists. eexists. split; [vm_compute; reflexivity|].
  split; [vm_compute; reflexivity|].
  match goal with |- ?A ∧ _ => assert (H1 : A) by (vm_compute; reflexivity) end.
  split; [exact H1|].
  refine (covered_leaf_stays_covered forward_order (Scenario.two_tests [1])
            2 6 _ _ "tests.test_a:A.test_a" "pkg/foo.py" 1 _ _ _ H1).
  - lia.
  - vm_compute; reflexivity.
  - vm_compute; reflexivity.
Defined.


Lemma stats_count_leaves_witness :
  report forward_order (Scenario.two_tests [1])
  = ((report forward_order (Scenario.two_tests [1])).1,
     Returned
       (Some (default empty_report
                (written (report forward_order (Scenario.two_tests [1])).2)))) ∧
  ∃ L : list (string * string * Z * Z),
    NoDup L.*1 ∧
    (∀ t f l v,
       (t, f, l, v) ∈ L ↔
       leaf (tests (default empty_report
                      (written
                         (report forward_order (Scenario.two_tests [1])).2)))
         t f l = Some v) ∧
    stats_total (default empty_report
                   (written (report forward_order (Scenario.two_tests [1])).2))
      = Z.of_nat (length L) ∧
    stats_covered (default empty_report
                     (written
                        (report forward_order (Scenario.two_tests [1])).2))
      = Z.of_nat (length (filter (λ x, x.2 = 1) L)).
Proof.
  assert (H : report forward_order (Scenario.two_tests [1])
              = ((report forward_order (Scenario.two_tests [1])).1,
                 Returned
                   (Some (default empty_report
                            (written
                               (report forward_order
                                  (Scenario.two_tests [1])).2)))))
    by (vm_compute; reflexivity).
  split; [exact H|].
  exact (stats_count_leaves forward_order (Scenario.two_tests [1]) _ _ H).
Defined.

Lemma unexecuted_file_has_no_entry_witness :
  (∃ cov,
     test_cov_data
       (run_events forward_order
          (stopTest (Scenario.begun [Scenario.three_lines]) Scenario.test_b
             [Scenario.ran "pkg/foo" [7]])
          [StopTest Scenario.test_a [Scenario.ran "pkg/foo" [1]]])
       !! _get_name_from_test Scenario.test_b = Some cov ∧
     cov !! "pkg/foo.py" = None) ∧
  entry
    (a_data
       (assemble forward_order
          (run_events forward_order
             (stopTest (Scenario.begun [Scenario.three_lines]) Scenario.test_b
                [Scenario.ran "pkg/foo" [7]])
             [StopTest Scenario.test_a [Scenario.ran "pkg/foo" [1]]])))
    (_get_name_from_test Scenario.test_b) "pkg/foo.py" = None ∧
  ∀ l v,
    (_get_name_from_test Scenario.test_b, "pkg/foo.py", l, v)
    ∉ leaves forward_order
        (a_data
           (assemble forward_order
              (run_events forward_order
                 (stopTest (Scenario.begun [Scenario.three_lines])
                    Scenario.test_b [Scenario.ran "pkg/foo" [7]])
                 [StopTest Scenario.test_a [Scenario.ran "pkg/foo" [1]]]))).
Proof.
  apply (unexecuted_file_has_no_entry forward_order
           (Scenario.begun [Scenario.three_lines]) Scenario.test_b
           [Scenario.ran "pkg/foo" [7]] "pkg/foo.py"
           [StopTest Scenario.test_a [Scenario.ran "pkg/foo" [1]]]).
  - intros cov Hc. vm_compute in Hc. discriminate Hc.
  - intros cu l Hcu _ Hl. apply list_elem_of_singleton in Hcu. subst cu.
    apply list_elem_of_singleton in Hl. subst l.
    refine (bool_decide_unpack _ _). vm_compute. exact I.
  - constructor; [|constructor]. intros Hs. vm_compute in Hs. discriminate Hs.
  - intros imp Hi. vm_compute in Hi. discriminate Hi.
Defined.

(** C9, as stated, fails: the test class [A] runs as [tests.test_a] and
    executes line 1 of [pkg/foo.py]; its copy imported into [tests.other]
    runs next and executes none of the changed lines 1, 2 and 3 of the file.
    Both are filed under the name [tests.test_a:A.test_a], so after the
    second [stopTest] the coverage data of the test still has an entry for
    the file, and the report gives the test 0 leaves for lines 2 and 3,
    counted in [stats.total]. *)
Lemma second_stop_keeps_entry :
  _get_name_from_test Scenario.test_a_imported = "tests.test_a:A.test_a" ∧
  changed_lines
    (stopTest (Scenario.begun [Scenario.three_lines]) Scenario.test_a
       [Scenario.ran "pkg/foo" [1]]) "pkg/foo.py" = {[1; 2; 3]} ∧
  executed_lines (Scenario.ran "pkg/foo" [7]) = [7] ∧
  Scenario.stopped_twice
  = stopTest
      (stopTest (Scenario.begun [Scenario.three_lines]) Scenario.test_a
         [Scenario.ran "pkg/foo" [1]])
      Scenario.test_a_imported [Scenario.ran "pkg/foo" [7]] ∧
  test_cov_data Scenario.stopped_twice !! "tests.test_a:A.test_a"
    = Some {[ "pkg/foo.py" := {[1]} ]} ∧
  overlay_of Scenario.stopped_twice "tests.test_a:A.test_a" = None ∧
  leaf (a_data (assemble forward_order Scenario.stopped_twice))
    "tests.test_a:A.test_a" "pkg/foo.py" 2 = Some 0 ∧
  (report forward_order Scenario.stopped_twice).2
  = Returned
      (Some {| stats_covered := 1; stats_total := 3;
               tests := {[ "tests.test_a:A.test_a" :=
                             {[ "pkg/foo.py" :=
                                  {[ 1 := 1; 2 := 0; 3 := 0 ]} ]} ]} |}).
Proof. repeat split; vm_compute; reflexivity. Qed.

(** C4, on the code: a created file [pkg/new.py] with lines 1 and 2 is
    entered in [diff_data] like any other; when a test executes line 1 only,
    line 2 is in [missing] for the file and is written as a 0 leaf of the
    test. *)
Lemma new_file_lines_reported_missing :
  retained Scenario.env Scenario.new_file = true ∧
  is_dev_null (old_filename Scenario.new_file) = true ∧
  begin_files Scenario.env [Scenario.new_file] (Scenario.configured 1)
    = Some (Scenario.begun [Scenario.new_file]) ∧
  elements (missing_of (assemble forward_order Scenario.new_file_run)
              "pkg/new.py") = [2] ∧
  leaf (a_data (assemble forward_order Scenario.new_file_run))
    "tests.test_a:A.test_a" "pkg/new.py" 2 = Some 0 ∧
  (report forward_order Scenario.new_file_run).2
  = Returned
      (Some {| stats_covered := 1; stats_total := 2;
            tests := {[ "tests.test_a:A.test_a" :=
                          {[ "pkg/new.py" := {[ 1 := 1; 2 := 0 ]} ]} ]} |}).
Proof. repeat split; vm_compute; reflexivity. Qed.

(** C2, on the code: test [B] has no coverage of its own and its module's
    import-time coverage is line 2 of [pkg/foo.py].  Its report entry has a
    0 leaf for line 3 when test [A], which left line 3 uncovered, is walked
    before it, none when [A] is walked after it, and none when [A] covers
    line 3: the entry depends on the other test and on the order. *)
Lemma entry_depends_on_other_test :
  leaf (a_data (assemble forward_order (Scenario.two_tests [1])))
    "tests.test_b:B.test_b" "pkg/foo.py" 3 = Some 0 ∧
  leaf (a_data (assemble backward_order (Scenario.two_tests [1])))
    "tests.test_b:B.test_b" "pkg/foo.py" 3 = None ∧
  leaf (a_data (assemble forward_order (Scenario.two_tests [1; 3])))
    "tests.test_b:B.test_b" "pkg/foo.py" 3 = None ∧
  test_cov_data (Scenario.two_tests [1]) !! "tests.test_b:B.test_b"
    = Some ∅ ∧
  test_cov_data (Scenario.two_tests [1; 3]) !! "tests.test_b:B.test_b"
    = Some ∅ ∧
  overlay_of (Scenario.two_tests [1]) "tests.test_b:B.test_b"
    = Some {[ "pkg/foo.py" := {[ 2 ]} ]} ∧
  overlay_of (Scenario.two_tests [1; 3]) "tests.test_b:B.test_b"
    = Some {[ "pkg/foo.py" := {[ 2 ]} ]}.
Proof. repeat split; vm_compute; reflexivity. Qed.

(** ** Configuration *)

Lemma split_nl_no_newline p : no_newline p → Py.split_nl p = [p].
Proof.
  unfold no_newline. induction p as [|c p IH]; [done|].
  cbn [Py.has_char Py.split_nl]. rewrite (Ascii.eqb_sym c).
  destruct (Ascii.eqb _ c); [done|]. cbn [orb]. intros Hp.
  by rewrite (IH Hp).
Qed.

Lemma split_nl_app_newline p rest :
  no_newline p →
  Py.split_nl (p ++ String "010"%char rest) = p :: Py.split_nl rest.
Proof.
  unfold no_newline. induction p as [|c p IH].
  - intros _. reflexivity.
  - cbn [Py.has_char]. rewrite (Ascii.eqb_sym _ c).
    destruct (Ascii.eqb c _) eqn:E; [done|]. cbn [orb]. intros Hp.
    change ((String c p) ++ String "010"%char rest)
      with (String c (p ++ String "010"%char rest)).
    cbn [Py.split_nl]. by rewrite E, (IH Hp).
Qed.

Lemma split_join_nl ps :
  ps ≠ [] → Forall no_newline ps → Py.split_nl (join_nl ps) = ps.
Proof.
  intros Hne Hall. induction Hall as [|p rest Hp Hrest IH]; [done|].
  cbn [join_nl]. destruct rest as [|q rest].
  - by apply split_nl_no_newline.
  - rewrite split_nl_app_newline by done. f_equal. by apply IH.
Qed.

(** X1: one [--quickunit-prefix] flag per prefix and a single flag holding
    the same prefixes separated by newlines configure the same list of
    prefixes, provided no prefix contains a newline. *)
Theorem prefix_flag_styles_agree (env : Env) (o1 o2 : Options)
    (s1 s2 : Plugin) (ps : list string) :
  ps ≠ [] → Forall no_newline ps →
  quickunit_prefix o1 = Some ps →
  quickunit_prefix o2 = Some [join_nl ps] →
  configure env o1 = Some s1 → configure env o2 = Some s2 →
  prefixes s1 = ps ∧ prefixes s2 = ps.
Proof.
  intros Hne Hall H1 H2 Hc1 Hc2.
  apply configure_fields in Hc1 as (_ & -> & _).
  apply configure_fields in Hc2 as (_ & -> & _).
  unfold configure_prefixes. rewrite H1, H2. split.
  - destruct ps as [|p [|q ps]]; [done| |done].
    apply split_nl_no_newline. by apply Forall_inv in Hall.
  - by apply split_join_nl.
Qed.

Lemma ensure_directory_fails env path :
  ensure_directory env path = None ↔ directory_fails env path.
Proof.
  unfold ensure_directory, directory_fails, Py.truthy.
  destruct (String.eqb_spec path "") as [->|Hne]; cbn [negb andb].
  - split; [by left|done].
  - destruct (path_exists env path), (makedirs env path); split; try done;
      try (by right); by intros [?|[? ?]].
Qed.

Lemma configure_report_file_cases env o :
  match quickunit_output o with
  | None => configure_report_file env o = Some None
  | Some out =>
      if decide (out = "" ∨ out = "-")
      then configure_report_file env o = Some None
      else if Py.startswith out "sys://"
      then (if decide (Py.drop 6 out = "stdout" ∨ Py.drop 6 out = "stderr")
            then configure_report_file env o
                 = Some (Some {| destination := SysStream (Py.drop 6 out);
                                 closed := false |})
            else configure_report_file env o = None)
      else (configure_report_file env o
            = Some (Some {| destination := OpenFile out; closed := false |}) ∧
            ¬ directory_fails env (Py.dirname out) ∧
            open_for_writing env out = true) ∨
           (configure_report_file env o = None ∧
            (directory_fails env (Py.dirname out) ∨
             open_for_writing env out = false))
  end.
Proof.
  unfold configure_report_file.
  destruct (quickunit_output o) as [out|]; [|done].
  unfold Py.truthy. rewrite negb_involutive.
  destruct (decide (out = "" ∨ out = "-")) as [[->| ->]|Hne]; [done..|].
  assert (E : String.eqb out "" || String.eqb out "-" = false).
  { apply orb_false_iff.
    split; apply String.eqb_neq; intros ->; apply Hne; [by left|by right]. }
  rewrite E. destruct (Py.startswith out "sys://").
  - destruct (decide (_ ∨ _)) as [[Hp|Hp]|Hp].
    + rewrite Hp. done.
    + rewrite Hp. done.
    + destruct (String.eqb_spec (Py.drop 6 out) "stdout") as [?|_];
        [exfalso; apply Hp; by left|].
      destruct (String.eqb_spec (Py.drop 6 out) "stderr") as [?|_];
        [exfalso; apply Hp; by right|]. done.
  - destruct (ensure_directory env (Py.dirname out)) as [[]|] eqn:Ed.
    + cbn [mbind option_bind].
      assert (Hd : ¬ directory_fails env (Py.dirname out)).
      { intros Hd. apply ensure_directory_fails in Hd. congruence. }
      destruct (open_for_writing env out); [by left|].
      right. split; [done|]. by right.
    + right. split; [done|]. left. by apply ensure_directory_fails.
Qed.

Lemma configure_None env o :
  configure env o = None ↔ configure_report_file env o = None.
Proof.
  unfold configure. by destruct (configure_report_file env o).
Qed.

(** X2: [configure] raises exactly when the output option is neither empty
    nor [-] and either it starts with [sys://] and what follows is neither
    [stdout] nor [stderr] (the assertion), or it names a file whose
    directory is missing and cannot be made (the empty directory name of a
    bare file name among them) or which cannot be opened for writing. *)
Theorem configure_raises_iff (env : Env) (o : Options) :
  configure env o = None ↔
  ∃ out, quickunit_output o = Some out ∧ out ≠ "" ∧ out ≠ "-" ∧
         ((Py.startswith out "sys://" = true ∧
           Py.drop 6 out ≠ "stdout" ∧ Py.drop 6 out ≠ "stderr") ∨
          (Py.startswith out "sys://" = false ∧
           (directory_fails env (Py.dirname out) ∨
            open_for_writing env out = false))).
Proof.
  rewrite configure_None.
  pose proof (configure_report_file_cases env o) as H.
  destruct (quickunit_output o) as [out|].
  2:{ rewrite H. split; [done|]. by intros (? & ? & _). }
  destruct (decide (out = "" ∨ out = "-")) as [Hs|Hne].
  { rewrite H. split; [done|]. intros (? & [= <-] & H1 & H2 & _).
    destruct Hs; congruence. }
  destruct (Py.startswith out "sys://") eqn:Es.
  - destruct (decide (_ ∨ _)) as [Hp|Hp]; rewrite H.
    + split; [done|]. intros (? & [= <-] & _ & _ & [(_ & H1 & H2)|[Hf _]]);
        [destruct Hp; congruence|congruence].
    + split; [|done]. intros _. exists out. split; [done|].
      split; [intros ->; apply Hne; by left|].
      split; [intros ->; apply Hne; by right|].
      left. split; [done|]. split; intros Hq; apply Hp; [by left|by right].
  - destruct H as [(-> & Hd & Ho)|(-> & Hf)].
    + split; [done|]. intros (? & [= <-] & _ & _ & [[Hf _]|[_ [Hf|Hf]]]);
        [congruence|by destruct Hd|congruence].
    + split; [|done]. intros _. exists out. split; [done|].
      split; [intros ->; apply Hne; by left|].
      split; [intros ->; apply Hne; by right|].
      by right.
Qed.

Lemma begin_file_cases env s file s' :
  begin_file env s file = Some s' →
  (verbosity s' = verbosity s ∧ prefixes s' = prefixes s ∧
   test_cov_data s' = test_cov_data s ∧
   importtime_cov_data s' = importtime_cov_data s ∧
   test_to_module_map s' = test_to_module_map s ∧
   report_file s' = report_file s ∧ tests_run s' = tests_run s ∧
   (∀ r, root s = Some r → root s' = Some r)) ∧
  ((retained env file = false ∧ diff_data s' = diff_data s ∧
    pending_files s' = pending_files s) ∨
   (retained env file = true ∧
    ∃ name, diff_key file = Some name ∧
            diff_data s' = record_chunks name (chunks file) (diff_data s) ∧
            pending_files s'
            = if is_dev_null (old_filename file) then pending_files s
              else add_pending name (prefixes s) (pending_files s))).
Proof.
  unfold begin_file, retained, diff_key.
  destruct (is_header file); cbn [negb andb].
  { intros [= <-]. split; [done|]. by left. }
  destruct (is_dev_null (new_filename file)); cbn [negb andb].
  { intros [= <-]. split; [done|]. by left. }
  set (is_new := is_dev_null (old_filename file)).
  destruct (if is_new then new_filename file else old_filename file)
    as [name|]; [|done].
  cbn [mbind option_bind].
  destruct (Py.startswith name _); cbn [negb andb].
  2:{ intros [= <-]. split; [done|]. left. by destruct (new_filename file). }
  set (s_root := match root s with Some _ => s | None => _ end).
  assert (Hroot : verbosity s_root = verbosity s ∧
                  prefixes s_root = prefixes s ∧
                  test_cov_data s_root = test_cov_data s ∧
                  importtime_cov_data s_root = importtime_cov_data s ∧
                  test_to_module_map s_root = test_to_module_map s ∧
                  report_file s_root = report_file s ∧
                  tests_run s_root = tests_run s ∧
                  diff_data s_root = diff_data s ∧
                  pending_files s_root = pending_files s ∧
                  (∀ r, root s = Some r → root s_root = Some r)).
  { subst s_root. destruct (root s) eqn:Er; repeat split; try done.
    intros r Hr. by rewrite <- Hr. }
  destruct Hroot as (Hv & Hp & Ht & Hi & Hm & Hrf & Htr & Hd & Hpf & Hr).
  destruct (is_py_script env (Py.drop 2 name)); cbn [negb].
  2:{ intros [= <-]. split; [done|]. left. by destruct (new_filename file). }
  destruct (new_filename file) as [new|]; [|done].
  cbn [mbind option_bind fmap option_fmap option_map].
  intros Hs'. split.
  - destruct is_new; injection Hs' as <-; by repeat split.
  - right. split; [done|]. exists (Py.drop 2 new). split; [done|].
    destruct is_new; injection Hs' as <-;
      cbn [diff_data pending_files set_diff_data set_pending_files prefixes];
      by rewrite ?Hd, ?Hpf, ?Hp.
Qed.

Lemma begin_files_other_fields env files s s' :
  begin_files env files s = Some s' →
  verbosity s' = verbosity s ∧ prefixes s' = prefixes s ∧
  test_cov_data s' = test_cov_data s ∧
  importtime_cov_data s' = importtime_cov_data s ∧
  test_to_module_map s' = test_to_module_map s ∧
  report_file s' = report_file s ∧ tests_run s' = tests_run s ∧
  (∀ r, root s = Some r → root s' = Some r).
Proof.
  revert s. induction files as [|file files IH]; intros s; cbn [begin_files].
  - by intros [= <-].
  - destruct (begin_file env s file) as [s1|] eqn:E; [|done].
    cbn [mbind option_bind]. intros Hrest.
    apply begin_file_cases in E as [(E1 & E2 & E3 & E4 & E5 & E6 & E7 & E8) _].
    destruct (IH _ Hrest) as (-> & -> & -> & -> & -> & -> & -> & Hr).
    repeat split; try done. intros r Hroot. by apply Hr, E8.
Qed.

(** X3: in a run configured from the options, [report] writes a report
    exactly when the verbosity is not 0, the output option is neither
    absent, empty nor [-], and no call of [report] came before it (an
    earlier call that wrote has closed the file). *)
Theorem report_written_iff (env : Env) (o : Options) (ord : DictOrder)
    (raw : string) (s0 s1 : Plugin) (es : list Event) :
  configure env o = Some s0 →
  begin env raw s0 = Some s1 →
  is_Some (written (report ord (run_events ord s1 es)).2) ↔
  opt_verbosity o ≠ 0 ∧ ¬ output_suppressed (quickunit_output o) ∧
  reported es = false.
Proof.
  intros Hc Hb.
  destruct (configure_fields _ _ _ Hc)
    as (Hv0 & _ & _ & _ & _ & _ & _ & Hcrf & Hopen).
  assert (Hsup : report_file s0 = None ↔ output_suppressed (quickunit_output o)).
  { pose proof (configure_report_file_cases env o) as H.
    unfold output_suppressed. destruct (quickunit_output o) as [out|].
    2:{ rewrite H in Hcrf. injection Hcrf as <-. by intuition. }
    destruct (decide (out = "" ∨ out = "-")) as [Hs|Hne].
    { rewrite H in Hcrf. injection Hcrf as <-. split; [|done].
      intros _. right. destruct Hs as [-> | ->]; [by left|by right]. }
    assert (Hno : ¬ (Some out = None ∨ Some out = Some "" ∨ Some out = Some "-")).
    { intros [?|[[= ->]|[= ->]]]; [done|apply Hne; by left|apply Hne; by right]. }
    assert (Hsome : is_Some (report_file s0)).
    { destruct (Py.startswith out "sys://").
      - destruct (decide (_ ∨ _)); rewrite H in Hcrf; [|done].
        injection Hcrf as <-. by eexists.
      - destruct H as [(H & _)|(H & _)]; rewrite H in Hcrf; [|done].
        injection Hcrf as <-. by eexists. }
    split; [|by intros ?]. intros Hn. rewrite Hn in Hsome.
    by destruct Hsome. }
  assert (Hs1 : verbosity s1 = verbosity s0 ∧ report_file s1 = report_file s0).
  { unfold begin in Hb.
    destruct (begin_files env _ s0) as [s'|] eqn:E; [|done].
    cbn in Hb. injection Hb as <-.
    apply begin_files_other_fields in E as (E1 & _ & _ & _ & _ & E6 & _).
    cbn [verbosity report_file set_tests_run]. by rewrite E1, E6. }
  destruct Hs1 as [Hv1 Hrf1].
  pose proof (run_events_verbosity ord s1 es) as Hv.
  pose proof (run_events_report_file ord s1 es) as Hr.
  rewrite Hv1, Hv0 in Hv. rewrite Hv1, Hv0, Hrf1 in Hr.
  destruct (report_cases ord (run_events ord s1 es))
    as [[Hz ->]|[(Hz & Hrf & ->)|[(Hz & rf & Hrf & Hcl & ->)
                                 |(Hz & rf & Hrf & Hcl & ->)]]];
    rewrite Hv in Hz; cbn [snd written].
  - split; [by intros [? ?]|]. by intros [? _].
  - split; [by intros [? ?]|]. intros (_ & Hns & Hrep). destruct Hns.
    apply Hsup. apply Z.eqb_neq in Hz. rewrite Hz, Hrep in Hr. cbn in Hr.
    congruence.
  - split; [by intros [? ?]|]. intros (_ & _ & Hrep).
    apply Z.eqb_neq in Hz. rewrite Hz, Hrep in Hr. cbn in Hr.
    rewrite Hr in Hrf. rewrite (Hopen rf Hrf) in Hcl. discriminate Hcl.
  - split; [intros _|by eauto]. split; [done|].
    apply Z.eqb_neq in Hz. rewrite Hz in Hr. cbn [negb] in Hr.
    rewrite andb_true_r in Hr. destruct (reported es).
    + rewrite Hr in Hrf. destruct (report_file s0); [|done].
      cbn in Hrf. injection Hrf as <-. discriminate Hcl.
    + split; [|done]. intros Hs. apply Hsup in Hs. congruence.
Qed.

(** X4: [begin] does not raise on a parsed diff in which every record
    that is not a header carries both file names. *)
Theorem begin_does_not_raise (env : Env) (files : list FileDiffRecord)
    (s : Plugin) :
  Forall named files → is_Some (begin_files env files s).
Proof.
  intros Hall. revert s. induction Hall as [|file files Hf _ IH]; intros s.
  - by eexists.
  - cbn [begin_files].
    assert (Hone : is_Some (begin_file env s file)).
    { unfold begin_file. destruct Hf as [->|[[old Ho] [new Hn]]]; [by eexists|].
      rewrite Ho, Hn. destruct (is_header file); [by eexists|].
      destruct (is_dev_null (Some new)); [by eexists|].
      destruct (is_dev_null (Some old)); cbn [mbind option_bind];
        (destruct (negb (Py.startswith _ _)); [by eexists|]);
        (destruct (negb (is_py_script _ _)); by eexists). }
    destruct Hone as [s1 ->]. cbn [mbind option_bind]. apply IH.
Qed.

Lemma begin_files_pending env files s s' q :
  begin_files env files s = Some s' →
  q ∈ pending_files s' ↔
  q ∈ pending_files s ∨
  ∃ file name p,
    file ∈ files ∧ retained env file = true ∧
    is_dev_null (old_filename file) = false ∧
    diff_key file = Some name ∧ p ∈ prefixes s ∧
    q = Py.path_join p (Py.rsplit_dot_head name).
Proof.
  revert s. induction files as [|file files IH]; intros s; cbn [begin_files].
  - intros [= <-]. split; [by left|]. intros [?|(x & ? & ? & Hx & _)]; [done|].
    by apply elem_of_nil in Hx.
  - destruct (begin_file env s file) as [s1|] eqn:E; [|done].
    cbn [mbind option_bind]. intros Hrest.
    apply begin_file_cases in E as [(_ & Hp & _) Hcase].
    rewrite (IH _ Hrest), Hp. split.
    + intros [Hq|(x & name & p & Hx & ?)].
      * destruct Hcase as [(_ & _ & Hpend)|(Hret & name & Hkey & _ & Hpend)];
          rewrite Hpend in Hq; [by left|].
        destruct (is_dev_null (old_filename file)) eqn:Hnew; [by left|].
        apply elem_of_add_pending in Hq as [?|(p & Hp' & ->)]; [by left|].
        right. exists file, name, p. split; [constructor|done].
      * right. exists x, name, p. split; [by constructor|done].
    + intros [Hq|(x & name & p & Hx & Hret & Hnew & Hkey & Hp' & ->)].
      * left.
        destruct Hcase as [(_ & _ & ->)|(_ & name & _ & _ & ->)]; [done|].
        destruct (is_dev_null (old_filename file)); [done|].
        apply elem_of_add_pending. by left.
      * apply elem_of_cons in Hx as [->|Hx].
        -- left. destruct Hcase as [(Hret' & _)|(_ & name' & Hkey' & _ & ->)];
             [congruence|].
           rewrite Hnew. apply elem_of_add_pending. right. exists p.
           split; [done|congruence].
        -- right. by exists x, name, p.
Qed.

(** X5: after [begin], the pending test paths are those there before and,
    for every retained record that is not a new file and every prefix, the
    prefix joined with the record's new file name without its extension;
    a new file adds none. *)
Theorem pending_paths_after_begin (env : Env) (files : list FileDiffRecord)
    (s s' : Plugin) (q : string) :
  begin_files env files s = Some s' →
  q ∈ pending_files s' ↔
  q ∈ pending_files s ∨
  ∃ file name p,
    file ∈ files ∧ retained env file = true ∧
    is_dev_null (old_filename file) = false ∧
    diff_key file = Some name ∧ p ∈ prefixes s ∧
    q = Py.path_join p (Py.rsplit_dot_head name).
Proof. apply begin_files_pending. Qed.

(** ** Facts on the string primitives *)

Lemma rsplit_dot_head_app stem ext :
  Py.has_char "."%char ext = false →
  Py.rsplit_dot_head (stem ++ String "."%char ext) = stem.
Proof.
  intros Hext. induction stem as [|c stem IH].
  - change ("" ++ String "."%char ext) with (String "."%char ext).
    cbn [Py.rsplit_dot_head]. by rewrite Hext.
  - change (String c stem ++ String "."%char ext)
      with (String c (stem ++ String "."%char ext)).
    cbn [Py.rsplit_dot_head].
    assert (Hdot : Py.has_char "."%char (stem ++ String "."%char ext) = true).
    { clear. induction stem as [|d stem IH]; [done|].
      change (String d stem ++ String "."%char ext)
        with (String d (stem ++ String "."%char ext)).
      cbn [Py.has_char]. rewrite IH. apply orb_true_r. }
    rewrite Hdot. cbn [negb]. rewrite andb_false_r. by rewrite IH.
Qed.

Lemma append_assoc (a b c : string) : (a ++ b) ++ c = a ++ b ++ c.
Proof.
  induction a as [|x a IH]; [done|].
  change (String x ((a ++ b) ++ c) = String x (a ++ b ++ c)). by f_equal.
Qed.

Lemma endswith_slash_app p : Py.endswith_slash (p ++ "/") = true.
Proof.
  induction p as [|c p IH]; [done|].
  change (String c p ++ "/") with (String c (p ++ "/")).
  cbn [Py.endswith_slash]. destruct (p ++ "/") eqn:E; [|done].
  by destruct p.
Qed.

Lemma path_join_dir dir rel :
  Py.startswith rel "/" = false →
  Py.path_join (dir ++ "/") rel = dir ++ "/" ++ rel.
Proof.
  intros Hrel. unfold Py.path_join. rewrite Hrel, endswith_slash_app.
  rewrite orb_true_r. apply append_assoc.
Qed.

Lemma startswith_app_assoc p q r : Py.startswith (p ++ q ++ r) (p ++ q) = true.
Proof. rewrite <- append_assoc. apply startswith_app. Qed.

(** X6: when the diff changes an existing file [stem.ext] and [dir/] is a
    configured prefix, [wantMethod] selects every test whose class lives in
    a file named [dir/stem] followed by anything. *)
Theorem test_under_changed_module_selected (env : Env)
    (files : list FileDiffRecord) (s s' : Plugin) (file : FileDiffRecord)
    (dir stem ext suffix : string) (m : Method) :
  begin_files env files s = Some s' →
  file ∈ files → retained env file = true →
  is_dev_null (old_filename file) = false →
  diff_key file = Some (stem ++ String "."%char ext) →
  Py.has_char "."%char ext = false →
  Py.startswith stem "/" = false →
  (dir ++ "/") ∈ prefixes s →
  relative_filename s' (cls_file (im_class m)) = dir ++ "/" ++ stem ++ suffix →
  (wantMethod s' m).1 = true.
Proof.
  intros Hb Hfile Hret Hold Hkey Hext Hstem Hdir Hrel.
  apply wantMethod_true. right. rewrite Hrel. split.
  - exists (dir ++ "/").
    destruct (begin_files_other_fields _ _ _ _ Hb) as (_ & -> & _).
    split; [done|]. rewrite <- append_assoc. apply startswith_app.
  - exists (dir ++ "/" ++ stem). split.
    + apply (begin_files_pending _ _ _ _ _ Hb). right.
      exists file, (stem ++ String "."%char ext), (dir ++ "/").
      repeat split; try done.
      by rewrite rsplit_dot_head_app, path_join_dir.
    + replace (dir ++ "/" ++ stem ++ suffix)
        with ((dir ++ "/" ++ stem) ++ suffix); [apply startswith_app|].
      by rewrite !append_assoc.
Qed.

(** X7: [wantMethod] answers true exactly when a changed line of the
    class's file lies in the source lines of the class, or the file name
    starts with a configured prefix and with a pending test path. *)
Theorem wantMethod_selects_iff (s : Plugin) (m : Method) :
  (wantMethod s m).1 = true ↔
  (∃ n, n ∈ source_range (cls_startlineno (im_class m))
                         (cls_nlines (im_class m)) ∧
        n ∈ changed_lines s (relative_filename s (cls_file (im_class m)))) ∨
  ((∃ p, p ∈ prefixes s ∧
         Py.startswith (relative_filename s (cls_file (im_class m))) p = true) ∧
   ∃ q, q ∈ pending_files s ∧
        Py.startswith (relative_filename s (cls_file (im_class m))) q = true).
Proof. apply wantMethod_true. Qed.

Lemma mark_run_spec ps f run :
  mark_run ps f run
  = if existsb (Py.startswith f) ps then {[f]} ∪ run else run.
Proof.
  unfold mark_run. revert run.
  induction ps as [|p ps IH]; intros run; [done|].
  cbn [fold_left existsb]. rewrite IH.
  destruct (Py.startswith f p); cbn [orb]; [|done].
  destruct (existsb _ ps); [|done]. set_solver.
Qed.

Lemma prefix_rule_run ps f pending run :
  (prefix_rule ps f pending run).2
  = if existsb (Py.startswith f) ps then {[f]} ∪ run else run.
Proof.
  revert run. induction ps as [|p ps IH]; intros run; [done|].
  cbn [prefix_rule existsb].
  destruct (Py.startswith f p); cbn [orb]; [|apply IH].
  destruct (existsb _ (elements pending)); [done|].
  rewrite IH. destruct (existsb _ ps); [|done]. set_solver.
Qed.

(** X8: [wantMethod] adds the class's file to [tests_run] exactly when
    the file name starts with a configured prefix, whether the test is
    selected or not, and removes nothing. *)
Theorem wantMethod_marks_run (s : Plugin) (m : Method) :
  tests_run (wantMethod s m).2
  = if existsb (Py.startswith (relative_filename s (cls_file (im_class m))))
         (prefixes s)
    then {[relative_filename s (cls_file (im_class m))]} ∪ tests_run s
    else tests_run s.
Proof.
  unfold wantMethod. cbn zeta.
  set (f := relative_filename s _).
  destruct (negb _ && existsb _ _).
  - cbn [snd tests_run set_tests_run prefixes set_diff_data].
    apply mark_run_spec.
  - cbn [prefixes pending_files tests_run set_diff_data].
    pose proof (prefix_rule_run (prefixes s) f (pending_files s) (tests_run s))
      as Hr.
    by destruct (prefix_rule _ _ _ _).
Qed.

Lemma step_selection_fields o s e :
  prefixes (step o s e) = prefixes s ∧
  pending_files (step o s e) = pending_files s ∧
  root (step o s e) = root s.
Proof.
  destruct e as [m| | | | |]; cbn [step]; try done.
  - by destruct (wantMethod_other_fields s m) as (_ & ? & ? & _ & _ & _ & ? & _).
  - by destruct (report_other_fields o s) as (_ & ? & ? & _ & _ & _ & ? & _).
Qed.

Lemma run_events_selection_fields o s es :
  prefixes (run_events o s es) = prefixes s ∧
  pending_files (run_events o s es) = pending_files s ∧
  root (run_events o s es) = root s.
Proof.
  revert s. induction es as [|e es IH]; intros s; [done|].
  change (run_events o s (e :: es)) with (run_events o (step o s e) es).
  destruct (IH (step o s e)) as (-> & -> & ->). apply step_selection_fields.
Qed.

Lemma run_events_changed_lines o s es f :
  changed_lines (run_events o s es) f = changed_lines s f.
Proof.
  revert s. induction es as [|e es IH]; intros s; [done|].
  change (run_events o s (e :: es)) with (run_events o (step o s e) es).
  rewrite IH. apply step_diff_data.
Qed.

(** X9: the answer of [wantMethod] for a test does not depend on the hooks
    that ran since [begin]: selecting tests, recording coverage and
    reporting never change it. *)
Theorem selection_is_stable (o : DictOrder) (s : Plugin) (es : list Event)
    (m : Method) :
  (wantMethod (run_events o s es) m).1 = (wantMethod s m).1.
Proof.
  destruct (run_events_selection_fields o s es) as (Hp & Hq & Hr).
  assert (Hf : relative_filename (run_events o s es) (cls_file (im_class m))
               = relative_filename s (cls_file (im_class m))).
  { unfold relative_filename. by rewrite Hr. }
  assert (Hiff : (wantMethod (run_events o s es) m).1 = true ↔
                 (wantMethod s m).1 = true).
  { rewrite !wantMethod_true, Hf, Hp, Hq.
    by setoid_rewrite run_events_changed_lines. }
  destruct (wantMethod (run_events o s es) m).1, (wantMethod s m).1;
    try done.
  - symmetry. by apply Hiff.
  - by apply Hiff.
Qed.

(** ** The root directory *)

Lemma take_app a b : Py.take (String.length a) (a ++ b) = a.
Proof.
  induction a as [|x a IH]; [by destruct b|].
  change (String x a ++ b) with (String x (a ++ b)).
  cbn [String.length Py.take]. by rewrite IH.
Qed.

Lemma drop_app a b : Py.drop (String.length a) (a ++ b) = b.
Proof.
  induction a as [|x a IH]; [done|].
  change (String x a ++ b) with (String x (a ++ b)).
  cbn [String.length Py.drop]. exact IH.
Qed.

Lemma length_app_str a b :
  String.length (a ++ b) = (String.length a + String.length b)%nat.
Proof.
  induction a as [|x a IH]; [done|].
  change (String x a ++ b) with (String x (a ++ b)).
  cbn [String.length]. by rewrite IH.
Qed.

Lemma drop_last_app a b :
  b ≠ "" → Py.drop_last (String.length b) (a ++ b) = a.
Proof.
  intros Hb. unfold Py.drop_last.
  destruct (String.length b) as [|n] eqn:E.
  { destruct b; [done|discriminate E]. }
  rewrite <- E, length_app_str.
  replace (String.length a + String.length b - String.length b)%nat
    with (String.length a) by lia.
  apply take_app.
Qed.

(** X10: when [os.path.abspath] puts a relative name under the working
    directory, the first record of the diff with an [a/] name fixes [root]
    to that directory with a trailing slash, Python file or not, and
    [wantMethod] then reads an absolute file name under it as the relative
    one. *)
Theorem root_is_working_directory (env : Env) (s s' : Plugin)
    (name cwd rel : string) (cs : list Hunk) (rest : list FileDiffRecord) :
  root s = None → name ≠ "" →
  abspath env name = cwd ++ "/" ++ name →
  begin_files env (Scenario.modified name cs :: rest) s = Some s' →
  root s' = Some (cwd ++ "/") ∧
  relative_filename s' (cwd ++ "/" ++ rel) = rel.
Proof.
  intros Hroot Hname Habs Hb. cbn [begin_files] in Hb.
  destruct (begin_file env s (Scenario.modified name cs)) as [s1|] eqn:E;
    [|done].
  cbn [mbind option_bind] in Hb.
  assert (H1 : root s1 = Some (cwd ++ "/")).
  { unfold begin_file, Scenario.modified in E.
    cbn [is_header new_filename old_filename chunks] in E.
    change (is_dev_null (Some ("b/" ++ name))) with false in E.
    change (is_dev_null (Some ("a/" ++ name))) with false in E.
    cbn [mbind option_bind] in E.
    rewrite (startswith_app "a/" name) in E.
    change (Py.drop 2 ("a/" ++ name)) with name in E.
    change (Py.drop 2 ("b/" ++ name)) with name in E.
    rewrite Hroot, Habs in E. cbn [negb] in E.
    rewrite <- append_assoc, drop_last_app in E by done.
    destruct (is_py_script env name); cbn [negb] in E; by injection E as <-. }
  destruct (begin_files_other_fields _ _ _ _ Hb) as (_ & _ & _ & _ & _ & _ & _ & Hr).
  apply Hr in H1. split; [done|].
  unfold relative_filename. rewrite H1.
  assert (Ht : Py.truthy (cwd ++ "/") = true) by (by destruct cwd).
  rewrite Ht. cbn [andb]. rewrite <- append_assoc, startswith_app.
  apply drop_app.
Qed.

(** ** What a capture records *)

Lemma elem_of_filter_bool {A} (p : A → bool) (l : list A) x :
  x ∈ List.filter p l ↔ x ∈ l ∧ p x = true.
Proof. by rewrite !list_elem_of_In, filter_In. Qed.

Lemma record_unit_lines diff cov cu f l :
  l ∈ dd_value ∅ (record_unit diff cov cu) f ↔
  l ∈ dd_value ∅ cov f ∨
  (cu_name cu ++ ".py" = f ∧ l ∈ executed_lines cu ∧ l ∈ dd_value ∅ diff f).
Proof.
  unfold record_unit.
  destruct (diff !! (cu_name cu ++ ".py")) as [changed|] eqn:E.
  2:{ split; [by left|]. intros [?|(<- & _ & Hc)]; [done|].
      unfold dd_value in Hc. rewrite E in Hc. by apply not_elem_of_empty in Hc. }
  assert (Hd : dd_value ∅ diff (cu_name cu ++ ".py") = changed)
    by (unfold dd_value; by rewrite E).
  assert (Hin : ∀ x, x ∈ List.filter (λ l, bool_decide (l ∈ changed))
                           (executed_lines cu)
                     ↔ x ∈ executed_lines cu ∧ x ∈ changed).
  { intros x. by rewrite elem_of_filter_bool, bool_decide_eq_true. }
  destruct (List.filter _ _) as [|y ys] eqn:Ef.
  - split; [by left|]. intros [?|(<- & Hl & Hc)]; [done|].
    rewrite Hd in Hc.
    assert (Hx : l ∈ @nil Z) by (by apply Hin). by apply elem_of_nil in Hx.
  - destruct (decide (cu_name cu ++ ".py" = f)) as [<-|Hf].
    + rewrite dd_value_modify_eq, elem_of_union, elem_of_list_to_set, Hin, Hd.
      split.
      * intros [?|[? ?]]; [by left|]. by right.
      * intros [?|(_ & ? & ?)]; [by left|by right].
    + rewrite dd_value_modify_ne by done. split; [by left|].
      by intros [?|(? & _)].
Qed.

Lemma record_coverage_data_lines diff units cov f l :
  l ∈ dd_value ∅ (record_coverage_data diff units cov) f ↔
  l ∈ dd_value ∅ cov f ∨
  ∃ cu, cu ∈ units ∧ cu_name cu ++ ".py" = f ∧ l ∈ executed_lines cu ∧
        l ∈ dd_value ∅ diff f.
Proof.
  unfold record_coverage_data. revert cov.
  induction units as [|cu units IH]; intros cov; cbn [fold_left].
  - split; [by left|]. intros [?|(cu & Hcu & _)]; [done|].
    by apply elem_of_nil in Hcu.
  - rewrite IH, record_unit_lines. split.
    + intros [[?|?]|(cu' & Hcu' & ?)].
      * by left.
      * right. exists cu. split; [constructor|done].
      * right. exists cu'. split; [by constructor|done].
    + intros [?|(cu' & Hcu' & ?)]; [by left; left|].
      apply elem_of_cons in Hcu' as [->|Hcu']; [left; by right|].
      right. by exists cu'.
Qed.

(** X11: [stopTest] files the test's module under the test name and adds
    to the lines recorded for that test and a file exactly the executed
    lines of the file that are changed lines; other tests are untouched. *)
Theorem stopTest_records_hits (s : Plugin) (test : TestCase)
    (code_units : list CodeUnit) (t f : string) (l : Z) :
  test_to_module_map (stopTest s test code_units)
    !! _get_name_from_test test = Some (test_module test) ∧
  (l ∈ test_lines (stopTest s test code_units) t f ↔
   l ∈ test_lines s t f ∨
   (t = _get_name_from_test test ∧ hits s code_units f l)).
Proof.
  unfold stopTest, test_lines, hits, changed_lines.
  cbn [test_to_module_map test_cov_data diff_data set_test_cov_data
       set_test_to_module_map].
  split; [apply lookup_insert_eq|].
  destruct (decide (_get_name_from_test test = t)) as [<-|Ht].
  - rewrite dd_value_modify_eq, record_coverage_data_lines. by intuition.
  - rewrite dd_value_modify_ne by done. split; [by left|].
    by intros [?|[-> _]].
Qed.

(** X12: [afterImport] adds to the lines recorded for the module and a
    file exactly the executed lines of the file that are changed lines;
    other modules are untouched. *)
Theorem afterImport_records_hits (s : Plugin) (module : string)
    (code_units : list CodeUnit) (m f : string) (l : Z) :
  l ∈ import_lines (afterImport s module code_units) m f ↔
  l ∈ import_lines s m f ∨ (m = module ∧ hits s code_units f l).
Proof.
  unfold afterImport, import_lines, hits, changed_lines.
  cbn [importtime_cov_data diff_data set_importtime_cov_data].
  destruct (decide (module = m)) as [<-|Hm].
  - rewrite dd_value_modify_eq, record_coverage_data_lines. by intuition.
  - rewrite dd_value_modify_ne by done. split; [by left|].
    by intros [?|[-> _]].
Qed.

(** ** Recorded coverage stays within the changed lines *)

Lemma record_unit_within diff cov cu :
  (∀ f ls, cov !! f = Some ls →
           ls ≠ ∅ ∧ ∃ changed, diff !! f = Some changed ∧ ls ⊆ changed) →
  ∀ f ls, record_unit diff cov cu !! f = Some ls →
          ls ≠ ∅ ∧ ∃ changed, diff !! f = Some changed ∧ ls ⊆ changed.
Proof.
  intros Hcov f ls. unfold record_unit.
  destruct (diff !! (cu_name cu ++ ".py")) as [changed|] eqn:E; [|apply Hcov].
  destruct (List.filter _ _) as [|y ys] eqn:Ef; [apply Hcov|].
  destruct (decide (cu_name cu ++ ".py" = f)) as [<-|Hf].
  2:{ rewrite dd_modify_lookup_ne by done. apply Hcov. }
  rewrite dd_modify_lookup_eq. intros [= <-]. split.
  - intros Hempty. assert (Hy : y ∈ (∅ : gset Z)); [|by apply not_elem_of_empty in Hy].
    rewrite <- Hempty. apply elem_of_union_r, elem_of_union_l.
    by apply elem_of_singleton.
  - exists changed. split; [done|]. intros x.
    change ({[y]} ∪ list_to_set ys : gset Z) with (list_to_set (y :: ys) : gset Z).
    rewrite elem_of_union, elem_of_list_to_set. intros [Hx|Hx].
    + unfold dd_value in Hx.
      destruct (cov !! (cu_name cu ++ ".py")) as [old|] eqn:Eo;
        [|by apply not_elem_of_empty in Hx].
      destruct (Hcov _ _ Eo) as (_ & changed' & Ec & Hsub).
      rewrite E in Ec. injection Ec as <-. by apply Hsub.
    + rewrite <- Ef in Hx. apply elem_of_filter_bool in Hx as [_ Hx].
      by apply bool_decide_eq_true in Hx.
Qed.

Lemma record_coverage_data_within diff units cov :
  (∀ f ls, cov !! f = Some ls →
           ls ≠ ∅ ∧ ∃ changed, diff !! f = Some changed ∧ ls ⊆ changed) →
  ∀ f ls, record_coverage_data diff units cov !! f = Some ls →
          ls ≠ ∅ ∧ ∃ changed, diff !! f = Some changed ∧ ls ⊆ changed.
Proof.
  unfold record_coverage_data. revert cov.
  induction units as [|cu units IH]; intros cov Hcov; [done|].
  cbn [fold_left]. apply IH. by apply record_unit_within.
Qed.

Lemma within_changes_record diff units d k :
  within_changes diff d →
  within_changes diff (dd_modify ∅ (record_coverage_data diff units) d k).
Proof.
  intros Hd k' cov f ls. destruct (decide (k = k')) as [<-|Hk].
  - rewrite dd_modify_lookup_eq. intros [= <-].
    apply record_coverage_data_within. intros f' ls'.
    unfold dd_value. destruct (d !! k) as [old|] eqn:E; [|done].
    cbn. by apply (Hd k).
  - rewrite dd_modify_lookup_ne by done. apply Hd.
Qed.

Lemma within_changes_mono diff diff' d :
  diff ⊆ diff' → within_changes diff d → within_changes diff' d.
Proof.
  intros Hsub Hd k cov f ls Hk Hf.
  destruct (Hd k cov f ls Hk Hf) as (Hne & changed & Hc & Hls).
  split; [done|]. exists changed. split; [|done].
  by apply (lookup_weaken diff).
Qed.

Lemma step_test_cov_data_report o s :
  test_cov_data (report o s).1 = test_cov_data s ∧
  importtime_cov_data (report o s).1 = importtime_cov_data s.
Proof.
  by destruct (report_other_fields o s) as (_ & _ & _ & ? & ? & _).
Qed.

Lemma step_recorded_within_changes o s e :
  recorded_within_changes s → recorded_within_changes (step o s e).
Proof.
  intros [Ht Hi]. pose proof (step_diff_data o s e "") as [_ Hsub].
  destruct e as [m| |module units| |test units|]; cbn [step] in *; try done.
  - destruct (wantMethod_other_fields s m) as (_ & _ & _ & Et & Ei & _).
    unfold recorded_within_changes. rewrite Et, Ei.
    split; by eapply within_changes_mono.
  - split; [done|]. by apply within_changes_record.
  - split; [|done]. by apply within_changes_record.
  - destruct (step_test_cov_data_report o s) as [Et Ei].
    unfold recorded_within_changes. rewrite Et, Ei.
    split; by eapply within_changes_mono.
Qed.

Lemma run_events_recorded_within_changes o s es :
  recorded_within_changes s → recorded_within_changes (run_events o s es).
Proof.
  revert s. induction es as [|e es IH]; intros s Hs; [done|].
  change (run_events o s (e :: es)) with (run_events o (step o s e) es).
  by apply IH, step_recorded_within_changes.
Qed.

(** X13: throughout a run, every set of lines recorded for a test or a
    module under a file is non-empty and consists of changed lines of a
    file that has an entry in [diff_data]. *)
Theorem recorded_coverage_within_changes (o : DictOrder) (s : Plugin)
    (es : list Event) :
  recorded_within_changes s → recorded_within_changes (run_events o s es).
Proof. apply run_events_recorded_within_changes. Qed.

Lemma run_a_diff_fixed p st :
  Forall (λ i, ∀ f, i = ReadDiff f → is_Some (a_diff st !! f)) p →
  a_diff (run p st) = a_diff st.
Proof.
  intros Hp. revert st Hp. induction p as [|i p IH]; intros st Hp; [done|].
  change (run (i :: p) st) with (run p (exec st i)).
  apply Forall_cons in Hp as [Hi Hp].
  assert (Hone : a_diff (exec st i) = a_diff st).
  { destruct i; cbn [exec a_diff]; try done.
    destruct (Hi _ eq_refl) as [v Hv]. unfold dd_touch. by rewrite Hv. }
  rewrite IH; [done|]. by rewrite Hone.
Qed.

Lemma program_reads o s i f :
  i ∈ program o s → i = ReadDiff f →
  ∃ t cov c, test_cov_data s !! t = Some cov ∧ cov !! f = Some c.
Proof.
  unfold program. intros Hi ->.
  apply list_elem_of_In, in_flat_map in Hi as ([t cov] & Hitem & Hi).
  apply list_elem_of_In, iteritems_elem_of in Hitem.
  apply list_elem_of_In in Hi. cbn [test_stmts] in Hi.
  apply elem_of_app in Hi as [Hi|Hi].
  - apply list_elem_of_In, in_flat_map in Hi as ([f' c] & Hf & Hi).
    apply list_elem_of_In, iteritems_elem_of in Hf.
    cbn [own_stmts] in Hi. destruct Hi as [[= ->]|[?|[?|[?|[]]]]]; try done.
    by exists t, cov, c.
  - destruct (overlay_of s t) as [imp|]; [|by apply elem_of_nil in Hi].
    apply list_elem_of_In, in_flat_map in Hi as ([f' c] & _ & Hi).
    cbn [import_stmts] in Hi. by destruct Hi as [?|[?|[?|[?|[]]]]].
Qed.

Lemma report_diff_data o s :
  diff_data (report o s).1 = diff_data s ∨
  diff_data (report o s).1 = a_diff (assemble o s).
Proof.
  destruct (report_cases o s)
    as [[_ ->]|[(_ & _ & ->)|[(_ & rf & _ & _ & ->)|(_ & rf & _ & _ & ->)]]];
    [by left|by right..].
Qed.

(** X14: in a run whose recorded coverage lies within the changed lines
    (as it does from [begin] on), [report] leaves [diff_data] exactly as it
    was: the only hook that adds an entry is [wantMethod]. *)
Theorem report_keeps_diff_data (o : DictOrder) (s : Plugin)
    (es : list Event) :
  recorded_within_changes s →
  diff_data (report o (run_events o s es)).1
  = diff_data (run_events o s es).
Proof.
  intros Hs. apply (run_events_recorded_within_changes o s es) in Hs.
  set (s1 := run_events o s es) in *. destruct Hs as [Ht _].
  destruct (report_diff_data o s1) as [->| ->]; [done|].
  unfold assemble. rewrite run_a_diff_fixed; [done|].
  apply Forall_forall. intros i Hi f Hf.
  destruct (program_reads o s1 i f Hi Hf) as (t & cov & c & Hc & Hfc).
  destruct (Ht t cov f c Hc Hfc) as (_ & changed & Hd & _).
  by exists changed.
Qed.

(** ** The report entry of a test *)

Lemma missing_exec_frame st i f :
  missing_target i ≠ Some f → missing_of (exec st i) f = missing_of st f.
Proof.
  intros Hne. rewrite missing_exec.
  destruct i; cbn [missing_target] in *; try done;
    (case_decide as Hf; [subst; by destruct Hne|done]).
Qed.

Lemma run_frame p st t f :
  Forall (λ i, target i ≠ Some (t, f) ∧ missing_target i ≠ Some f) p →
  entry (a_data (run p st)) t f = entry (a_data st) t f ∧
  missing_of (run p st) f = missing_of st f.
Proof.
  intros Hp. revert st. induction Hp as [|i p [Hi Hm] _ IH]; intros st; [done|].
  change (run (i :: p) st) with (run p (exec st i)).
  destruct (IH (exec st i)) as [-> ->].
  by rewrite entry_exec_frame, missing_exec_frame.
Qed.

Lemma own_stmts_other t f items :
  f ∉ items.*1 →
  Forall (λ i, target i ≠ Some (t, f) ∧ missing_target i ≠ Some f)
    (flat_map (own_stmts t) items).
Proof.
  intros Hf. apply Forall_forall. intros i Hi.
  apply list_elem_of_In, in_flat_map in Hi as ([f' c] & Hitem & Hi).
  assert (Hne : f' ≠ f).
  { intros ->. apply Hf, list_elem_of_fmap. exists (f, c).
    by rewrite list_elem_of_In. }
  cbn [own_stmts] in Hi.
  destruct Hi as [<-|[<-|[<-|[<-|[]]]]]; cbn; split; congruence.
Qed.

Lemma import_stmts_other t f items :
  f ∉ items.*1 →
  Forall (λ i, target i ≠ Some (t, f) ∧ missing_target i ≠ Some f)
    (flat_map (import_stmts t) items).
Proof.
  intros Hf. apply Forall_forall. intros i Hi.
  apply list_elem_of_In, in_flat_map in Hi as ([f' c] & Hitem & Hi).
  assert (Hne : f' ≠ f).
  { intros ->. apply Hf, list_elem_of_fmap. exists (f, c).
    by rewrite list_elem_of_In. }
  cbn [import_stmts] in Hi.
  destruct Hi as [<-|[<-|[<-|[<-|[]]]]]; cbn; split; congruence.
Qed.

Lemma own_block_result t f c st :
  entry (a_data (run (own_stmts t (f, c)) st)) t f
  = Some (gset_to_gmap 0 (dd_value ∅ (a_diff st) f ∖ c) ∪ gset_to_gmap 1 c) ∧
  missing_of (run (own_stmts t (f, c)) st) f = dd_value ∅ (a_diff st) f ∖ c.
Proof.
  cbn [own_stmts run fold_left].
  set (s1 := exec st (ReadDiff f)).
  set (s2 := exec s1 (SetMissing f c)).
  set (s3 := exec s2 (SetCovered t f c)).
  assert (M3 : missing_of s3 f = dd_value ∅ (a_diff st) f ∖ c).
  { subst s3 s2. rewrite !missing_exec, decide_True by done.
    subst s1. cbn [exec a_diff]. by rewrite dd_value_touch. }
  split.
  - rewrite entry_exec. cbn [stored]. rewrite decide_True by done.
    rewrite M3. subst s3. rewrite entry_exec. cbn [stored].
    by rewrite decide_True.
  - by rewrite missing_exec.
Qed.

Lemma import_block_result t f ic st :
  entry (a_data (run (import_stmts t (f, ic)) st)) t f
  = Some (gset_to_gmap 0 (missing_of st f ∖ ic)
            ∪ (gset_to_gmap 1 ic ∪ default ∅ (entry (a_data st) t f))).
Proof.
  cbn [import_stmts run fold_left].
  set (s1 := exec st (NarrowMissing f ic)).
  set (s2 := exec s1 (EnsureFile t f)).
  set (s3 := exec s2 (MarkCovered t f ic)).
  assert (M3 : missing_of s3 f = missing_of st f ∖ ic).
  { subst s3 s2. rewrite !missing_exec. subst s1.
    by rewrite missing_exec, decide_True. }
  rewrite entry_exec. cbn [stored]. rewrite decide_True by done. rewrite M3.
  subst s3. rewrite entry_exec. cbn [stored]. rewrite decide_True by done.
  subst s2. rewrite entry_exec. cbn [stored]. rewrite decide_True by done.
  subst s1. by rewrite entry_exec_frame by done.
Qed.

Lemma split_item {V} (items : list (string * V)) k v :
  NoDup items.*1 → (k, v) ∈ items →
  ∃ l1 l2, items = (l1 ++ (k, v) :: l2)%list ∧ (k ∉ l1.*1) ∧ (k ∉ l2.*1).
Proof.
  intros Hnd Hin. apply list_elem_of_split in Hin as (l1 & l2 & ->).
  exists l1, l2. split; [done|].
  rewrite fmap_app, fmap_cons in Hnd. cbn [fst] in Hnd.
  apply NoDup_app in Hnd as (_ & Hdis & Hnd).
  apply NoDup_cons in Hnd as [Hk _]. split; [|done].
  intros Hk1. apply (Hdis k Hk1). constructor.
Qed.

Lemma flat_map_app_cons {A B} (g : A → list B) l1 x l2 :
  flat_map g (l1 ++ x :: l2)%list
  = (flat_map g l1 ++ g x ++ flat_map g l2)%list.
Proof. by rewrite flat_map_app. Qed.

Lemma overlay_result o s t f st E :
  entry (a_data st) t f = Some E →
  entry
    (a_data
       (run match overlay_of s t with
            | Some imported => flat_map (import_stmts t) (iteritems o imported)
            | None => []
            end st)) t f
  = Some (gset_to_gmap 0 (missing_of st f ∖ overlay_lines s t f)
            ∪ (gset_to_gmap 1 (overlay_lines s t f) ∪ E)) ∨
  (overlay_lines s t f = ∅ ∧
   entry
     (a_data
        (run match overlay_of s t with
             | Some imported =>
                 flat_map (import_stmts t) (iteritems o imported)
             | None => []
             end st)) t f = Some E).
Proof.
  intros HE. unfold overlay_lines.
  destruct (overlay_of s t) as [imp|]; [|by right].
  destruct (imp !! f) as [ic|] eqn:Ef; cbn [default from_option id].
  - left. apply (iteritems_elem_of o) in Ef.
    apply split_item in Ef as (j1 & j2 & -> & H1 & H2);
      [|apply iteritems_NoDup_fst].
    rewrite flat_map_app_cons, !run_app.
    destruct (run_frame _ st t f (import_stmts_other t f j1 H1)) as [E1 M1].
    set (st1 := run (flat_map (import_stmts t) j1) st) in *.
    destruct (run_frame _ (run (import_stmts t (f, ic)) st1) t f
                (import_stmts_other t f j2 H2)) as [-> _].
    rewrite <- M1, import_block_result, E1, HE. done.
  - right. split; [done|].
    assert (Hf : f ∉ (iteritems o imp).*1).
    { intros Hin. apply list_elem_of_fmap in Hin as ([f' c] & -> & Hin).
      apply iteritems_elem_of in Hin. cbn in Ef. congruence. }
    destruct (run_frame _ st t f (import_stmts_other t f _ Hf)) as [-> _].
    done.
Qed.

Lemma lookup_gset_to_gmap_decide (x : Z) (X : gset Z) l :
  gset_to_gmap x X !! l = if decide (l ∈ X) then Some x else None.
Proof.
  case_decide as Hl.
  - by apply lookup_gset_to_gmap_Some.
  - by apply lookup_gset_to_gmap_None.
Qed.

Lemma merged_leaf (D c ic : gset Z) l :
  (gset_to_gmap 0 ((D ∖ c) ∖ ic)
     ∪ (gset_to_gmap 1 ic ∪ (gset_to_gmap 0 (D ∖ c) ∪ gset_to_gmap 1 c))) !! l
  = if decide (l ∈ c ∪ ic) then Some 1
    else if decide (l ∈ D) then Some 0 else None.
Proof.
  rewrite !lookup_union, !lookup_gset_to_gmap_decide.
  repeat case_decide; try reflexivity; exfalso; set_solver.
Qed.

Lemma own_leaf (D c : gset Z) l :
  (gset_to_gmap 0 (D ∖ c) ∪ gset_to_gmap 1 c) !! l
  = if decide (l ∈ c ∪ ∅) then Some 1
    else if decide (l ∈ D) then Some 0 else None.
Proof.
  rewrite !lookup_union, !lookup_gset_to_gmap_decide.
  repeat case_decide; try reflexivity; exfalso; set_solver.
Qed.

Lemma test_block_leaf o s t cov f c st l :
  cov !! f = Some c →
  leaf (a_data (run (test_stmts o s (t, cov)) st)) t f l
  = if decide (l ∈ c ∪ overlay_lines s t f) then Some 1
    else if decide (l ∈ dd_value ∅ (a_diff st) f) then Some 0 else None.
Proof.
  intros Hf. cbn [test_stmts]. rewrite run_app.
  apply (iteritems_elem_of o) in Hf.
  apply split_item in Hf as (k1 & k2 & -> & H1 & H2);
    [|apply iteritems_NoDup_fst].
  rewrite flat_map_app_cons, !run_app.
  set (st1 := run (flat_map (own_stmts t) k1) st).
  assert (HD : dd_value ∅ (a_diff st1) f = dd_value ∅ (a_diff st) f)
    by apply run_a_diff.
  destruct (own_block_result t f c st1) as [E2 M2]. rewrite HD in E2, M2.
  set (st2 := run (own_stmts t (f, c)) st1) in *.
  destruct (run_frame _ st2 t f (own_stmts_other t f k2 H2)) as [E3 M3].
  set (st3 := run (flat_map (own_stmts t) k2) st2) in *.
  rewrite E2 in E3. rewrite M2 in M3.
  rewrite leaf_entry.
  destruct (overlay_result o s t f st3 _ E3) as [->|[-> ->]];
    cbn [mbind option_bind].
  - rewrite M3. apply merged_leaf.
  - apply own_leaf.
Qed.

(** X15: for a file a test has coverage of its own for, the leaves of the
    test's report entry are: 1 for the lines the test or the import of its
    module executed, 0 for the other changed lines of the file, and none
    for any other line -- whatever the other tests recorded and whatever
    the order of the walk. *)
Theorem own_file_entry (o : DictOrder) (s : Plugin) (t f : string)
    (cov : gmap string (gset Z)) (c : gset Z) (l : Z) :
  test_cov_data s !! t = Some cov → cov !! f = Some c →
  leaf (a_data (assemble o s)) t f l
  = if decide (l ∈ c ∪ overlay_lines s t f) then Some 1
    else if decide (l ∈ changed_lines s f) then Some 0 else None.
Proof.
  intros Ht Hf. unfold assemble, program.
  apply (iteritems_elem_of o) in Ht.
  apply split_item in Ht as (L1 & L2 & -> & H1 & H2);
    [|apply iteritems_NoDup_fst].
  rewrite flat_map_app_cons, !run_app.
  set (st1 := run (flat_map (test_stmts o s) L1) (assembly_start s)).
  assert (HD : dd_value ∅ (a_diff st1) f = changed_lines s f)
    by apply run_a_diff.
  rewrite leaf_entry, run_entry_frame, <- leaf_entry.
  - rewrite <- HD. by apply test_block_leaf.
  - apply Forall_forall. intros i Hi.
    apply list_elem_of_In, in_flat_map in Hi as ([t' cov'] & Hitem & Hi).
    apply list_elem_of_In, test_stmts_target in Hi as [Hi|[f' Hi]];
      rewrite Hi; [done|].
    intros [= -> _]. apply H2, list_elem_of_fmap. exists (t, cov').
    by rewrite list_elem_of_In.
Qed.

(** X18: in a written report, [0 <= stats.covered <= stats.total]. *)
Theorem covered_at_most_total (o : DictOrder) (s s' : Plugin) (r : Report) :
  report o s = (s', Returned (Some r)) →
  (0 ≤ stats_covered r ≤ stats_total r)%Z.
Proof.
  intros Hr. apply report_written in Hr. subst r.
  rewrite tally_leaves. cbn [stats_covered stats_total fst snd].
  pose proof (List.filter_length_le is_covered
                (leaves o (a_data (assemble o s)))). lia.
Qed.


(** ** The overlay and the keys of the report *)

Lemma exec_entry_stays st i t f :
  is_Some (entry (a_data st) t f) → is_Some (entry (a_data (exec st i)) t f).
Proof.
  intros Hs. rewrite entry_exec.
  destruct (stored st i _) as [[[t' f'] v]|]; [|done].
  case_decide; [by eexists|done].
Qed.

Lemma run_entry_stays p st t f :
  is_Some (entry (a_data st) t f) → is_Some (entry (a_data (run p st)) t f).
Proof.
  revert st. induction p as [|i p IH]; intros st Hs; [done|].
  change (run (i :: p) st) with (run p (exec st i)).
  by apply IH, exec_entry_stays.
Qed.

Lemma other_tests_frame o s t f (L : list (string * gmap string (gset Z))) st :
  t ∉ L.*1 →
  entry (a_data (run (flat_map (test_stmts o s) L) st)) t f
  = entry (a_data st) t f.
Proof.
  intros Ht. apply run_entry_frame, Forall_forall. intros i Hi.
  apply list_elem_of_In, in_flat_map in Hi as ([t' cov'] & Hitem & Hi).
  apply list_elem_of_In, test_stmts_target in Hi as [Hi|[f' Hi]];
    rewrite Hi; [done|].
  intros [= -> _]. apply Ht, list_elem_of_fmap. exists (t, cov').
  by rewrite list_elem_of_In.
Qed.

(** X16: every line that the import of a test's module executed is a 1
    leaf of that test's report entry for the file. *)
Theorem overlay_lines_are_covered (o : DictOrder) (s : Plugin)
    (t f : string) (cov imp : gmap string (gset Z)) (ic : gset Z) (l : Z) :
  test_cov_data s !! t = Some cov →
  overlay_of s t = Some imp → imp !! f = Some ic → l ∈ ic →
  leaf (a_data (assemble o s)) t f l = Some 1.
Proof.
  intros Ht Ho Hf Hl. unfold assemble, program.
  apply (iteritems_elem_of o) in Ht.
  apply split_item in Ht as (L1 & L2 & -> & H1 & H2);
    [|apply iteritems_NoDup_fst].
  rewrite flat_map_app_cons, !run_app.
  rewrite leaf_entry, other_tests_frame by done.
  set (st1 := run (flat_map (test_stmts o s) L1) (assembly_start s)).
  cbn [test_stmts]. rewrite run_app, Ho.
  set (st2 := run (flat_map (own_stmts t) (iteritems o cov)) st1).
  apply (iteritems_elem_of o) in Hf.
  apply split_item in Hf as (j1 & j2 & -> & Hj1 & Hj2);
    [|apply iteritems_NoDup_fst].
  rewrite flat_map_app_cons, !run_app.
  set (st3 := run (flat_map (import_stmts t) j1) st2).
  destruct (run_frame _ (run (import_stmts t (f, ic)) st3) t f
              (import_stmts_other t f j2 Hj2)) as [-> _].
  rewrite import_block_result. cbn [mbind option_bind].
  rewrite !lookup_union, !lookup_gset_to_gmap_decide.
  rewrite decide_False by set_solver. rewrite decide_True by done.
  by destruct (default ∅ (entry (a_data st3) t f) !! l).
Qed.

Lemma exec_key_frame st i t :
  (∀ f, target i ≠ Some (t, f)) →
  a_data (exec st i) !! t = a_data st !! t.
Proof.
  intros Hne.
  destruct i as [f'|f' c|t' f' c|t' f'|f' c|t' f'|t' f' c];
    cbn [exec a_data target] in *; try done; unfold update_lines;
    (rewrite dd_modify_lookup_ne; [done|]; intros ->; by apply (Hne f')).
Qed.

Lemma exec_key_stays st i t :
  is_Some (a_data st !! t) → is_Some (a_data (exec st i) !! t).
Proof.
  intros Hs.
  destruct i as [f'|f' c|t' f' c|t' f'|f' c|t' f'|t' f' c];
    cbn [exec a_data]; try done; unfold update_lines, dd_modify;
    (destruct (decide (t' = t)) as [->|Hne];
     [rewrite lookup_insert_eq; by eexists|by rewrite lookup_insert_ne]).
Qed.

Lemma exec_key_created st i t f :
  target i = Some (t, f) → is_Some (a_data (exec st i) !! t).
Proof.
  destruct i as [f'|f' c|t' f' c|t' f'|f' c|t' f'|t' f' c];
    cbn [exec a_data target]; try done; intros [= -> ->];
    unfold update_lines; rewrite dd_modify_lookup_eq; by eexists.
Qed.

Lemma run_key_stays p st t :
  is_Some (a_data st !! t) → is_Some (a_data (run p st) !! t).
Proof.
  revert st. induction p as [|i p IH]; intros st Hs; [done|].
  change (run (i :: p) st) with (run p (exec st i)).
  by apply IH, exec_key_stays.
Qed.

Lemma run_key_created p st i t f :
  i ∈ p → target i = Some (t, f) → is_Some (a_data (run p st) !! t).
Proof.
  intros Hi Ht. apply list_elem_of_split in Hi as (p1 & p2 & ->).
  rewrite run_app. change (run (i :: p2) (run p1 st))
    with (run p2 (exec (run p1 st) i)).
  by eapply run_key_stays, exec_key_created.
Qed.

Lemma run_key_origin p st t :
  a_data st !! t = None → is_Some (a_data (run p st) !! t) →
  ∃ i f, i ∈ p ∧ target i = Some (t, f).
Proof.
  revert st. induction p as [|i p IH]; intros st Hnone Hs.
  { cbn in Hs. rewrite Hnone in Hs. by destruct Hs. }
  change (run (i :: p) st) with (run p (exec st i)) in Hs.
  destruct (target i) as [[t' f']|] eqn:Ei.
  - destruct (decide (t' = t)) as [->|Hne].
    + exists i, f'. split; [constructor|done].
    + destruct (IH (exec st i)) as (j & f & Hj & Htj); [|done|].
      * rewrite exec_key_frame; [done|]. rewrite Ei. congruence.
      * exists j, f. split; [by constructor|done].
  - destruct (IH (exec st i)) as (j & f & Hj & Htj); [|done|].
    + rewrite exec_key_frame; [done|]. by rewrite Ei.
    + exists j, f. split; [by constructor|done].
Qed.

Lemma program_targets_test o s i t f :
  i ∈ program o s → target i = Some (t, f) →
  ∃ cov, test_cov_data s !! t = Some cov ∧
         (is_Some (cov !! f) ∨
          ∃ imp, overlay_of s t = Some imp ∧ is_Some (imp !! f)).
Proof.
  unfold program. intros Hi Ht.
  apply list_elem_of_In, in_flat_map in Hi as ([t' cov] & Hitem & Hi).
  apply list_elem_of_In, iteritems_elem_of in Hitem.
  apply list_elem_of_In in Hi. cbn [test_stmts] in Hi.
  apply elem_of_app in Hi as [Hi|Hi].
  - apply list_elem_of_In, in_flat_map in Hi as ([f' c] & Hf & Hi).
    apply list_elem_of_In, iteritems_elem_of in Hf.
    apply list_elem_of_In, own_stmts_target in Hi as [Hi|Hi];
      rewrite Hi in Ht; [done|]. injection Ht as -> ->.
    exists cov. split; [done|]. left. by exists c.
  - destruct (overlay_of s t') as [imp|] eqn:Eo; [|by apply elem_of_nil in Hi].
    apply list_elem_of_In, in_flat_map in Hi as ([f' c] & Hf & Hi).
    apply list_elem_of_In, iteritems_elem_of in Hf.
    apply list_elem_of_In, import_stmts_target in Hi as [Hi|Hi];
      rewrite Hi in Ht; [done|]. injection Ht as -> ->.
    exists cov. split; [done|]. right. exists imp. split; [done|]. by exists c.
Qed.

(** X17: a test has an entry in the report's [tests] exactly when it was
    stopped and either recorded coverage of some file itself or the
    import-time coverage laid over it has some file. *)
Theorem test_in_report_iff (o : DictOrder) (s : Plugin) (t : string) :
  is_Some (a_data (assemble o s) !! t) ↔
  ∃ cov, test_cov_data s !! t = Some cov ∧
         (cov ≠ ∅ ∨ ∃ imp, overlay_of s t = Some imp ∧ imp ≠ ∅).
Proof.
  unfold assemble. split.
  - intros Hs. apply run_key_origin in Hs as (i & f & Hi & Ht); [|done].
    destruct (program_targets_test o s i t f Hi Ht)
      as (cov & Hc & [[c Hf]|(imp & Ho & [c Hf])]).
    + exists cov. split; [done|]. left. intros ->. by rewrite lookup_empty in Hf.
    + exists cov. split; [done|]. right. exists imp. split; [done|].
      intros ->. by rewrite lookup_empty in Hf.
  - intros (cov & Hc & Hsome). apply (iteritems_elem_of o) in Hc.
    assert (Hblock : ∀ i, i ∈ test_stmts o s (t, cov) → i ∈ program o s).
    { intros i Hi. unfold program. apply list_elem_of_In, in_flat_map.
      exists (t, cov). by rewrite <- !list_elem_of_In. }
    destruct Hsome as [Hne|(imp & Ho & Hne)].
    + apply map_choose in Hne as (f & c & Hf).
      apply (iteritems_elem_of o) in Hf.
      apply (run_key_created _ _ (SetCovered t f c) t f); [|done].
      apply Hblock. cbn [test_stmts]. apply elem_of_app. left.
      apply list_elem_of_In, in_flat_map. exists (f, c).
      rewrite <- list_elem_of_In. split; [done|]. cbn. tauto.
    + apply map_choose in Hne as (f & c & Hf).
      apply (iteritems_elem_of o) in Hf.
      apply (run_key_created _ _ (EnsureFile t f) t f); [|done].
      apply Hblock. cbn [test_stmts]. apply elem_of_app. right. rewrite Ho.
      apply list_elem_of_In, in_flat_map. exists (f, c).
      rewrite <- list_elem_of_In. split; [done|]. cbn. tauto.
Qed.

(** ** The further properties on concrete runs *)

Lemma prefix_flag_styles_agree_witness :
  ∃ s1 s2,
    configure Scenario.env (Scenario.prefix_options ["tests/"; "spec/"])
      = Some s1 ∧
    configure Scenario.env
      (Scenario.prefix_options [join_nl ["tests/"; "spec/"]]) = Some s2 ∧
    prefixes s1 = ["tests/"; "spec/"] ∧ prefixes s2 = ["tests/"; "spec/"].
Proof.
  eexists. eexists. split; [reflexivity|]. split; [reflexivity|].
  eapply (prefix_flag_styles_agree Scenario.env
            (Scenario.prefix_options ["tests/"; "spec/"])
            (Scenario.prefix_options [join_nl ["tests/"; "spec/"]])).
  - discriminate.
  - repeat constructor.
  - reflexivity.
  - reflexivity.
  - reflexivity.
  - reflexivity.
Defined.

Lemma report_written_iff_witness :
  is_Some (written
             (report forward_order
                (run_events forward_order (Scenario.configured 1)
                   [WantMethod (Scenario.test_in "tests/test_x.py");
                    ReportCall])).2) ↔
  opt_verbosity (Scenario.options 1) ≠ 0 ∧
  ¬ output_suppressed (quickunit_output (Scenario.options 1)) ∧
  reported [WantMethod (Scenario.test_in "tests/test_x.py"); ReportCall]
  = false.
Proof.
  apply (report_written_iff Scenario.env (Scenario.options 1) forward_order
           "" (Scenario.configured 1) (Scenario.configured 1)); reflexivity.
Defined.

Lemma begin_does_not_raise_witness :
  is_Some (begin_files Scenario.env
             [Scenario.header; Scenario.foo_diff "x = 1" "y = 2";
              Scenario.new_file]
             (Scenario.configured 1)).
Proof.
  apply begin_does_not_raise.
  apply Forall_cons. split; [by left|].
  apply Forall_cons. split; [right; split; by eexists|].
  apply Forall_cons. split; [right; split; by eexists|].
  apply Forall_nil_2.
Defined.

Lemma pending_paths_after_begin_witness :
  "tests/pkg/foo"
    ∈ pending_files (Scenario.begun [Scenario.foo_diff "x = 1" "y = 2"]) ↔
  "tests/pkg/foo" ∈ pending_files (Scenario.configured 1) ∨
  ∃ file name p,
    file ∈ [Scenario.foo_diff "x = 1" "y = 2"] ∧
    retained Scenario.env file = true ∧
    is_dev_null (old_filename file) = false ∧
    diff_key file = Some name ∧ p ∈ prefixes (Scenario.configured 1) ∧
    "tests/pkg/foo" = Py.path_join p (Py.rsplit_dot_head name).
Proof.
  apply (pending_paths_after_begin Scenario.env
           [Scenario.foo_diff "x = 1" "y = 2"] (Scenario.configured 1)).
  vm_compute. reflexivity.
Defined.

Lemma test_under_changed_module_selected_witness :
  (wantMethod (Scenario.begun [Scenario.foo_diff "x = 1" "y = 2"])
     (Scenario.test_in "/repo/tests/pkg/foo_test.py")).1 = true.
Proof.
  apply (test_under_changed_module_selected Scenario.env
           [Scenario.foo_diff "x = 1" "y = 2"] (Scenario.configured 1)
           (Scenario.begun [Scenario.foo_diff "x = 1" "y = 2"])
           (Scenario.foo_diff "x = 1" "y = 2")
           "tests" "pkg/foo" "py" "_test.py").
  - vm_compute. reflexivity.
  - constructor.
  - reflexivity.
  - reflexivity.
  - reflexivity.
  - reflexivity.
  - reflexivity.
  - constructor.
  - vm_compute. reflexivity.
Defined.

Lemma root_is_working_directory_witness :
  root (Scenario.begun [Scenario.modified "README.txt" []; Scenario.new_file])
    = Some ("/repo" ++ "/") ∧
  relative_filename
    (Scenario.begun [Scenario.modified "README.txt" []; Scenario.new_file])
    ("/repo" ++ "/" ++ "tests/pkg/test_foo.py") = "tests/pkg/test_foo.py".
Proof.
  apply (root_is_working_directory Scenario.env (Scenario.configured 1)
           (Scenario.begun [Scenario.modified "README.txt" [];
                            Scenario.new_file])
           "README.txt" "/repo" "tests/pkg/test_foo.py" []
           [Scenario.new_file]).
  - reflexivity.
  - discriminate.
  - reflexivity.
  - vm_compute. reflexivity.
Defined.

Lemma recorded_coverage_within_changes_witness :
  recorded_within_changes (Scenario.two_tests [1]).
Proof.
  apply (recorded_coverage_within_changes forward_order
           (Scenario.begun [Scenario.three_lines])).
  split; intros k cov f ls Hk; vm_compute in Hk; discriminate Hk.
Defined.

Lemma report_keeps_diff_data_witness :
  diff_data (report forward_order (Scenario.two_tests [1])).1
  = diff_data (Scenario.two_tests [1]).
Proof.
  apply (report_keeps_diff_data forward_order
           (Scenario.begun [Scenario.three_lines])).
  split; intros k cov f ls Hk; vm_compute in Hk; discriminate Hk.
Defined.

Lemma own_file_entry_witness :
  leaf (a_data (assemble forward_order (Scenario.two_tests [1])))
    "tests.test_a:A.test_a" "pkg/foo.py" 2 = Some 0.
Proof.
  rewrite (own_file_entry forward_order (Scenario.two_tests [1])
             "tests.test_a:A.test_a" "pkg/foo.py"
             {[ "pkg/foo.py" := {[1]} ]} {[1]} 2).
  - vm_compute. reflexivity.
  - vm_compute. reflexivity.
  - vm_compute. reflexivity.
Defined.

Lemma overlay_lines_are_covered_witness :
  leaf (a_data (assemble forward_order (Scenario.two_tests [1])))
    "tests.test_b:B.test_b" "pkg/foo.py" 2 = Some 1.
Proof.
  apply (overlay_lines_are_covered forward_order (Scenario.two_tests [1])
           "tests.test_b:B.test_b" "pkg/foo.py" ∅
           {[ "pkg/foo.py" := {[2]} ]} {[2]} 2).
  - vm_compute. reflexivity.
  - vm_compute. reflexivity.
  - vm_compute. reflexivity.
  - refine (bool_decide_unpack _ _). vm_compute. exact I.
Defined.

Lemma covered_at_most_total_witness :
  report forward_order (Scenario.two_tests [1])
  = ((report forward_order (Scenario.two_tests [1])).1,
     Returned
       (Some (default empty_report
                (written (report forward_order (Scenario.two_tests [1])).2)))) ∧
  (0 ≤ stats_covered
         (default empty_report
            (written (report forward_order (Scenario.two_tests [1])).2))
     ≤ stats_total
         (default empty_report
            (written (report forward_order (Scenario.two_tests [1])).2)))%Z.
Proof.
  assert (H : report forward_order (Scenario.two_tests [1])
              = ((report forward_order (Scenario.two_tests [1])).1,
                 Returned
                   (Some (default empty_report
                            (written
                               (report forward_order
                                  (Scenario.two_tests [1])).2)))))
    by (vm_compute; reflexivity).
  split; [exact H|].
  exact (covered_at_most_total forward_order (Scenario.two_tests [1]) _ _ H).
Defined.
